(** * SponsorBlockServer: the vote route (src/routes/voteOnSponsorTime.ts)

    A shallow embedding of [voteOnSponsorTime] and [categoryVote].  The two
    relational stores ([db] and [privateDB]) are records of tables; a table
    is the list of its rows in insertion order.  The three statement shapes
    the route uses are modelled on lists:
      - [prepare 'get']  : the first row that satisfies the WHERE clause;
      - [UPDATE ... SET] : every row that satisfies the WHERE clause;
      - [INSERT INTO]    : a new row at the end of the table.
    Vote counts are JavaScript numbers holding integers; they are modelled
    as [Z] (no rounding occurs below 2^53).  The webhook fan-out
    ([sendWebhooks]) and the cache invalidation ([QueryCacher]) happen after
    or beside the stores and do not touch them; they are left out. *)

From Stdlib Require Import ZArith List String Bool Lia.
Import ListNotations.
Local Open Scope string_scope.
Local Open Scope list_scope.
Local Open Scope Z_scope.

(** ** Identifiers *)

Definition SegmentUUID := string.
Definition UserID := string.
Definition Category := string.
Definition VideoID := string.
Definition VideoIDHash := string.
Definition Service := string.
Definition HashedIP := string.

Inductive CategoryActionType := Skippable | Mute.

Definition CategoryActionType_eqb (a b : CategoryActionType) : bool :=
  match a, b with
  | Skippable, Skippable | Mute, Mute => true
  | _, _ => false
  end.

(** ** Tables *)

Module SponsorTimes.
Record row := mk
  { UUID : SegmentUUID;
    videoID : VideoID;
    hashedVideoID : VideoIDHash;
    service : Service;
    userID : UserID;
    category : Category;
    votes : Z;
    incorrectVotes : Z;
    views : Z;
    locked : Z;
    timeSubmitted : Z }.

Definition set_votes (f : Z -> Z) (r : row) : row :=
  mk (UUID r) (videoID r) (hashedVideoID r) (service r) (userID r)
     (category r) (f (votes r)) (incorrectVotes r) (views r) (locked r)
     (timeSubmitted r).

Definition set_incorrectVotes (f : Z -> Z) (r : row) : row :=
  mk (UUID r) (videoID r) (hashedVideoID r) (service r) (userID r)
     (category r) (votes r) (f (incorrectVotes r)) (views r) (locked r)
     (timeSubmitted r).

Definition set_locked (l : Z) (r : row) : row :=
  mk (UUID r) (videoID r) (hashedVideoID r) (service r) (userID r)
     (category r) (votes r) (incorrectVotes r) (views r) l
     (timeSubmitted r).

Definition set_category (c : Category) (r : row) : row :=
  mk (UUID r) (videoID r) (hashedVideoID r) (service r) (userID r)
     c (votes r) (incorrectVotes r) (views r) (locked r)
     (timeSubmitted r).
End SponsorTimes.

Module LockCategories.
Record row := mk { videoID : VideoID; category : Category }.
End LockCategories.

Module Warnings.
Record row := mk { userID : UserID; issueTime : Z; enabled : Z }.
End Warnings.

(** The public per (segment, category) tallies. *)
Module CategoryVotes.
Record row := mk { UUID : SegmentUUID; category : Category; votes : Z }.

Definition set_votes (f : Z -> Z) (r : row) : row :=
  mk (UUID r) (category r) (f (votes r)).
End CategoryVotes.

(** The private vote ledger: one row per (segment, voter). *)
Module Votes.
Record row := mk
  { UUID : SegmentUUID; userID : UserID; hashedIP : HashedIP; type : Z }.

Definition set_type (t : Z) (r : row) : row :=
  mk (UUID r) (userID r) (hashedIP r) t.
End Votes.

(** The private record of which category a voter last chose. *)
Module PrivateCategoryVotes.
Record row := mk
  { UUID : SegmentUUID;
    userID : UserID;
    hashedIP : HashedIP;
    category : Category;
    timeSubmitted : Z }.

Definition retarget (c : Category) (t : Z) (ip : HashedIP) (r : row) : row :=
  mk (UUID r) (userID r) ip c t.
End PrivateCategoryVotes.

Module Db.
Record t := mk
  { sponsorTimes : list SponsorTimes.row;
    vipUsers : list UserID;
    lockCategories : list LockCategories.row;
    categoryVotes : list CategoryVotes.row;
    warnings : list Warnings.row }.

Definition set_sponsorTimes (f : list SponsorTimes.row -> list SponsorTimes.row)
    (d : t) : t :=
  mk (f (sponsorTimes d)) (vipUsers d) (lockCategories d) (categoryVotes d)
     (warnings d).

Definition set_categoryVotes (f : list CategoryVotes.row -> list CategoryVotes.row)
    (d : t) : t :=
  mk (sponsorTimes d) (vipUsers d) (lockCategories d) (f (categoryVotes d))
     (warnings d).
End Db.

Module PrivateDb.
Record t := mk
  { votes : list Votes.row;
    categoryVotes : list PrivateCategoryVotes.row;
    shadowBannedUsers : list UserID }.

Definition set_votes (f : list Votes.row -> list Votes.row) (d : t) : t :=
  mk (f (votes d)) (categoryVotes d) (shadowBannedUsers d).

Definition set_categoryVotes
    (f : list PrivateCategoryVotes.row -> list PrivateCategoryVotes.row)
    (d : t) : t :=
  mk (votes d) (f (categoryVotes d)) (shadowBannedUsers d).
End PrivateDb.

Record Stores := mkStores { db : Db.t; privateDB : PrivateDb.t }.

Definition on_db (f : Db.t -> Db.t) (s : Stores) : Stores :=
  mkStores (f (db s)) (privateDB s).

Definition on_privateDB (f : PrivateDb.t -> PrivateDb.t) (s : Stores) : Stores :=
  mkStores (db s) (f (privateDB s)).

(** ** The three statement shapes *)

Section Statements.
Context {A : Type}.

(** [prepare 'get', SELECT ... WHERE p]. *)
Definition get (p : A -> bool) (tbl : list A) : option A := find p tbl.

(** [SELECT count( * ) ... WHERE p]. *)
Definition count (p : A -> bool) (tbl : list A) : Z :=
  Z.of_nat (List.length (filter p tbl)).

(** [UPDATE ... SET f WHERE p]. *)
Definition update (p : A -> bool) (f : A -> A) (tbl : list A) : list A :=
  map (fun r => if p r then f r else r) tbl.

(** [INSERT INTO ... VALUES r]. *)
Definition insert (r : A) (tbl : list A) : list A := tbl ++ [r].
End Statements.

(** ** The HTTP response *)

Inductive Body :=
| Empty                      (* send() or send(undefined) *)
| StatusText                 (* sendStatus: the standard reason phrase *)
| Text (msg : string)        (* send(msg) *)
| Json (msg : string).       (* json({error: msg}) *)

Record Response := mkResponse { status : Z; body : Body }.

Definition sendStatus (code : Z) : Response := mkResponse code StatusText.

Record FinalResponse := mkFinal
  { finalStatus : Z; finalMessage : option string }.

(** [parseInt] yields a number or NaN. *)
Inductive Num := NaN | Int (z : Z).

(** [type == k] for the request's (possibly absent) parsed [type]. *)
Definition type_is (type : option Num) (k : Z) : bool :=
  match type with
  | Some (Int z) => z =? k
  | _ => false
  end.

Record Request := mkRequest
  { q_UUID : option SegmentUUID;
    q_userID : option string;
    q_type : option Num;          (* parseInt(req.query.type), when given *)
    q_category : option Category;
    ip : string }.                (* getIP(req) *)

Record Config := mkConfig
  { categoryList : list Category;
    hoursAfterWarningExpires : Z;
    maxNumberOfActiveWarnings : Z;
    globalSalt : string }.

Module voteTypes.
Definition normal : Z := 0.
Definition incorrect : Z := 1.
End voteTypes.

(** ** Queries *)

(** [SELECT ... FROM "sponsorTimes" WHERE "UUID" = ?]. *)
Definition segment (UUID : SegmentUUID) (d : Db.t) : option SponsorTimes.row :=
  get (fun r => String.eqb (SponsorTimes.UUID r) UUID) (Db.sponsorTimes d).

(** [SELECT count( * ) as "userCount" FROM "vipUsers" WHERE "userID" = ?],
    compared with zero. *)
Definition vipCount (u : UserID) (d : Db.t) : Z :=
  count (fun v => String.eqb v u) (Db.vipUsers d).

(** Line 269: [(...).userCount > 0], the voter is on the VIP list. *)
Definition onVipList (u : UserID) (d : Db.t) : bool := 0 <? vipCount u d.

(** Modelled from the spec: [isUserVIP] of utils/isUserVIP, which is not
    among the sources.  The spec gives VIP status as "user ID present in a
    privileged-user registry"; the registry is the "vipUsers" table that the
    route reads on line 269. *)
Definition isUserVIP (u : UserID) (d : Db.t) : bool := onVipList u d.

(** [SELECT "UUID" FROM "sponsorTimes" where "userID" = ? AND "UUID" = ?]. *)
Definition ownSubmission (u : UserID) (UUID : SegmentUUID) (d : Db.t)
  : option SponsorTimes.row :=
  get (fun r => String.eqb (SponsorTimes.userID r) u
                && String.eqb (SponsorTimes.UUID r) UUID)
      (Db.sponsorTimes d).

Definition is_some {A} (o : option A) : bool :=
  match o with Some _ => true | None => false end.

Definition is_none {A} (o : option A) : bool := negb (is_some o).

(** [!!(row)?.locked]. *)
Definition isSegmentLocked (UUID : SegmentUUID) (d : Db.t) : bool :=
  match segment UUID d with
  | Some r => negb (SponsorTimes.locked r =? 0)
  | None => false
  end.

(** The join of "lockCategories" with "sponsorTimes" on video and category,
    restricted to the rows of segment [UUID]. *)
Definition isVideoLocked (UUID : SegmentUUID) (d : Db.t) : bool :=
  existsb
    (fun l =>
       existsb
         (fun r => String.eqb (SponsorTimes.UUID r) UUID
                   && String.eqb (LockCategories.videoID l) (SponsorTimes.videoID r)
                   && String.eqb (LockCategories.category l) (SponsorTimes.category r))
         (Db.sponsorTimes d))
    (Db.lockCategories d).

(** [SELECT votes FROM "categoryVotes" WHERE "UUID" = ? and category = ?]. *)
Definition tallyRow (UUID : SegmentUUID) (c : Category) : CategoryVotes.row -> bool :=
  fun r => String.eqb (CategoryVotes.UUID r) UUID
           && String.eqb (CategoryVotes.category r) c.

Definition tally (UUID : SegmentUUID) (c : Category) (d : Db.t)
  : option CategoryVotes.row :=
  get (tallyRow UUID c) (Db.categoryVotes d).

(** The voter's rows in the private "categoryVotes" for one segment. *)
Definition voterRow (UUID : SegmentUUID) (u : UserID)
  : PrivateCategoryVotes.row -> bool :=
  fun r => String.eqb (PrivateCategoryVotes.UUID r) UUID
           && String.eqb (PrivateCategoryVotes.userID r) u.

(** The first group of a [group by category]: the groups come in the
    order of the grouping column (SQLite sorts the rows on it and compares
    text bytewise), so the first one is the smallest category present. *)
Fixpoint firstGroup (categories : list Category) : option Category :=
  match categories with
  | [] => None
  | c :: rest =>
      match firstGroup rest with
      | Some m => Some (if String.leb c m then c else m)
      | None => Some c
      end
  end.

(** [select count( * ) as votes, category ... where "UUID" = ? and
    "userID" = ? group by category], read with 'get': the first group, with
    the number of the voter's rows in it. *)
Definition usersLastVoteInfo (UUID : SegmentUUID) (u : UserID) (p : PrivateDb.t)
  : option (Z * Category) :=
  match firstGroup (map PrivateCategoryVotes.category
                        (filter (voterRow UUID u) (PrivateDb.categoryVotes p))) with
  | Some c =>
      Some (count (fun r' => voterRow UUID u r'
                             && String.eqb (PrivateCategoryVotes.category r') c)
                  (PrivateDb.categoryVotes p), c)
  | None => None
  end.

(** [SELECT "type" FROM "votes" WHERE "userID" = ? AND "UUID" = ?]. *)
Definition ledgerRow (u : UserID) (UUID : SegmentUUID) : Votes.row -> bool :=
  fun v => String.eqb (Votes.userID v) u && String.eqb (Votes.UUID v) UUID.

Definition votesRowOf (u : UserID) (UUID : SegmentUUID) (p : PrivateDb.t)
  : option Votes.row :=
  get (ledgerRow u UUID) (PrivateDb.votes p).

Definition MILLISECONDS_IN_HOUR : Z := 3600000.

(** [SELECT count(1) FROM warnings WHERE "userID" = ? AND "issueTime" > ?
    AND enabled = 1]. *)
Definition warningsCount (cfg : Config) (u : UserID) (now : Z) (d : Db.t) : Z :=
  count (fun w => String.eqb (Warnings.userID w) u
                  && (now - hoursAfterWarningExpires cfg * MILLISECONDS_IN_HOUR
                      <? Warnings.issueTime w)
                  && (Warnings.enabled w =? 1))
        (Db.warnings d).

(** [SELECT "userID" FROM "sponsorTimes" WHERE "userID" = ?]. *)
Definition hasSubmitted (u : UserID) (d : Db.t) : bool :=
  is_some (get (fun r => String.eqb (SponsorTimes.userID r) u) (Db.sponsorTimes d)).

(** [SELECT "userID" FROM "shadowBannedUsers" WHERE "userID" = ?]. *)
Definition shadowBanned (u : UserID) (p : PrivateDb.t) : bool :=
  is_some (get (fun b => String.eqb b u) (PrivateDb.shadowBannedUsers p)).

(** [SELECT "UUID" FROM "votes" WHERE "UUID" = ? AND "hashedIP" = ? AND
    "userID" != ?]. *)
Definition sameIPVote (UUID : SegmentUUID) (h : HashedIP) (u : UserID)
    (p : PrivateDb.t) : bool :=
  is_some (get (fun v => String.eqb (Votes.UUID v) UUID
                         && String.eqb (Votes.hashedIP v) h
                         && negb (String.eqb (Votes.userID v) u))
               (PrivateDb.votes p)).

(** ** The vote ledger's weights *)

(** Lines 327-340: the weight of the requested vote, [None] for an
    unrecognised type. *)
Definition incrementAmountOf (type : Z) : option Z :=
  if (type =? 1) || (type =? 11) then Some 1
  else if (type =? 0) || (type =? 10) then Some (-1)
  else if type =? 20 then Some 0
  else None.

(** Lines 341-364: the weight of the vote already in the ledger.  [type]
    is the type of the request being served, as the source tests it. *)
Definition oldIncrementAmountOf (votesRow : option Votes.row) (type : Z) : Z :=
  match votesRow with
  | None => 0
  | Some v =>
      let stored := Votes.type v in
      if (stored =? 1) || (type =? 11) then 1
      else if (stored =? 0) || (type =? 10) then -1
      else if stored =? 2 then -4
      else if stored =? 20 then 0
      else if stored <? 0 then stored
      else if stored =? 12 then -500
      else if stored =? 13 then 500
      else 0
  end.

(** [(type == 0 || type == 1) ? voteTypes.normal : voteTypes.incorrect]. *)
Definition voteTypeEnumOf (type : option Num) : Z :=
  if type_is type 0 || type_is type 1 then voteTypes.normal
  else voteTypes.incorrect.

(** Lines 370-382: the privileged weights.  The result is the pair
    [(incrementAmount, type)]; [None] is the TypeError of reading [votes] of
    a segment that does not exist. *)
Definition privilegedWeight (voteTypeEnum : Z) (isVIP isOwnSubmission : bool)
    (incrementAmount oldIncrementAmount type : Z)
    (videoInfo : option SponsorTimes.row) : option (Z * Z) :=
  if voteTypeEnum =? voteTypes.normal then
    if (isVIP || isOwnSubmission) && (incrementAmount <? 0) then
      match videoInfo with
      | Some v =>
          let incrementAmount' :=
            - (SponsorTimes.votes v + 2 - oldIncrementAmount) in
          Some (incrementAmount', incrementAmount')
      | None => None
      end
    else Some (incrementAmount, type)
  else if voteTypeEnum =? voteTypes.incorrect then
    if isVIP || isOwnSubmission then
      let incrementAmount' := 500 * incrementAmount in
      Some (incrementAmount', if incrementAmount' <? 0 then 12 else 13)
    else Some (incrementAmount, type)
  else Some (incrementAmount, type).

(** [Math.ceil(v / 2)] on an integer [v]. *)
Definition ceil_half (v : Z) : Z := - ((- v) / 2).

(** ** The route *)

Section Route.
Variable getHash : string -> string.
Variable config : Config.
Variable getCategoryActionType : Category -> CategoryActionType.

(** *** categoryVote *)

(** Lines 185-201: add the vote to the tally of [category], and record
    it for the voter, moving an earlier vote of theirs. *)
Definition addCategoryVote (UUID : SegmentUUID) (userID : UserID)
    (category : Category) (hashedIP : HashedIP) (voteAmount timeSubmitted : Z)
    (last : option (Z * Category)) (s : Stores) : Stores :=
  let s1 :=
    if 0 <? count (tallyRow UUID category) (Db.categoryVotes (db s)) then
      on_db (Db.set_categoryVotes
               (update (tallyRow UUID category)
                       (CategoryVotes.set_votes (fun v => v + voteAmount)))) s
    else
      on_db (Db.set_categoryVotes
               (insert (CategoryVotes.mk UUID category voteAmount))) s in
  let record :=
    on_privateDB
      (PrivateDb.set_categoryVotes
         (insert (PrivateCategoryVotes.mk UUID userID hashedIP category
                                          timeSubmitted))) in
  match last with
  | Some (n, lastCategory) =>
      if 0 <? n then
        let s2 :=
          on_db (Db.set_categoryVotes
                   (update (tallyRow UUID lastCategory)
                           (CategoryVotes.set_votes (fun v => v - voteAmount))))
                s1 in
        on_privateDB
          (PrivateDb.set_categoryVotes
             (update (voterRow UUID userID)
                     (PrivateCategoryVotes.retarget category timeSubmitted
                                                    hashedIP)))
          s2
      else record s1
  | None => record s1
  end.

(** Line 208: [startingVotes]. *)
Definition startingVotes (submissionInfo : option SponsorTimes.row) (d : Db.t) : Z :=
  match submissionInfo with
  | Some sub => if isUserVIP (SponsorTimes.userID sub) d then 10000 else 1
  | None => 1
  end.

(** Line 212: [currentCategoryCount]. *)
Definition currentCategoryCountOf (currentCategoryInfo : option CategoryVotes.row)
    (submissionInfo : option SponsorTimes.row) (d : Db.t) : Z :=
  match currentCategoryInfo with
  | None => startingVotes submissionInfo d
  | Some cur => CategoryVotes.votes cur
  end.

(** Lines 215-219: add the submission as a vote for its own category. *)
Definition seedIncumbent (UUID : SegmentUUID) (incumbent : Category)
    (s : Stores) : Stores :=
  let currentCategoryInfo := tally UUID incumbent (db s) in
  let submissionInfo := segment UUID (db s) in
  match currentCategoryInfo, submissionInfo with
  | None, Some sub =>
      let s1 :=
        on_db (Db.set_categoryVotes
                 (insert (CategoryVotes.mk UUID incumbent
                            (currentCategoryCountOf currentCategoryInfo
                                                    submissionInfo (db s))))) s in
      on_privateDB
        (PrivateDb.set_categoryVotes
           (insert (PrivateCategoryVotes.mk UUID (SponsorTimes.userID sub)
                      "unknown" incumbent (SponsorTimes.timeSubmitted sub))))
        s1
  | _, _ => s
  end.

(** Line 221: [(nextCategoryInfo?.votes || 0) + voteAmount]. *)
Definition nextCategoryCountOf (nextCategoryInfo : option CategoryVotes.row)
    (voteAmount : Z) : Z :=
  match nextCategoryInfo with
  | Some nxt => CategoryVotes.votes nxt + voteAmount
  | None => 0 + voteAmount
  end.

(** Line 225.  Without a segment row the right-hand side is NaN and the
    comparison is false. *)
Definition readyToChange (nextCategoryCount currentCategoryCount : Z)
    (submissionInfo : option SponsorTimes.row)
    (isVIP isOwnSubmission : bool) : bool :=
  match submissionInfo with
  | Some sub =>
      Z.max (ceil_half (SponsorTimes.votes sub)) 2
      <=? nextCategoryCount - currentCategoryCount
  | None => false
  end
  || isVIP || isOwnSubmission.

(** Line 227. *)
Definition replaceCategory (UUID : SegmentUUID) (category : Category)
    (s : Stores) : Stores :=
  on_db (Db.set_sponsorTimes
           (update (fun r => String.eqb (SponsorTimes.UUID r) UUID)
                   (SponsorTimes.set_category category))) s.

Definition categoryVote (UUID : SegmentUUID) (userID : UserID)
    (isVIP isOwnSubmission : bool) (category : Category) (hashedIP : HashedIP)
    (finalResponse : FinalResponse) (now : Z) (s : Stores)
  : Stores * Response :=
  let last := usersLastVoteInfo UUID userID (privateDB s) in
  if match last with
     | Some (_, c) => String.eqb c category
     | None => false
     end
  then (s, sendStatus (finalStatus finalResponse))
  else
    match segment UUID (db s) with
    | None => (s, mkResponse 400 (Text "Submission doesn't exist."))
    | Some videoInfo =>
        if negb (existsb (String.eqb category) (categoryList config)) then
          (s, mkResponse 400 (Text "Category doesn't exist."))
        else if negb (CategoryActionType_eqb (getCategoryActionType category)
                                             Skippable) then
          (s, mkResponse 400 (Text "Cannot vote for this category"))
        else
          let nextCategoryInfo := tally UUID category (db s) in
          let timeSubmitted := now in
          let voteAmount := if isVIP then 500 else 1 in
          let ableToVote :=
            isVIP || (finalStatus finalResponse =? 200) || true in
          let s' :=
            if ableToVote then
              let s1 := addCategoryVote UUID userID category hashedIP
                                        voteAmount timeSubmitted last s in
              let incumbent := SponsorTimes.category videoInfo in
              let currentCategoryInfo := tally UUID incumbent (db s1) in
              let submissionInfo := segment UUID (db s1) in
              let currentCategoryCount :=
                currentCategoryCountOf currentCategoryInfo submissionInfo
                                       (db s1) in
              let s2 := seedIncumbent UUID incumbent s1 in
              let nextCategoryCount :=
                nextCategoryCountOf nextCategoryInfo voteAmount in
              if readyToChange nextCategoryCount currentCategoryCount
                               submissionInfo isVIP isOwnSubmission
              then replaceCategory UUID category s2
              else s2
            else s in
          (s', sendStatus (finalStatus finalResponse))
    end.

(** *** voteOnSponsorTime *)

Definition lockedMessage : string :=
  "Vote rejected: A moderator has decided that this segment is correct".

Definition warningMessage : string :=
  "Vote rejected due to a warning from a moderator. This means that we noticed you were making some common mistakes that are not malicious, and we just want to clarify the rules. Could you please send a message in Discord or Matrix so we can further help you?".

Definition suppressedMessage : string :=
  "Not allowed to upvote segment with too many downvotes unless you are VIP.".

(** Lines 257-285: the response prepared before any branch is taken. *)
Definition lockGate (UUID : SegmentUUID) (isVIP : bool) (type : option Num)
    (d : Db.t) : FinalResponse :=
  if negb isVIP && negb (type_is type 1) then
    if isSegmentLocked UUID d || isVideoLocked UUID d then
      mkFinal 403 (Some lockedMessage)
    else mkFinal 200 None
  else mkFinal 200 None.

(** Lines 291-295: an unprivileged vote on a segment at or below -2. *)
Definition suppressedFor (UUID : SegmentUUID) (isVIP isOwnSubmission : bool)
    (type : option Num) (d : Db.t) : bool :=
  is_some type && negb isVIP && negb isOwnSubmission
  && match segment UUID d with
     | Some voteInfo => SponsorTimes.votes voteInfo <=? -2
     | None => false
     end.

(** Lines 385-390. *)
Definition ableToVoteOf (isVIP isOwnSubmission : bool) (incrementAmount : Z)
    (nonAnonUserID userID : UserID) (UUID : SegmentUUID) (hashedIP : HashedIP)
    (finalResponse : FinalResponse) (s : Stores) : bool :=
  isVIP
  || ((negb (isOwnSubmission && (0 <? incrementAmount))
       && hasSubmitted nonAnonUserID (db s)
       && negb (shadowBanned nonAnonUserID (privateDB s))
       && negb (sameIPVote UUID hashedIP userID (privateDB s)))
      && (finalStatus finalResponse =? 200)).

(** Lines 394-398: upsert of the ledger row. *)
Definition recordVote (votesRow : option Votes.row) (UUID : SegmentUUID)
    (userID : UserID) (hashedIP : HashedIP) (type : Z) (s : Stores) : Stores :=
  match votesRow with
  | Some _ =>
      on_privateDB
        (PrivateDb.set_votes (update (ledgerRow userID UUID) (Votes.set_type type)))
        s
  | None =>
      on_privateDB
        (PrivateDb.set_votes (insert (Votes.mk UUID userID hashedIP type))) s
  end.

(** Lines 400-409: the relative increment of the chosen counter. *)
Definition addToCounter (voteTypeEnum : Z) (UUID : SegmentUUID) (delta : Z)
    (s : Stores) : Stores :=
  let bump :=
    if voteTypeEnum =? voteTypes.normal
    then SponsorTimes.set_votes (fun v => v + delta)
    else SponsorTimes.set_incorrectVotes (fun v => v + delta) in
  on_db (Db.set_sponsorTimes
           (update (fun r => String.eqb (SponsorTimes.UUID r) UUID) bump)) s.

(** Lines 410-416. *)
Definition adjustLock (voteTypeEnum : Z) (isVIP : bool) (incrementAmount : Z)
    (UUID : SegmentUUID) (s : Stores) : Stores :=
  let setLocked l :=
    on_db (Db.set_sponsorTimes
             (update (fun r => String.eqb (SponsorTimes.UUID r) UUID)
                     (SponsorTimes.set_locked l))) s in
  if isVIP && (0 <? incrementAmount) && (voteTypeEnum =? voteTypes.normal)
  then setLocked 1
  else if isVIP && (incrementAmount <? 0) && (voteTypeEnum =? voteTypes.normal)
  then setLocked 0
  else s.

(** Lines 319-441: the body of the [try] block; its [catch] answers 500. *)
Definition applyScoreVote (UUID : SegmentUUID) (nonAnonUserID userID : UserID)
    (hashedIP : HashedIP) (isVIP isOwnSubmission : bool) (type : option Num)
    (finalResponse : FinalResponse) (s : Stores) : Stores * Response :=
  let voteTypeEnum := voteTypeEnumOf type in
  let votesRow := votesRowOf userID UUID (privateDB s) in
  match type with
  | Some (Int requested) =>
      match incrementAmountOf requested with
      | None => (s, sendStatus 400)
      | Some plain =>
          let oldIncrementAmount := oldIncrementAmountOf votesRow requested in
          let videoInfo := segment UUID (db s) in
          match privilegedWeight voteTypeEnum isVIP isOwnSubmission
                  plain oldIncrementAmount requested videoInfo with
          | None =>
              (s, mkResponse 500 (Json "Internal error creating segment vote"))
          | Some (incrementAmount, type') =>
              let ableToVote :=
                ableToVoteOf isVIP isOwnSubmission incrementAmount
                  nonAnonUserID userID UUID hashedIP finalResponse s in
              let s' :=
                if ableToVote then
                  let s1 := recordVote votesRow UUID userID hashedIP type' s in
                  let s2 := addToCounter voteTypeEnum UUID
                              (incrementAmount - oldIncrementAmount) s1 in
                  adjustLock voteTypeEnum isVIP incrementAmount UUID s2
                else s in
              (s', mkResponse (finalStatus finalResponse)
                     match finalMessage finalResponse with
                     | Some m => Text m
                     | None => Empty
                     end)
          end
      end
  | _ => (s, sendStatus 400)
  end.

Definition voteOnSponsorTime (req : Request) (now : Z) (s : Stores)
  : Stores * Response :=
  match q_UUID req, q_userID req with
  | Some UUID, Some paramUserID =>
      let type := q_type req in
      if is_none type && is_none (q_category req) then (s, sendStatus 400)
      else
        let nonAnonUserID := getHash paramUserID in
        let userID := getHash (String.append paramUserID UUID) in
        let hashedIP := getHash (String.append (ip req) (globalSalt config)) in
        let isVIP := onVipList nonAnonUserID (db s) in
        let isOwnSubmission := is_some (ownSubmission nonAnonUserID UUID (db s)) in
        let finalResponse := lockGate UUID isVIP type (db s) in
        match type, q_category req with
        | None, Some category =>
            categoryVote UUID nonAnonUserID isVIP isOwnSubmission category
                         hashedIP finalResponse now s
        | _, _ =>
            let suppressed :=
              suppressedFor UUID isVIP isOwnSubmission type (db s) in
            if suppressed && type_is type 1 then
              (s, mkResponse 403 (Text suppressedMessage))
            else if suppressed && type_is type 0 then
              (s, mkResponse 200 Empty)
            else if maxNumberOfActiveWarnings config
                    <=? warningsCount config nonAnonUserID now (db s) then
              (s, mkResponse 403 (Text warningMessage))
            else
              applyScoreVote UUID nonAnonUserID userID hashedIP isVIP
                             isOwnSubmission type finalResponse s
        end
  | _, _ => (s, sendStatus 400)
  end.

End Route.

(** Line 153 does not hold: the vote is not a repeat of the voter's last
    category vote. *)
Definition notDuplicate (last : option (Z * Category)) (category : Category)
  : Prop :=
  match last with
  | Some (_, c) => String.eqb c category
  | None => false
  end = false.

(** ** A small installation, used to run the route *)

Definition demoHash (x : string) : string := String.append "h:" x.

Definition demoConfig : Config :=
  mkConfig ["sponsor"; "selfpromo"; "intro"] 24 3 "salt".

Definition demoActionType (c : Category) : CategoryActionType :=
  if String.eqb c "highlight" then Mute else Skippable.

(** One segment, submitted by "alice" with one vote in its favour; "vera"
    is a VIP, "bob" has submitted elsewhere, "wally" has three fresh
    warnings. *)
Definition demoSegment (votes locked : Z) : SponsorTimes.row :=
  SponsorTimes.mk "seg1" "vid1" "hvid1" "YouTube" "h:alice" "sponsor"
                  votes 0 10 locked 1000.

Definition bobsSegment : SponsorTimes.row :=
  SponsorTimes.mk "seg2" "vid2" "hvid2" "YouTube" "h:bob" "intro" 0 0 0 0 1000.

Definition wallysSegment : SponsorTimes.row :=
  SponsorTimes.mk "seg3" "vid3" "hvid3" "YouTube" "h:wally" "intro" 0 0 0 0 1000.

Definition demoWarnings : list Warnings.row :=
  [Warnings.mk "h:wally" 5000 1; Warnings.mk "h:wally" 5001 1;
   Warnings.mk "h:wally" 5002 1].

Definition demoDb (votes locked : Z) : Db.t :=
  Db.mk [demoSegment votes locked; bobsSegment; wallysSegment]
        ["h:vera"] [] [] demoWarnings.

Definition demoStores (votes locked : Z) (ledger : list Votes.row) : Stores :=
  mkStores (demoDb votes locked) (PrivateDb.mk ledger [] []).

Definition scoreRequestOn (UUID : SegmentUUID) (who : string) (type : Z)
  : Request :=
  mkRequest (Some UUID) (Some who) (Some (Int type)) None "10.0.0.1".

Definition scoreRequest (who : string) (type : Z) : Request :=
  scoreRequestOn "seg1" who type.

Definition categoryRequest (who : string) (c : Category) : Request :=
  mkRequest (Some "seg1") (Some who) None (Some c) "10.0.0.1".

Definition demoVote (req : Request) (s : Stores) : Stores * Response :=
  voteOnSponsorTime demoHash demoConfig demoActionType req 6000 s.

(** A ledger in which "bob" has already cast a plain downvote on "seg1". *)
Definition bobsDownvote : list Votes.row :=
  [Votes.mk "seg1" "h:bobseg1" "h:10.0.0.1salt" 0].

(** The weight of a stored type code as the specification tabulates it,
    for comparison with [oldIncrementAmountOf]: 1 is +1, 0 is -1, 2 is -4,
    20 is 0, a negative code is its own weight, 12 is -500, 13 is +500.
    Codes outside the table weigh 0, the source's initial value. *)
Definition tabulatedWeight (stored : Z) : Z :=
  if stored =? 1 then 1
  else if stored =? 0 then -1
  else if stored =? 2 then -4
  else if stored =? 20 then 0
  else if stored <? 0 then stored
  else if stored =? 12 then -500
  else if stored =? 13 then 500
  else 0.

(** Two segment rows that agree in every column but the category. *)
Definition sameButCategory (r r' : SponsorTimes.row) : Prop :=
  SponsorTimes.UUID r' = SponsorTimes.UUID r
  /\ SponsorTimes.videoID r' = SponsorTimes.videoID r
  /\ SponsorTimes.hashedVideoID r' = SponsorTimes.hashedVideoID r
  /\ SponsorTimes.service r' = SponsorTimes.service r
  /\ SponsorTimes.userID r' = SponsorTimes.userID r
  /\ SponsorTimes.votes r' = SponsorTimes.votes r
  /\ SponsorTimes.incorrectVotes r' = SponsorTimes.incorrectVotes r
  /\ SponsorTimes.views r' = SponsorTimes.views r
  /\ SponsorTimes.locked r' = SponsorTimes.locked r
  /\ SponsorTimes.timeSubmitted r' = SponsorTimes.timeSubmitted r.

(** The demo installation with tallies already standing at 2 for
    "selfpromo" and 1 for "sponsor" on the demo segment. *)
Definition talliedStores (votes locked : Z) : Stores :=
  mkStores
    (Db.mk [demoSegment votes locked; bobsSegment; wallysSegment] ["h:vera"] []
           [CategoryVotes.mk "seg1" "selfpromo" 2;
            CategoryVotes.mk "seg1" "sponsor" 1]
           demoWarnings)
    (PrivateDb.mk [] [] []).

(** The demo installation with "wally", who has three fresh warnings, on
    the VIP list as well. *)
Definition warnedVipStores (votes locked : Z) : Stores :=
  mkStores
    (Db.mk [demoSegment votes locked; bobsSegment; wallysSegment]
           ["h:vera"; "h:wally"] [] [] demoWarnings)
    (PrivateDb.mk [] [] []).

(** A category vote on any segment of the demo installation. *)
Definition categoryRequestOn (UUID : SegmentUUID) (who : string) (c : Category)
  : Request :=
  mkRequest (Some UUID) (Some who) None (Some c) "10.0.0.1".

(** The tables the route only reads: the VIP list, the category locks, the
    warnings and the shadow bans. *)
Definition registries (s : Stores)
  : list UserID * list LockCategories.row * list Warnings.row * list UserID :=
  (Db.vipUsers (db s), Db.lockCategories (db s), Db.warnings (db s),
   PrivateDb.shadowBannedUsers (privateDB s)).

(** The rows of segment [UUID], as every UPDATE of "sponsorTimes" selects
    them. *)
Definition segmentRow (UUID : SegmentUUID) : SponsorTimes.row -> bool :=
  fun r => String.eqb (SponsorTimes.UUID r) UUID.

(** The plain and the "incorrect" counter of a segment, and its lock. *)
Definition votesOf (UUID : SegmentUUID) (s : Stores) : option Z :=
  option_map SponsorTimes.votes (segment UUID (db s)).

Definition incorrectVotesOf (UUID : SegmentUUID) (s : Stores) : option Z :=
  option_map SponsorTimes.incorrectVotes (segment UUID (db s)).

Definition lockedOf (UUID : SegmentUUID) (s : Stores) : option Z :=
  option_map SponsorTimes.locked (segment UUID (db s)).

(** * Properties *)

(** ** Facts about the statement shapes *)

Section TableFacts.
Context {A : Type}.
Implicit Types (p q : A -> bool) (f : A -> A) (tbl : list A).

Lemma get_update p q f tbl :
  (forall r, p (f r) = p r) ->
  get p (update q f tbl)
  = option_map (fun r => if q r then f r else r) (get p tbl).
Proof.
  intros Hp. unfold get, update.
  induction tbl as [|r tbl IH]; simpl; [reflexivity|].
  assert (Hr : p (if q r then f r else r) = p r)
    by (destruct (q r); [apply Hp | reflexivity]).
  rewrite Hr. destruct (p r); [reflexivity | exact IH].
Qed.

Lemma get_insert p r tbl :
  get p (insert r tbl)
  = match get p tbl with
    | Some x => Some x
    | None => if p r then Some r else None
    end.
Proof.
  unfold get, insert.
  induction tbl as [|x tbl IH]; simpl; [reflexivity|].
  destruct (p x); [reflexivity | exact IH].
Qed.

Lemma get_update_same p f tbl :
  (forall r, p (f r) = p r) ->
  get p (update p f tbl) = option_map f (get p tbl).
Proof.
  intros Hp. rewrite get_update by exact Hp.
  destruct (get p tbl) as [r|] eqn:Hg; [|reflexivity].
  apply find_some in Hg as [_ Hr]. simpl. rewrite Hr. reflexivity.
Qed.

Lemma get_insert_fresh p r tbl :
  get p tbl = None -> p r = true -> get p (insert r tbl) = Some r.
Proof. intros Hn Hr. rewrite get_insert, Hn, Hr. reflexivity. Qed.

Lemma count_positive p tbl : (0 <? count p tbl) = is_some (get p tbl).
Proof.
  unfold count, get.
  induction tbl as [|x tbl IH]; simpl; [reflexivity|].
  destruct (p x); simpl; [|exact IH].
  apply Z.ltb_lt. lia.
Qed.

Lemma count_insert p r tbl :
  count p (insert r tbl) = count p tbl + (if p r then 1 else 0).
Proof.
  unfold count, insert. rewrite filter_app, length_app. simpl.
  destruct (p r); simpl; lia.
Qed.

Lemma count_none p tbl : get p tbl = None -> count p tbl = 0.
Proof.
  intros H. pose proof (count_positive p tbl) as Hc.
  rewrite H in Hc. simpl in Hc. apply Z.ltb_ge in Hc.
  unfold count in *. lia.
Qed.

Lemma count_update p q f tbl :
  (forall r, p (f r) = p r) -> count p (update q f tbl) = count p tbl.
Proof.
  intros Hp. unfold count, update. f_equal.
  induction tbl as [|r tbl IH]; simpl; [reflexivity|].
  assert (Hr : p (if q r then f r else r) = p r)
    by (destruct (q r); [apply Hp | reflexivity]).
  rewrite Hr. destruct (p r); simpl; now rewrite IH.
Qed.
End TableFacts.

(** A locked segment is a segment. *)
Lemma locked_segment_exists UUID d :
  isSegmentLocked UUID d || isVideoLocked UUID d = true ->
  exists r, segment UUID d = Some r.
Proof.
  unfold isSegmentLocked, isVideoLocked, segment, get.
  destruct (find _ (Db.sponsorTimes d)) as [r|] eqn:Hf; [eauto|].
  simpl. intros H. apply existsb_exists in H as (l & _ & H).
  apply existsb_exists in H as (r & Hin & H).
  apply andb_prop in H as [H _]. apply andb_prop in H as [H _].
  pose proof (find_none _ _ Hf r Hin) as Hn. simpl in Hn. congruence.
Qed.

(** The owner's row is a row of the segment. *)
Lemma own_segment_exists u UUID d :
  is_some (ownSubmission u UUID d) = true -> exists r, segment UUID d = Some r.
Proof.
  unfold ownSubmission, segment, get.
  destruct (find _ (Db.sponsorTimes d)) as [r|] eqn:Hown; [|discriminate].
  intros _. apply find_some in Hown as [Hin Hp].
  apply andb_prop in Hp as [_ Hp].
  destruct (find (fun r0 => String.eqb (SponsorTimes.UUID r0) UUID)
                 (Db.sponsorTimes d)) as [x|] eqn:Hf; [eauto|].
  pose proof (find_none _ _ Hf r Hin) as Hn. simpl in Hn. congruence.
Qed.

Section RouteFacts.
Variable getHash : string -> string.
Variable config : Config.
Variable getCategoryActionType : Category -> CategoryActionType.

Local Abbreviation vote := (voteOnSponsorTime getHash config getCategoryActionType).

(** C7: on a segment whose score is at or below -2, a voter who is
    neither VIP nor the owner gets status 403 and a message for a plain
    upvote (type 1), and status 200 with an empty body for a plain
    downvote (type 0); in both cases the stores are left as they were. *)
Theorem suppressed_segment_gate
    (UUID : SegmentUUID) (paramUserID : string) (category : option Category)
    (addr : string) (now : Z) (s : Stores) (seg : SponsorTimes.row) :
  segment UUID (db s) = Some seg ->
  SponsorTimes.votes seg <= -2 ->
  onVipList (getHash paramUserID) (db s) = false ->
  ownSubmission (getHash paramUserID) UUID (db s) = None ->
  vote (mkRequest (Some UUID) (Some paramUserID) (Some (Int 1)) category addr)
       now s
  = (s, mkResponse 403 (Text suppressedMessage))
  /\ vote (mkRequest (Some UUID) (Some paramUserID) (Some (Int 0)) category addr)
          now s
     = (s, mkResponse 200 Empty).
Proof.
  intros Hseg Hlow Hvip Hown.
 
  assert (Hsup : forall t,
             suppressedFor UUID false false (Some t) (db s) = true).
  { intros t. unfold suppressedFor. rewrite Hseg. simpl.
    apply Z.leb_le. exact Hlow. }
  split; unfold voteOnSponsorTime; simpl; rewrite Hvip, Hown; simpl;
    rewrite Hsup; simpl; destruct category; reflexivity.
Qed.

Lemma type_is_not_upvote (t : Num) : t <> Int 1 -> type_is (Some t) 1 = false.
Proof.
  intros Ht. destruct t as [|z]; simpl; [reflexivity|].
  apply Z.eqb_neq. intros ->. now apply Ht.
Qed.

Lemma lockGate_locked UUID (t : Num) d :
  t <> Int 1 ->
  isSegmentLocked UUID d || isVideoLocked UUID d = true ->
  lockGate UUID false (Some t) d = mkFinal 403 (Some lockedMessage).
Proof.
  intros Ht Hl. unfold lockGate.
  rewrite (type_is_not_upvote t Ht), Hl. reflexivity.
Qed.

Lemma lockGate_upvote UUID isVIP d :
  lockGate UUID isVIP (Some (Int 1)) d = mkFinal 200 None.
Proof. unfold lockGate. simpl. rewrite andb_false_r. reflexivity. Qed.

Lemma ableToVote_needs_200 isOwn inc nonAnon userID UUID hashedIP fr s :
  finalStatus fr <> 200 ->
  ableToVoteOf false isOwn inc nonAnon userID UUID hashedIP fr s = false.
Proof.
  intros H. unfold ableToVoteOf. simpl.
  apply Z.eqb_neq in H. rewrite H. apply andb_false_r.
Qed.

Lemma applyScoreVote_not_able UUID nonAnon userID hashedIP isOwn type fr s :
  finalStatus fr <> 200 ->
  fst (applyScoreVote UUID nonAnon userID hashedIP false isOwn type fr s) = s.
Proof.
  intros H. unfold applyScoreVote.
  destruct type as [[|z]|]; try reflexivity.
  destruct (incrementAmountOf z); [|reflexivity]. cbn zeta.
  destruct (privilegedWeight _ _ _ _ _ _ _) as [[inc ty]|]; [|reflexivity].
  rewrite ableToVote_needs_200 by exact H. reflexivity.
Qed.

Lemma privilegedWeight_defined vte isVIP isOwn inc old t seg :
  exists p, privilegedWeight vte isVIP isOwn inc old t (Some seg) = Some p.
Proof.
  unfold privilegedWeight.
  repeat match goal with
         | |- context [if ?b then _ else _] => destruct b
         end; eauto.
Qed.

(** X25: a score vote other than a plain upvote, cast by a voter who is
    not VIP on a lock-protected segment, leaves both stores untouched; when
    it has a recognised type and is stopped neither by the
    suppressed-segment gate nor by the warning check, the caller receives
    status 403 with the moderator's message.  A category vote on such a
    segment for a valid category is answered with status 403 as well. *)
Theorem locked_segment_score_vote_is_noop
    (UUID : SegmentUUID) (paramUserID : string) (t : Num)
    (category : option Category) (addr : string) (now : Z) (s : Stores) :
  onVipList (getHash paramUserID) (db s) = false ->
  t <> Int 1 ->
  isSegmentLocked UUID (db s) || isVideoLocked UUID (db s) = true ->
  let req := mkRequest (Some UUID) (Some paramUserID) (Some t) category addr in
  let isOwn := is_some (ownSubmission (getHash paramUserID) UUID (db s)) in
  fst (vote req now s) = s
  /\ (suppressedFor UUID false isOwn (Some t) (db s) && type_is (Some t) 0 = false ->
      warningsCount config (getHash paramUserID) now (db s)
      < maxNumberOfActiveWarnings config ->
      (exists z inc, t = Int z /\ incrementAmountOf z = Some inc) ->
      snd (vote req now s) = mkResponse 403 (Text lockedMessage))
  /\ (forall c,
        existsb (String.eqb c) (categoryList config) = true ->
        getCategoryActionType c = Skippable ->
        snd (vote (mkRequest (Some UUID) (Some paramUserID) None (Some c) addr)
                  now s)
        = sendStatus 403).
Proof.
  intros Hvip Ht Hlocked req isOwn.
  destruct (locked_segment_exists _ _ Hlocked) as [seg Hseg].
  assert (Hup : type_is (Some t) 1 = false) by now apply type_is_not_upvote.
  split; [|split].
  - unfold req, voteOnSponsorTime. cbn [q_UUID q_userID q_type q_category ip].
    rewrite Hvip, (lockGate_locked UUID t (db s) Ht Hlocked).
    cbn [is_none is_some negb andb]. rewrite Hup, andb_false_r.
    assert (Hgo : forall (b1 b2 : bool) (r1 r2 : Response) (x : Stores * Response),
               fst x = s ->
               fst (if b1 then (s, r1) else if b2 then (s, r2) else x) = s)
      by (intros b1 b2 ? ? ? ?; destruct b1, b2; auto).
    destruct category; apply Hgo; apply applyScoreVote_not_able; simpl; lia.
  - intros Hsup Hwarn (z & inc & -> & Hinc).
    unfold req, voteOnSponsorTime. cbn [q_UUID q_userID q_type q_category ip].
    rewrite Hvip, (lockGate_locked UUID (Int z) (db s) Ht Hlocked).
    cbn [is_none is_some negb andb]. fold isOwn.
    rewrite Hup, andb_false_r, Hsup.
    apply Z.leb_gt in Hwarn. rewrite Hwarn.
    unfold applyScoreVote. rewrite Hinc, Hseg.
    destruct (privilegedWeight_defined (voteTypeEnumOf (Some (Int z))) false
                isOwn inc
                (oldIncrementAmountOf
                   (votesRowOf (getHash (String.append paramUserID UUID)) UUID
                               (privateDB s)) z) z seg)
      as [[inc' ty] Hpw].
    destruct category; cbn zeta; rewrite Hpw; reflexivity.
  - intros c Hin Hskip.
    unfold voteOnSponsorTime. cbn [q_UUID q_userID q_type q_category ip].
    rewrite Hvip.
    assert (Hgate : lockGate UUID false None (db s)
                    = mkFinal 403 (Some lockedMessage)).
    { unfold lockGate. simpl. rewrite Hlocked. reflexivity. }
    rewrite Hgate. cbn [is_none is_some negb andb].
    unfold categoryVote. rewrite Hseg, Hin, Hskip. simpl.
    destruct (match usersLastVoteInfo UUID (getHash paramUserID) (privateDB s) with
              | Some (_, c0) => String.eqb c0 c
              | None => false
              end); reflexivity.
Qed.

(** *** What the three writes of a score vote do to a segment's row *)

Lemma segment_addToCounter vte UUID delta s :
  segment UUID (db (addToCounter vte UUID delta s))
  = option_map (if vte =? voteTypes.normal
                then SponsorTimes.set_votes (fun v => v + delta)
                else SponsorTimes.set_incorrectVotes (fun v => v + delta))
               (segment UUID (db s)).
Proof.
  unfold segment, addToCounter. simpl.
  apply get_update_same. intros r. destruct (vte =? voteTypes.normal); reflexivity.
Qed.

Lemma segment_setLocked UUID l s :
  segment UUID
    (db (on_db (Db.set_sponsorTimes
                  (update (fun r => String.eqb (SponsorTimes.UUID r) UUID)
                          (SponsorTimes.set_locked l))) s))
  = option_map (SponsorTimes.set_locked l) (segment UUID (db s)).
Proof. unfold segment. simpl. now apply get_update_same. Qed.

Lemma ledger_recordVote row UUID userID hashedIP ty s :
  row = votesRowOf userID UUID (privateDB s) ->
  option_map Votes.type
    (votesRowOf userID UUID (privateDB (recordVote row UUID userID hashedIP ty s)))
  = Some ty.
Proof.
  intros ->. unfold recordVote, votesRowOf.
  destruct (get (ledgerRow userID UUID) (PrivateDb.votes (privateDB s)))
    as [v|] eqn:Hrow; simpl.
  - rewrite get_update_same by reflexivity. rewrite Hrow. reflexivity.
  - rewrite get_insert_fresh; [reflexivity | exact Hrow |].
    unfold ledgerRow. simpl. now rewrite !String.eqb_refl.
Qed.

(** C5, as amended: a score vote by a voter with at least the configured
    number of active warnings changes neither store.  It is answered with
    status 403 and the warning message, unless the suppressed-segment gate,
    which comes first, answers it: 403 with the gate's message for a plain
    upvote, 200 for a plain downvote.  (Category votes are dispatched before
    the warning count is read and are not covered.) *)
Theorem warned_voter_score_vote_rejected
    (UUID : SegmentUUID) (paramUserID : string) (t : Num)
    (category : option Category) (addr : string) (now : Z) (s : Stores) :
  maxNumberOfActiveWarnings config
  <= warningsCount config (getHash paramUserID) now (db s) ->
  let isVIP := onVipList (getHash paramUserID) (db s) in
  let isOwn := is_some (ownSubmission (getHash paramUserID) UUID (db s)) in
  let suppressed := suppressedFor UUID isVIP isOwn (Some t) (db s) in
  vote (mkRequest (Some UUID) (Some paramUserID) (Some t) category addr) now s
  = (s, if suppressed && type_is (Some t) 1
        then mkResponse 403 (Text suppressedMessage)
        else if suppressed && type_is (Some t) 0
             then mkResponse 200 Empty
             else mkResponse 403 (Text warningMessage)).
Proof.
  intros Hwarn isVIP isOwn suppressed.
  apply Z.leb_le in Hwarn.
  unfold voteOnSponsorTime. cbn [q_UUID q_userID q_type q_category ip].
  cbn [is_none is_some negb andb].
  fold isVIP isOwn suppressed.
  rewrite Hwarn.
  destruct category, (suppressed && type_is (Some t) 1),
    (suppressed && type_is (Some t) 0); reflexivity.
Qed.

(** C10, as amended: a plain upvote (type 1) by a voter who is not VIP on
    a segment they own changes neither store: no ledger row is written and
    the segment's counter and lock flag stay as they were.  The caller
    receives status 200 with an empty body, unless the voter has at least
    the configured number of active warnings, in which case the answer is
    the warning rejection (403). *)
Theorem owner_upvote_is_ineligible
    (UUID : SegmentUUID) (paramUserID : string)
    (category : option Category) (addr : string) (now : Z) (s : Stores) :
  onVipList (getHash paramUserID) (db s) = false ->
  is_some (ownSubmission (getHash paramUserID) UUID (db s)) = true ->
  vote (mkRequest (Some UUID) (Some paramUserID) (Some (Int 1)) category addr)
       now s
  = (s, if maxNumberOfActiveWarnings config
           <=? warningsCount config (getHash paramUserID) now (db s)
        then mkResponse 403 (Text warningMessage)
        else mkResponse 200 Empty).
Proof.
  intros Hvip Hown.
  unfold voteOnSponsorTime. cbn [q_UUID q_userID q_type q_category ip].
  cbn [is_none is_some negb andb].
  rewrite Hvip, Hown, lockGate_upvote.
  assert (Hsup : suppressedFor UUID false true (Some (Int 1)) (db s) = false)
    by reflexivity.
  rewrite Hsup. cbn [andb].
  destruct (maxNumberOfActiveWarnings config <=? _);
    destruct category; reflexivity.
Qed.

(** C8: a voter who is neither VIP nor the owner, whose ledger row for the
    segment holds a plain downvote (stored type 0, weight -1), casts an
    eligible plain upvote (type 1): the segment's vote counter grows by
    exactly 2, the ledger row now holds type 1 and the answer is 200. *)
Theorem downvote_to_upvote_swing
    (UUID : SegmentUUID) (paramUserID : string)
    (category : option Category) (addr : string) (now : Z) (s : Stores)
    (seg : SponsorTimes.row) (prior : Votes.row) :
  let nonAnonUserID := getHash paramUserID in
  let userID := getHash (String.append paramUserID UUID) in
  let hashedIP := getHash (String.append addr (globalSalt config)) in
  onVipList nonAnonUserID (db s) = false ->
  ownSubmission nonAnonUserID UUID (db s) = None ->
  segment UUID (db s) = Some seg ->
  votesRowOf userID UUID (privateDB s) = Some prior ->
  Votes.type prior = 0 ->
  -2 < SponsorTimes.votes seg ->
  warningsCount config nonAnonUserID now (db s) < maxNumberOfActiveWarnings config ->
  hasSubmitted nonAnonUserID (db s) = true ->
  shadowBanned nonAnonUserID (privateDB s) = false ->
  sameIPVote UUID hashedIP userID (privateDB s) = false ->
  let out :=
    vote (mkRequest (Some UUID) (Some paramUserID) (Some (Int 1)) category addr)
         now s in
  votesOf UUID (fst out) = Some (SponsorTimes.votes seg + 2)
  /\ option_map Votes.type (votesRowOf userID UUID (privateDB (fst out))) = Some 1
  /\ snd out = mkResponse 200 Empty.
Proof.
  intros nonAnonUserID userID hashedIP Hvip Hown Hseg Hrow Hty Hvis Hwarn
         Hsub Hban Hip out.
  apply Z.leb_gt in Hwarn.
  assert (Hsup : suppressedFor UUID false false (Some (Int 1)) (db s) = false).
  { unfold suppressedFor. rewrite Hseg. simpl. apply Z.leb_gt. exact Hvis. }
  assert (Hout : out
                 = (addToCounter voteTypes.normal UUID 2
                      (recordVote (Some prior) UUID userID hashedIP 1 s),
                    mkResponse 200 Empty)).
  { unfold out, voteOnSponsorTime.
    cbn [q_UUID q_userID q_type q_category ip is_none is_some negb andb].
    fold nonAnonUserID userID hashedIP.
    rewrite Hvip, Hown, lockGate_upvote. cbn [is_some].
    rewrite Hsup. cbn [andb]. rewrite Hwarn.
    unfold applyScoreVote. rewrite Hrow. cbn -[recordVote addToCounter].
    rewrite Hty. cbn -[recordVote addToCounter].
    unfold ableToVoteOf. rewrite Hsub, Hban, Hip.
    destruct category; reflexivity. }
  rewrite Hout. cbn [fst snd]. repeat split.
  - unfold votesOf. rewrite segment_addToCounter. cbn [db recordVote on_privateDB].
    rewrite Hseg. reflexivity.
  - apply ledger_recordVote. symmetry. exact Hrow.
Qed.

(** C1, as amended: a VIP casts a plain downvote (type 0) on a segment whose
    vote counter is 1, with a previous recorded weight of 0.  Unless the VIP
    has reached the configured number of active warnings, the weight of the
    vote, which is also the type written to the ledger, is
    -(1 + 2 - 0) = -3; the segment's vote counter becomes 1 + (-3) = -2 and
    its lock flag is cleared.  A VIP who has reached the warning limit is
    answered 403 with the warning message and nothing is written. *)
Theorem vip_downvote_reaches_floor
    (UUID : SegmentUUID) (paramUserID : string)
    (category : option Category) (addr : string) (now : Z) (s : Stores)
    (seg : SponsorTimes.row) :
  let nonAnonUserID := getHash paramUserID in
  let userID := getHash (String.append paramUserID UUID) in
  onVipList nonAnonUserID (db s) = true ->
  segment UUID (db s) = Some seg ->
  SponsorTimes.votes seg = 1 ->
  oldIncrementAmountOf (votesRowOf userID UUID (privateDB s)) 0 = 0 ->
  let out :=
    vote (mkRequest (Some UUID) (Some paramUserID) (Some (Int 0)) category addr)
         now s in
  if maxNumberOfActiveWarnings config
     <=? warningsCount config nonAnonUserID now (db s)
  then out = (s, mkResponse 403 (Text warningMessage))
  else votesOf UUID (fst out) = Some (-2)
       /\ lockedOf UUID (fst out) = Some 0
       /\ option_map Votes.type (votesRowOf userID UUID (privateDB (fst out)))
          = Some (-3)
       /\ snd out = mkResponse 200 Empty.
Proof.
  intros nonAnonUserID userID Hvip Hseg Hvotes Hold out.
  set (hashedIP := getHash (String.append addr (globalSalt config))).
  set (row := votesRowOf userID UUID (privateDB s)) in *.
  assert (Hsup : forall o,
             suppressedFor UUID true o (Some (Int 0)) (db s) = false)
    by (intros o; reflexivity).
  destruct (maxNumberOfActiveWarnings config
            <=? warningsCount config nonAnonUserID now (db s)) eqn:Hwarn.
  { unfold out, voteOnSponsorTime.
    cbn [q_UUID q_userID q_type q_category ip is_none is_some negb andb].
    fold nonAnonUserID. rewrite Hvip, Hsup. cbn [andb]. rewrite Hwarn.
    destruct category; reflexivity. }
  assert (Hout : out
                 = (on_db (Db.set_sponsorTimes
                             (update (fun r => String.eqb (SponsorTimes.UUID r) UUID)
                                     (SponsorTimes.set_locked 0)))
                      (addToCounter voteTypes.normal UUID (-3)
                         (recordVote row UUID userID hashedIP (-3) s)),
                    mkResponse 200 Empty)).
  { unfold out, voteOnSponsorTime.
    cbn [q_UUID q_userID q_type q_category ip is_none is_some negb andb].
    fold nonAnonUserID userID hashedIP.
    rewrite Hvip, Hsup. cbn [andb]. rewrite Hwarn.
    unfold applyScoreVote. fold row.
    cbn -[recordVote addToCounter oldIncrementAmountOf].
    rewrite Hseg, Hold, Hvotes.
    destruct category; reflexivity. }
  rewrite Hout. cbn [fst snd].
  assert (Hdb : db (recordVote row UUID userID hashedIP (-3) s) = db s)
    by (unfold recordVote; destruct row; reflexivity).
  repeat split.
  - unfold votesOf. rewrite segment_setLocked, segment_addToCounter.
    rewrite Hdb, Hseg. simpl. rewrite Hvotes. reflexivity.
  - unfold lockedOf. rewrite segment_setLocked, segment_addToCounter.
    rewrite Hdb, Hseg. reflexivity.
  - cbn [privateDB on_db addToCounter].
    apply ledger_recordVote. reflexivity.
Qed.

(** *** The category vote *)

Lemma ceil_half_is_ceiling (v : Z) :
  v <= 2 * ceil_half v < v + 2.
Proof.
  unfold ceil_half.
  pose proof (Z.div_mod (- v) 2 ltac:(lia)) as Hd.
  pose proof (Z.mod_pos_bound (- v) 2 ltac:(lia)) as Hm.
  lia.
Qed.

Lemma tallyRow_category UUID c c' r :
  tallyRow UUID c r = true -> tallyRow UUID c' r = true -> c = c'.
Proof.
  unfold tallyRow. intros H H'.
  apply andb_prop in H as [_ H]. apply andb_prop in H' as [_ H'].
  apply String.eqb_eq in H, H'. congruence.
Qed.

Lemma tally_update_other UUID c c' f tbl :
  c <> c' ->
  get (tallyRow UUID c) (update (tallyRow UUID c') (CategoryVotes.set_votes f) tbl)
  = get (tallyRow UUID c) tbl.
Proof.
  intros Hne. rewrite get_update by reflexivity.
  destruct (get (tallyRow UUID c) tbl) as [r|] eqn:Hg; [|reflexivity].
  apply find_some in Hg as [_ Hr]. simpl.
  destruct (tallyRow UUID c' r) eqn:Hr'; [|reflexivity].
  exfalso. apply Hne. exact (tallyRow_category _ _ _ _ Hr Hr').
Qed.

(** The segments and the VIP registry are not written while tallying. *)
Lemma addCategoryVote_frame UUID u c h va ts last s :
  Db.sponsorTimes (db (addCategoryVote UUID u c h va ts last s))
  = Db.sponsorTimes (db s)
  /\ Db.vipUsers (db (addCategoryVote UUID u c h va ts last s))
     = Db.vipUsers (db s).
Proof.
  unfold addCategoryVote.
  destruct (0 <? count _ _), last as [[n d]|]; try destruct (0 <? n);
    split; reflexivity.
Qed.

(** After the vote is added, the tally of the voted category is the one
    read beforehand plus the vote's weight. *)
Lemma addCategoryVote_tally UUID u c h va ts last s :
  notDuplicate last c ->
  exists row,
    tally UUID c (db (addCategoryVote UUID u c h va ts last s)) = Some row
    /\ CategoryVotes.votes row = nextCategoryCountOf (tally UUID c (db s)) va.
Proof.
  intros Hdup. unfold addCategoryVote, tally.
  rewrite count_positive.
  set (tbl := Db.categoryVotes (db s)).
  assert (Hfirst : exists row,
             get (tallyRow UUID c)
                 (if is_some (get (tallyRow UUID c) tbl)
                  then update (tallyRow UUID c)
                              (CategoryVotes.set_votes (fun v => v + va)) tbl
                  else insert (CategoryVotes.mk UUID c va) tbl)
             = Some row
             /\ CategoryVotes.votes row
                = nextCategoryCountOf (get (tallyRow UUID c) tbl) va).
  { destruct (get (tallyRow UUID c) tbl) as [r|] eqn:Hg; simpl.
    - rewrite get_update_same by reflexivity. rewrite Hg. simpl. eauto.
    - rewrite get_insert_fresh; [eauto | exact Hg |].
      unfold tallyRow. simpl. now rewrite !String.eqb_refl. }
  destruct Hfirst as (row & Hrow & Hvotes).
  exists row. split; [|exact Hvotes].
  destruct (is_some (get (tallyRow UUID c) tbl));
    destruct last as [[n d]|]; try destruct (0 <? n); simpl; try exact Hrow.
  all: rewrite tally_update_other; [exact Hrow|].
  all: intros ->; unfold notDuplicate in Hdup; rewrite String.eqb_refl in Hdup;
    discriminate.
Qed.

Lemma seedIncumbent_frame UUID inc s :
  Db.sponsorTimes (db (seedIncumbent UUID inc s)) = Db.sponsorTimes (db s).
Proof.
  unfold seedIncumbent.
  destruct (tally UUID inc (db s)), (segment UUID (db s)); reflexivity.
Qed.

(** Seeding keeps every tally that exists and gives the incumbent the
    count that the comparison uses. *)
Lemma seedIncumbent_keeps UUID inc c row s :
  tally UUID c (db s) = Some row ->
  tally UUID c (db (seedIncumbent UUID inc s)) = Some row.
Proof.
  intros H. unfold seedIncumbent.
  destruct (tally UUID inc (db s)), (segment UUID (db s)); try exact H.
  unfold tally in *. simpl. rewrite get_insert, H. reflexivity.
Qed.

Lemma seedIncumbent_tally UUID inc s seg :
  segment UUID (db s) = Some seg ->
  exists row,
    tally UUID inc (db (seedIncumbent UUID inc s)) = Some row
    /\ CategoryVotes.votes row
       = currentCategoryCountOf (tally UUID inc (db s)) (Some seg) (db s).
Proof.
  intros Hseg. unfold seedIncumbent. rewrite Hseg.
  destruct (tally UUID inc (db s)) as [cur|] eqn:Hcur.
  - exists cur. split; [exact Hcur | reflexivity].
  - eexists. split.
    + unfold tally in *. simpl. apply get_insert_fresh; [exact Hcur|].
      unfold tallyRow. simpl. now rewrite !String.eqb_refl.
    + reflexivity.
Qed.

Lemma segment_replaceCategory UUID c s :
  segment UUID (db (replaceCategory UUID c s))
  = option_map (SponsorTimes.set_category c) (segment UUID (db s)).
Proof. unfold segment, replaceCategory. simpl. now apply get_update_same. Qed.

(** The shape of a category vote that passes the checks of lines 153-174. *)
Lemma categoryVote_tallied UUID u isVIP isOwn c h fr now s seg :
  notDuplicate (usersLastVoteInfo UUID u (privateDB s)) c ->
  segment UUID (db s) = Some seg ->
  existsb (String.eqb c) (categoryList config) = true ->
  getCategoryActionType c = Skippable ->
  categoryVote config getCategoryActionType UUID u isVIP isOwn c h fr now s
  = (let s1 := addCategoryVote UUID u c h (if isVIP then 500 else 1) now
                 (usersLastVoteInfo UUID u (privateDB s)) s in
     let inc := SponsorTimes.category seg in
     let s2 := seedIncumbent UUID inc s1 in
     if readyToChange (nextCategoryCountOf (tally UUID c (db s))
                                           (if isVIP then 500 else 1))
                      (currentCategoryCountOf (tally UUID inc (db s1))
                                              (segment UUID (db s1)) (db s1))
                      (segment UUID (db s1)) isVIP isOwn
     then replaceCategory UUID c s2
     else s2,
     sendStatus (finalStatus fr)).
Proof.
  intros Hdup Hseg Hin Hskip. unfold categoryVote, notDuplicate in *.
  rewrite Hdup, Hseg, Hin, Hskip. cbn [negb CategoryActionType_eqb].
  rewrite orb_true_r. reflexivity.
Qed.

Lemma vote_category_request UUID paramUserID c addr now s :
  vote (mkRequest (Some UUID) (Some paramUserID) None (Some c) addr) now s
  = categoryVote config getCategoryActionType UUID (getHash paramUserID)
      (onVipList (getHash paramUserID) (db s))
      (is_some (ownSubmission (getHash paramUserID) UUID (db s)))
      c (getHash (String.append addr (globalSalt config)))
      (lockGate UUID (onVipList (getHash paramUserID) (db s)) None (db s))
      now s.
Proof. reflexivity. Qed.

Lemma segment_same_rows UUID d d' :
  Db.sponsorTimes d = Db.sponsorTimes d' -> segment UUID d = segment UUID d'.
Proof. unfold segment. now intros ->. Qed.

(** The incumbent lacks a tally at the comparison exactly when it lacked
    one before the vote and is not the category voted for. *)
Lemma no_tally_at_comparison UUID u c inc h va ts last s :
  notDuplicate last c ->
  tally UUID inc (db (addCategoryVote UUID u c h va ts last s)) = None
  <-> tally UUID inc (db s) = None /\ inc <> c.
Proof.
  intros Hdup.
  destruct (addCategoryVote_tally UUID u c h va ts last s Hdup) as (row & Hrow & _).
  split.
  - intros Hnone. split; [|intros ->; congruence].
    revert Hnone. unfold addCategoryVote, tally.
    assert (Hkeep : forall p f (tbl : list CategoryVotes.row),
               get (tallyRow UUID inc) (update p (CategoryVotes.set_votes f) tbl)
               = None -> get (tallyRow UUID inc) tbl = None).
    { intros p f tbl. rewrite get_update by reflexivity.
      destruct (get (tallyRow UUID inc) tbl); [discriminate | reflexivity]. }
    assert (Hins : forall r (tbl : list CategoryVotes.row),
               get (tallyRow UUID inc) (insert r tbl) = None ->
               get (tallyRow UUID inc) tbl = None).
    { intros r tbl. rewrite get_insert.
      destruct (get (tallyRow UUID inc) tbl); [discriminate | reflexivity]. }
    destruct (0 <? count _ _), last as [[n d]|]; try destruct (0 <? n); simpl;
      intros Hnone;
      repeat first [apply Hkeep in Hnone | apply Hins in Hnone]; exact Hnone.
  - intros [Hnone Hne]. unfold addCategoryVote, tally in *.
    assert (Hupd : forall c' f (tbl : list CategoryVotes.row),
               get (tallyRow UUID inc) tbl = None ->
               get (tallyRow UUID inc)
                   (update (tallyRow UUID c') (CategoryVotes.set_votes f) tbl)
               = None).
    { intros c' f tbl H. rewrite get_update by reflexivity. now rewrite H. }
    assert (Hins : get (tallyRow UUID inc)
                       (insert (CategoryVotes.mk UUID c va)
                               (Db.categoryVotes (db s))) = None).
    { rewrite get_insert, Hnone. unfold tallyRow. simpl.
      apply String.eqb_neq in Hne. rewrite String.eqb_sym in Hne.
      rewrite Hne. now rewrite andb_false_r. }
    destruct (0 <? count _ _), last as [[n d]|]; try destruct (0 <? n); simpl;
      repeat apply Hupd; first [exact Hnone | exact Hins].
Qed.

Lemma ceil_half_unique (v k : Z) : v <= 2 * k < v + 2 -> ceil_half v = k.
Proof. intros Hk. pose proof (ceil_half_is_ceiling v). lia. Qed.

Lemma set_category_sameButCategory c r :
  sameButCategory r (SponsorTimes.set_category c r)
  /\ SponsorTimes.category (SponsorTimes.set_category c r) = c.
Proof. unfold sameButCategory. repeat split. Qed.

Lemma sameButCategory_refl r : sameButCategory r r.
Proof. unfold sameButCategory. repeat split. Qed.

(** C3: when a category vote for [C] has been tallied, the segment's
    category is [C] exactly when the tally of [C] exceeds the tally of the
    incumbent category (both as the store holds them after the vote, the
    incumbent's seeded if it was absent) by at least max(k, 2), where [k] is
    the ceiling of half the segment's own vote counter, or the voter is VIP,
    or the voter owns the segment; otherwise the category is the incumbent.
    No other column of the segment's row changes. *)
Theorem category_reassignment_rule
    (UUID : SegmentUUID) (paramUserID : string) (C : Category)
    (addr : string) (now : Z) (s : Stores) (seg : SponsorTimes.row) (k : Z) :
  let nonAnonUserID := getHash paramUserID in
  let isVIP := onVipList nonAnonUserID (db s) in
  let isOwnSubmission := is_some (ownSubmission nonAnonUserID UUID (db s)) in
  notDuplicate (usersLastVoteInfo UUID nonAnonUserID (privateDB s)) C ->
  segment UUID (db s) = Some seg ->
  existsb (String.eqb C) (categoryList config) = true ->
  getCategoryActionType C = Skippable ->
  SponsorTimes.votes seg <= 2 * k < SponsorTimes.votes seg + 2 ->
  let s' :=
    fst (vote (mkRequest (Some UUID) (Some paramUserID) None (Some C) addr)
              now s) in
  exists tC tI seg',
    tally UUID C (db s') = Some tC
    /\ tally UUID (SponsorTimes.category seg) (db s') = Some tI
    /\ segment UUID (db s') = Some seg'
    /\ SponsorTimes.category seg'
       = (if (Z.max k 2 <=? CategoryVotes.votes tC - CategoryVotes.votes tI)
             || isVIP || isOwnSubmission
          then C
          else SponsorTimes.category seg)
    /\ sameButCategory seg seg'.
Proof.
  intros nonAnonUserID isVIP isOwn Hdup Hseg Hin Hskip Hk s'.
  unfold s'. rewrite vote_category_request.
  fold nonAnonUserID isVIP isOwn.
  rewrite (categoryVote_tallied _ _ _ _ _ _ _ _ _ seg Hdup Hseg Hin Hskip).
  cbn zeta.
  set (hashedIP := getHash (String.append addr (globalSalt config))).
  set (va := if isVIP then 500 else 1).
  set (last := usersLastVoteInfo UUID nonAnonUserID (privateDB s)) in *.
  set (s1 := addCategoryVote UUID nonAnonUserID C hashedIP va now last s).
  destruct (addCategoryVote_frame UUID nonAnonUserID C hashedIP va now last s)
    as [Hrows _].
  assert (Hseg1 : segment UUID (db s1) = Some seg)
    by (rewrite <- Hseg; apply segment_same_rows; exact Hrows).
  destruct (addCategoryVote_tally UUID nonAnonUserID C hashedIP va now last s Hdup)
    as (tC & HtC & HvC).
  fold s1 in HtC.
  destruct (seedIncumbent_tally UUID (SponsorTimes.category seg) s1 seg Hseg1)
    as (tI & HtI & HvI).
  pose proof (seedIncumbent_keeps UUID (SponsorTimes.category seg) C tC s1 HtC)
    as HtC2.
  set (s2 := seedIncumbent UUID (SponsorTimes.category seg) s1) in *.
  assert (Hseg2 : segment UUID (db s2) = Some seg).
  { rewrite <- Hseg1. apply segment_same_rows. apply seedIncumbent_frame. }
  rewrite Hseg1.
  unfold readyToChange. rewrite <- HvC, <- HvI, (ceil_half_unique _ _ Hk).
  destruct ((Z.max k 2 <=? CategoryVotes.votes tC - CategoryVotes.votes tI)
            || isVIP || isOwn) eqn:Hready; cbn [fst].
  - exists tC, tI, (SponsorTimes.set_category C seg).
    split; [exact HtC2|]. split; [exact HtI|].
    split; [rewrite segment_replaceCategory, Hseg2; reflexivity|].
    rewrite Hready.
    split; [reflexivity | apply set_category_sameButCategory].
  - exists tC, tI, seg.
    split; [exact HtC2|]. split; [exact HtI|]. split; [exact Hseg2|].
    rewrite Hready.
    split; [reflexivity | apply sameButCategory_refl].
Qed.

(** X26: when the segment's incumbent category has no tally row as the
    vote arrives and the vote is for another category [C], the category
    vote appends exactly one tally row for the incumbent, of weight 10000 if
    the segment's owner is VIP and 1 otherwise, together with one private
    record of it in the owner's name; the incumbent then has exactly that
    one row, and the comparison uses it: the segment's category becomes [C]
    exactly when the tally of [C] minus this baseline reaches max(k, 2),
    [k] the ceiling of half the segment's vote counter, or the voter is VIP
    or the owner. *)
Theorem incumbent_baseline_seeded
    (UUID : SegmentUUID) (paramUserID : string) (C : Category)
    (addr : string) (now : Z) (s : Stores) (seg : SponsorTimes.row) (k : Z) :
  let nonAnonUserID := getHash paramUserID in
  let hashedIP := getHash (String.append addr (globalSalt config)) in
  let isVIP := onVipList nonAnonUserID (db s) in
  let isOwnSubmission := is_some (ownSubmission nonAnonUserID UUID (db s)) in
  let incumbent := SponsorTimes.category seg in
  let owner := SponsorTimes.userID seg in
  let voteAmount := if isVIP then 500 else 1 in
  let s1 :=
    addCategoryVote UUID nonAnonUserID C hashedIP voteAmount now
                    (usersLastVoteInfo UUID nonAnonUserID (privateDB s)) s in
  notDuplicate (usersLastVoteInfo UUID nonAnonUserID (privateDB s)) C ->
  segment UUID (db s) = Some seg ->
  existsb (String.eqb C) (categoryList config) = true ->
  getCategoryActionType C = Skippable ->
  tally UUID incumbent (db s) = None ->
  incumbent <> C ->
  SponsorTimes.votes seg <= 2 * k < SponsorTimes.votes seg + 2 ->
  let s' :=
    fst (vote (mkRequest (Some UUID) (Some paramUserID) None (Some C) addr)
              now s) in
  let baseline := if isUserVIP owner (db s) then 10000 else 1 in
  Db.categoryVotes (db s')
  = Db.categoryVotes (db s1) ++ [CategoryVotes.mk UUID incumbent baseline]
  /\ PrivateDb.categoryVotes (privateDB s')
     = PrivateDb.categoryVotes (privateDB s1)
       ++ [PrivateCategoryVotes.mk UUID owner "unknown" incumbent
                                   (SponsorTimes.timeSubmitted seg)]
  /\ count (tallyRow UUID incumbent) (Db.categoryVotes (db s')) = 1
  /\ exists tC seg',
       tally UUID C (db s') = Some tC
       /\ segment UUID (db s') = Some seg'
       /\ SponsorTimes.category seg'
          = (if (Z.max k 2 <=? CategoryVotes.votes tC - baseline)
                || isVIP || isOwnSubmission
             then C
             else incumbent)
       /\ sameButCategory seg seg'.
Proof.
  intros nonAnonUserID hashedIP isVIP isOwn incumbent owner va s1
         Hdup Hseg Hin Hskip Hnone0 Hother Hk s' baseline.
  assert (Hnone : tally UUID incumbent (db s1) = None).
  { unfold s1. apply no_tally_at_comparison; [exact Hdup | now split]. }
  unfold s'. rewrite vote_category_request.
  fold nonAnonUserID isVIP isOwn hashedIP.
  rewrite (categoryVote_tallied _ _ _ _ _ _ _ _ _ seg Hdup Hseg Hin Hskip).
  cbn zeta. fold va incumbent s1.
  destruct (addCategoryVote_frame UUID nonAnonUserID C hashedIP va now
              (usersLastVoteInfo UUID nonAnonUserID (privateDB s)) s)
    as [Hrows Hvips].
  fold s1 in Hrows, Hvips.
  assert (Hseg1 : segment UUID (db s1) = Some seg)
    by (rewrite <- Hseg; apply segment_same_rows; exact Hrows).
  assert (Hbase : currentCategoryCountOf None (Some seg) (db s1) = baseline).
  { unfold currentCategoryCountOf, startingVotes, baseline, isUserVIP, onVipList,
      vipCount.
    rewrite Hvips. reflexivity. }
  assert (Hs2 : seedIncumbent UUID incumbent s1
                = on_privateDB
                    (PrivateDb.set_categoryVotes
                       (insert (PrivateCategoryVotes.mk UUID owner "unknown"
                                  incumbent (SponsorTimes.timeSubmitted seg))))
                    (on_db (Db.set_categoryVotes
                              (insert (CategoryVotes.mk UUID incumbent baseline)))
                           s1)).
  { unfold seedIncumbent. rewrite Hnone, Hseg1, Hbase. reflexivity. }
  destruct (addCategoryVote_tally UUID nonAnonUserID C hashedIP va now
              (usersLastVoteInfo UUID nonAnonUserID (privateDB s)) s Hdup)
    as (tC & HtC & HvC).
  fold s1 in HtC.
  pose proof (seedIncumbent_keeps UUID incumbent C tC s1 HtC) as HtC2.
  rewrite Hs2 in HtC2.
  rewrite Hnone, Hseg1, Hbase, Hs2.
  unfold readyToChange. rewrite <- HvC, (ceil_half_unique _ _ Hk).
  assert (Hcount : count (tallyRow UUID incumbent)
                         (insert (CategoryVotes.mk UUID incumbent baseline)
                                 (Db.categoryVotes (db s1))) = 1).
  { rewrite count_insert, (count_none _ _ Hnone).
    unfold tallyRow. simpl. now rewrite !String.eqb_refl. }
  destruct ((Z.max k 2 <=? CategoryVotes.votes tC - baseline) || isVIP || isOwn)
    eqn:Hready;
    cbn [fst]; (split; [reflexivity|]); (split; [reflexivity|]);
    (split; [exact Hcount|]).
  - exists tC, (SponsorTimes.set_category C seg).
    split; [exact HtC2|].
    split; [rewrite segment_replaceCategory; unfold segment in *; simpl;
            rewrite Hseg1; reflexivity|].
    rewrite Hready.
    split; [reflexivity | apply set_category_sameButCategory].
  - exists tC, seg. split; [exact HtC2|]. split; [exact Hseg1|].
    rewrite Hready.
    split; [reflexivity | apply sameButCategory_refl].
Qed.

(** C9: the baseline is missed when the vote is for the incumbent category
    itself.  If that category has no tally row as the vote arrives, the vote
    inserts the row with the voter's own weight (500 for a VIP, 1
    otherwise); the later read finds this row, so no baseline row and no
    record in the owner's name are written: both category tables are as the
    vote's own writes left them, and the incumbent's tally is the voter's
    weight alone. *)
Theorem vote_for_incumbent_writes_no_baseline
    (UUID : SegmentUUID) (paramUserID : string)
    (addr : string) (now : Z) (s : Stores) (seg : SponsorTimes.row) :
  let nonAnonUserID := getHash paramUserID in
  let hashedIP := getHash (String.append addr (globalSalt config)) in
  let incumbent := SponsorTimes.category seg in
  let weight := if onVipList nonAnonUserID (db s) then 500 else 1 in
  let s1 :=
    addCategoryVote UUID nonAnonUserID incumbent hashedIP weight now
                    (usersLastVoteInfo UUID nonAnonUserID (privateDB s)) s in
  notDuplicate (usersLastVoteInfo UUID nonAnonUserID (privateDB s)) incumbent ->
  segment UUID (db s) = Some seg ->
  existsb (String.eqb incumbent) (categoryList config) = true ->
  getCategoryActionType incumbent = Skippable ->
  tally UUID incumbent (db s) = None ->
  let s' :=
    fst (vote (mkRequest (Some UUID) (Some paramUserID) None (Some incumbent)
                         addr) now s) in
  Db.categoryVotes (db s') = Db.categoryVotes (db s1)
  /\ PrivateDb.categoryVotes (privateDB s')
     = PrivateDb.categoryVotes (privateDB s1)
  /\ tally UUID incumbent (db s') = Some (CategoryVotes.mk UUID incumbent weight)
  /\ count (tallyRow UUID incumbent) (Db.categoryVotes (db s')) = 1.
Proof.
  intros nonAnonUserID hashedIP incumbent weight s1 Hdup Hseg Hin Hskip Hnone s'.
  set (last := usersLastVoteInfo UUID nonAnonUserID (privateDB s)) in *.
  assert (Hrow1 : tally UUID incumbent (db s1)
                  = Some (CategoryVotes.mk UUID incumbent weight)
                  /\ count (tallyRow UUID incumbent) (Db.categoryVotes (db s1)) = 1).
  { unfold s1, addCategoryVote, tally in *.
    rewrite (count_none _ _ Hnone). cbn [Z.ltb Z.compare].
    assert (Hnew : tallyRow UUID incumbent (CategoryVotes.mk UUID incumbent weight)
                   = true)
      by (unfold tallyRow; simpl; now rewrite !String.eqb_refl).
    assert (Hins : get (tallyRow UUID incumbent)
                       (insert (CategoryVotes.mk UUID incumbent weight)
                               (Db.categoryVotes (db s)))
                   = Some (CategoryVotes.mk UUID incumbent weight))
      by (now apply get_insert_fresh).
    assert (Hcnt : count (tallyRow UUID incumbent)
                         (insert (CategoryVotes.mk UUID incumbent weight)
                                 (Db.categoryVotes (db s))) = 1)
      by (rewrite count_insert, (count_none _ _ Hnone), Hnew; reflexivity).
    destruct last as [[n D]|] eqn:Hlast; [|split; assumption].
    destruct (0 <? n); [|split; assumption].
    cbn [db on_db on_privateDB Db.categoryVotes Db.set_categoryVotes].
    assert (HD : incumbent <> D).
    { intros ->. unfold notDuplicate in Hdup. rewrite String.eqb_refl in Hdup.
      discriminate. }
    split.
    - rewrite tally_update_other by exact HD. exact Hins.
    - rewrite count_update by reflexivity. exact Hcnt. }
  destruct Hrow1 as [Hrow1 Hcnt1].
  assert (Hs2 : seedIncumbent UUID incumbent s1 = s1)
    by (unfold seedIncumbent; now rewrite Hrow1).
  unfold s'. rewrite vote_category_request. fold nonAnonUserID hashedIP.
  rewrite (categoryVote_tallied _ _ _ _ _ _ _ _ _ seg Hdup Hseg Hin Hskip).
  cbv zeta. fold incumbent weight last s1. rewrite Hs2.
  destruct (readyToChange _ _ _ _ _); cbn [fst];
    (split; [reflexivity|]); (split; [reflexivity|]);
    (split; [exact Hrow1 | exact Hcnt1]).
Qed.

(** C4: the lock does not hold for category votes.  A category vote for a
    valid category, cast on a lock-protected segment by a voter who is not
    VIP, is answered with status 403 and is counted all the same: the tally
    of the category voted for grows by the voter's weight 1 (from 0 when it
    had no row), so the stores are not left as they were. *)
Theorem locked_segment_category_vote_counts
    (UUID : SegmentUUID) (paramUserID : string) (C : Category)
    (addr : string) (now : Z) (s : Stores) :
  let nonAnonUserID := getHash paramUserID in
  onVipList nonAnonUserID (db s) = false ->
  isSegmentLocked UUID (db s) || isVideoLocked UUID (db s) = true ->
  notDuplicate (usersLastVoteInfo UUID nonAnonUserID (privateDB s)) C ->
  existsb (String.eqb C) (categoryList config) = true ->
  getCategoryActionType C = Skippable ->
  let out :=
    vote (mkRequest (Some UUID) (Some paramUserID) None (Some C) addr) now s in
  snd out = sendStatus 403
  /\ option_map CategoryVotes.votes (tally UUID C (db (fst out)))
     = Some (match tally UUID C (db s) with
             | Some before => CategoryVotes.votes before + 1
             | None => 1
             end)
  /\ fst out <> s.
Proof.
  intros nonAnonUserID Hvip Hlocked Hdup Hin Hskip out.
  destruct (locked_segment_exists _ _ Hlocked) as [seg Hseg].
  assert (Hgate : lockGate UUID false None (db s)
                  = mkFinal 403 (Some lockedMessage)).
  { unfold lockGate. simpl. rewrite Hlocked. reflexivity. }
  assert (Htally : option_map CategoryVotes.votes (tally UUID C (db (fst out)))
                   = Some (match tally UUID C (db s) with
                           | Some before => CategoryVotes.votes before + 1
                           | None => 1
                           end)).
  { unfold out. rewrite vote_category_request. fold nonAnonUserID.
    rewrite Hvip.
    rewrite (categoryVote_tallied _ _ _ _ _ _ _ _ _ seg Hdup Hseg Hin Hskip).
    cbv zeta.
    set (h := getHash (String.append addr (globalSalt config))).
    set (last := usersLastVoteInfo UUID nonAnonUserID (privateDB s)) in *.
    destruct (addCategoryVote_tally UUID nonAnonUserID C h 1 now last s Hdup)
      as (row & Hrow & Hvotes).
    pose proof (seedIncumbent_keeps UUID (SponsorTimes.category seg) C row _ Hrow)
      as Hrow2.
    destruct (readyToChange _ _ _ _ _); cbn [fst];
      [change (db (replaceCategory UUID C ?x)) with
         (Db.set_sponsorTimes
            (update (fun r => String.eqb (SponsorTimes.UUID r) UUID)
                    (SponsorTimes.set_category C)) (db x))|];
      unfold tally in *; cbn [Db.categoryVotes Db.set_sponsorTimes];
      rewrite Hrow2; cbn [option_map]; rewrite Hvotes;
      unfold nextCategoryCountOf;
      destruct (get (tallyRow UUID C) (Db.categoryVotes (db s))); reflexivity. }
  split; [|split; [exact Htally|]].
  - unfold out. rewrite vote_category_request. fold nonAnonUserID.
    rewrite Hvip, Hgate.
    rewrite (categoryVote_tallied _ _ _ _ _ _ _ _ _ seg Hdup Hseg Hin Hskip).
    reflexivity.
  - intros Hsame. rewrite Hsame in Htally.
    destruct (tally UUID C (db s)) as [before|]; cbn [option_map] in Htally;
      [injection Htally as Hv; lia | discriminate].
Qed.

End RouteFacts.

(** ** The ledger's weights *)

(** For a request whose type is neither 10 nor 11 the previous weight is
    the tabulated weight of the stored code. *)
Lemma oldIncrementAmount_tabulated (v : Votes.row) (type : Z) :
  type <> 10 -> type <> 11 ->
  oldIncrementAmountOf (Some v) type = tabulatedWeight (Votes.type v).
Proof.
  intros H10 H11. unfold oldIncrementAmountOf, tabulatedWeight.
  apply Z.eqb_neq in H10, H11. rewrite H10, H11, !orb_false_r. reflexivity.
Qed.

(** A voter without privilege who repeats a vote finds, the second time, a
    previous weight equal to the new one. *)
Lemma unprivileged_revote_same_weight (v : Votes.row) (type plain : Z) :
  incrementAmountOf type = Some plain ->
  Votes.type v = type ->
  oldIncrementAmountOf (Some v) type = plain.
Proof.
  unfold incrementAmountOf, oldIncrementAmountOf. intros Hinc ->.
  destruct (type =? 1) eqn:E1; [apply Z.eqb_eq in E1; subst; now inversion Hinc|].
  destruct (type =? 11) eqn:E11; [apply Z.eqb_eq in E11; subst; now inversion Hinc|].
  destruct (type =? 0) eqn:E0; [apply Z.eqb_eq in E0; subst; now inversion Hinc|].
  destruct (type =? 10) eqn:E10; [apply Z.eqb_eq in E10; subst; now inversion Hinc|].
  destruct (type =? 20) eqn:E20; [|discriminate].
  apply Z.eqb_eq in E20; subst. now inversion Hinc.
Qed.

(** A privileged plain downvote changes the counter by -(votes + 2),
    whatever the previous weight: it lands on -2, and a second one adds 0. *)
Lemma privileged_downvote_delta isVIP isOwn old type seg inc type' :
  isVIP || isOwn = true ->
  privilegedWeight voteTypes.normal isVIP isOwn (-1) old type (Some seg)
  = Some (inc, type') ->
  inc - old = - (SponsorTimes.votes seg + 2) /\ type' = inc.
Proof.
  intros Hpriv. unfold privilegedWeight. rewrite Hpriv. simpl.
  intros [= <- <-]. split; [lia | reflexivity].
Qed.

(** C6: the previous weight is not a function of the stored code alone.
    Under a request of type 11 every ledger row weighs +1, and under a
    request of type 10 every row weighs -1 unless it stores code 1,
    whatever the table says for the stored code: a stored plain downvote
    (code 0, tabulated -1) weighs +1 under type 11, and the stored codes 2
    and 12 (tabulated -4 and -500) weigh -1 under type 10.  Run through
    the route, "bob" moving from a stored plain downvote to a vote of
    type 11 adds 0 to the counter. *)
Theorem old_weight_depends_on_request :
  (forall v, oldIncrementAmountOf (Some v) 11 = 1)
  /\ (forall v, oldIncrementAmountOf (Some v) 10
                = if Votes.type v =? 1 then 1 else -1)
  /\ (let stored t := Some (Votes.mk "seg1" "h:bobseg1" "h:10.0.0.1salt" t) in
      oldIncrementAmountOf (stored 0) 1 = tabulatedWeight 0
      /\ tabulatedWeight 0 = -1
      /\ oldIncrementAmountOf (stored 0) 11 <> tabulatedWeight 0
      /\ oldIncrementAmountOf (stored 2) 10 <> tabulatedWeight 2
      /\ oldIncrementAmountOf (stored 12) 10 <> tabulatedWeight 12
      /\ oldIncrementAmountOf (stored 13) 11 <> tabulatedWeight 13)
  /\ incorrectVotesOf "seg1"
       (fst (demoVote (scoreRequest "bob" 11) (demoStores 1 0 bobsDownvote)))
     = incorrectVotesOf "seg1" (demoStores 1 0 bobsDownvote).
Proof.
  split; [|split; [|split]].
  - intros v. unfold oldIncrementAmountOf. simpl. now rewrite orb_true_r.
  - intros v. unfold oldIncrementAmountOf. simpl.
    destruct (Votes.type v =? 1); [reflexivity|]. simpl.
    now rewrite orb_true_r.
  - cbv zeta. repeat split; discriminate.
  - reflexivity.
Qed.

Section RepeatedVote.
Variable getHash : string -> string.
Variable config : Config.
Variable getCategoryActionType : Category -> CategoryActionType.

Local Abbreviation vote := (voteOnSponsorTime getHash config getCategoryActionType).

(** What a VIP's vote of type 10 writes: ledger code 12, and
    -500 less the previous weight on the incorrect-vote counter. *)
Lemma vip_incorrect_vote UUID paramUserID category addr now s seg :
  let userID := getHash (String.append paramUserID UUID) in
  let hashedIP := getHash (String.append addr (globalSalt config)) in
  let row := votesRowOf userID UUID (privateDB s) in
  onVipList (getHash paramUserID) (db s) = true ->
  segment UUID (db s) = Some seg ->
  warningsCount config (getHash paramUserID) now (db s)
  < maxNumberOfActiveWarnings config ->
  fst (vote (mkRequest (Some UUID) (Some paramUserID) (Some (Int 10)) category addr)
            now s)
  = addToCounter voteTypes.incorrect UUID (-500 - oldIncrementAmountOf row 10)
      (recordVote row UUID userID hashedIP 12 s).
Proof.
  intros userID hashedIP row Hvip Hseg Hwarn. apply Z.leb_gt in Hwarn.
  unfold voteOnSponsorTime.
  cbn [q_UUID q_userID q_type q_category ip is_none is_some negb andb].
  fold userID hashedIP. rewrite Hvip.
  assert (Hsup : forall o,
             suppressedFor UUID true o (Some (Int 10)) (db s) = false)
    by (intros o; reflexivity).
  rewrite Hsup. cbn [andb]. rewrite Hwarn.
  unfold applyScoreVote. fold row.
  cbn -[recordVote addToCounter oldIncrementAmountOf].
  destruct category; reflexivity.
Qed.

Lemma score_writes_frame vte UUID delta row userID hashedIP ty s :
  Db.vipUsers (db (addToCounter vte UUID delta
                     (recordVote row UUID userID hashedIP ty s)))
  = Db.vipUsers (db s)
  /\ Db.warnings (db (addToCounter vte UUID delta
                        (recordVote row UUID userID hashedIP ty s)))
     = Db.warnings (db s).
Proof. destruct row; split; reflexivity. Qed.

(** C2: the same privileged "incorrect" vote cast twice is not idempotent.
    When a VIP below the warning limit casts type 10 on a segment twice in
    succession, the second vote finds ledger code 12 but takes the previous
    weight to be -1, so that it subtracts a further 499 from the
    incorrect-vote counter. *)
Theorem repeated_privileged_vote_accumulates
    (UUID : SegmentUUID) (paramUserID : string)
    (category : option Category) (addr : string) (now : Z) (s : Stores)
    (seg : SponsorTimes.row) :
  onVipList (getHash paramUserID) (db s) = true ->
  segment UUID (db s) = Some seg ->
  warningsCount config (getHash paramUserID) now (db s)
  < maxNumberOfActiveWarnings config ->
  let req :=
    mkRequest (Some UUID) (Some paramUserID) (Some (Int 10)) category addr in
  let s1 := fst (vote req now s) in
  let s2 := fst (vote req now s1) in
  exists n,
    incorrectVotesOf UUID s1 = Some n
    /\ option_map Votes.type
         (votesRowOf (getHash (String.append paramUserID UUID)) UUID
                     (privateDB s1)) = Some 12
    /\ incorrectVotesOf UUID s2 = Some (n - 499).
Proof.
  intros Hvip Hseg Hwarn req s1 s2.
  set (userID := getHash (String.append paramUserID UUID)).
  set (hashedIP := getHash (String.append addr (globalSalt config))).
  set (row := votesRowOf userID UUID (privateDB s)).
  assert (Hs1 : s1 = addToCounter voteTypes.incorrect UUID
                       (-500 - oldIncrementAmountOf row 10)
                       (recordVote row UUID userID hashedIP 12 s))
    by (apply (vip_incorrect_vote UUID paramUserID category addr now s seg);
        assumption).
  assert (Hdb : db (recordVote row UUID userID hashedIP 12 s) = db s)
    by (unfold recordVote; destruct row; reflexivity).
  set (n := SponsorTimes.incorrectVotes seg + (-500 - oldIncrementAmountOf row 10)).
  assert (Hseg1 : segment UUID (db s1)
                  = Some (SponsorTimes.set_incorrectVotes
                            (fun v => v + (-500 - oldIncrementAmountOf row 10))
                            seg)).
  { rewrite Hs1, segment_addToCounter, Hdb, Hseg. reflexivity. }
  assert (Hrow1 : option_map Votes.type (votesRowOf userID UUID (privateDB s1))
                  = Some 12).
  { rewrite Hs1. cbn [privateDB on_db addToCounter].
    apply ledger_recordVote. reflexivity. }
  destruct (score_writes_frame voteTypes.incorrect UUID
              (-500 - oldIncrementAmountOf row 10) row userID hashedIP 12 s)
    as [Hvips Hwarns].
  rewrite <- Hs1 in Hvips, Hwarns.
  assert (Hvip1 : onVipList (getHash paramUserID) (db s1) = true)
    by (unfold onVipList, vipCount in *; rewrite Hvips; exact Hvip).
  assert (Hwarn1 : warningsCount config (getHash paramUserID) now (db s1)
                   < maxNumberOfActiveWarnings config)
    by (unfold warningsCount in *; rewrite Hwarns; exact Hwarn).
  exists n. split; [|split].
  - unfold incorrectVotesOf. rewrite Hseg1. reflexivity.
  - exact Hrow1.
  - set (row1 := votesRowOf userID UUID (privateDB s1)) in *.
    assert (Hs2 : s2 = addToCounter voteTypes.incorrect UUID
                         (-500 - oldIncrementAmountOf row1 10)
                         (recordVote row1 UUID userID hashedIP 12 s1))
      by (apply (vip_incorrect_vote UUID paramUserID category addr now s1
                   (SponsorTimes.set_incorrectVotes
                      (fun v => v + (-500 - oldIncrementAmountOf row 10)) seg));
          assumption).
    assert (Hold : oldIncrementAmountOf row1 10 = -1).
    { destruct row1 as [v|]; [|discriminate Hrow1].
      injection Hrow1 as Hty.
      unfold oldIncrementAmountOf. rewrite Hty. reflexivity. }
    assert (Hdb1 : db (recordVote row1 UUID userID hashedIP 12 s1) = db s1)
      by (unfold recordVote; destruct row1; reflexivity).
    unfold incorrectVotesOf.
    rewrite Hs2, segment_addToCounter, Hdb1, Hseg1, Hold.
    change (voteTypes.incorrect =? voteTypes.normal) with false.
    unfold option_map, SponsorTimes.set_incorrectVotes.
    cbn [SponsorTimes.incorrectVotes]. unfold n. f_equal; lia.
Qed.

End RepeatedVote.

(** ** The route on the demo installation *)

(** C1, as stated, fails: "vera" (VIP, no earlier vote) downvotes the locked
    demo segment whose counter is 1; the counter becomes -2, not -3. *)
Lemma vip_downvote_counter_is_minus_two :
  let s0 := demoStores 1 1 [] in
  let out := demoVote (scoreRequest "vera" 0) s0 in
  onVipList "h:vera" (db s0) = true
  /\ votesOf "seg1" s0 = Some 1
  /\ votesOf "seg1" (fst out) = Some (-2)
  /\ votesOf "seg1" (fst out) <> Some (-3).
Proof. repeat split. discriminate. Qed.

(** "bob", who is not VIP, casts a category vote on the locked demo
    segment.  The answer is status 403 with the standard reason phrase, yet
    the tally and the private record are written. *)
Lemma locked_segment_category_vote_is_tallied :
  let s0 := demoStores 1 1 [] in
  let out := demoVote (categoryRequest "bob" "selfpromo") s0 in
  onVipList "h:bob" (db s0) = false
  /\ isSegmentLocked "seg1" (db s0) = true
  /\ snd out = mkResponse 403 StatusText
  /\ tally "seg1" "selfpromo" (db s0) = None
  /\ tally "seg1" "selfpromo" (db (fst out))
     = Some (CategoryVotes.mk "seg1" "selfpromo" 1)
  /\ fst out <> s0.
Proof.
  repeat split. intros H.
  apply (f_equal (fun s => Db.categoryVotes (db s))) in H. discriminate H.
Qed.

(** C5, as stated, fails: "wally" has three active warnings, the configured
    maximum, and casts a category vote; it is tallied and answered 200. *)
Lemma warned_voter_category_vote_is_tallied :
  let s0 := demoStores 1 0 [] in
  let out := demoVote (categoryRequest "wally" "selfpromo") s0 in
  warningsCount demoConfig "h:wally" 6000 (db s0) = 3
  /\ maxNumberOfActiveWarnings demoConfig = 3
  /\ snd out = mkResponse 200 StatusText
  /\ tally "seg1" "selfpromo" (db (fst out))
     = Some (CategoryVotes.mk "seg1" "selfpromo" 1)
  /\ fst out <> s0.
Proof.
  repeat split. intros H.
  apply (f_equal (fun s => Db.categoryVotes (db s))) in H. discriminate H.
Qed.

(** The demo segment is in category "sponsor" and has no tally yet; "vera",
    a VIP, votes for "sponsor" itself.  No baseline row is written: the only
    tally row of "sponsor" carries the voter's weight 500, not the baseline
    1 of the owner "alice", and the only private record is the voter's. *)
Lemma vote_for_incumbent_seeds_no_baseline :
  let s0 := demoStores 1 0 [] in
  let s' := fst (demoVote (categoryRequest "vera" "sponsor") s0) in
  option_map SponsorTimes.category (segment "seg1" (db s0)) = Some "sponsor"
  /\ tally "seg1" "sponsor" (db s0) = None
  /\ isUserVIP "h:alice" (db s0) = false
  /\ Db.categoryVotes (db s') = [CategoryVotes.mk "seg1" "sponsor" 500]
  /\ PrivateDb.categoryVotes (privateDB s')
     = [PrivateCategoryVotes.mk "seg1" "h:vera" "h:10.0.0.1salt" "sponsor" 6000].
Proof. repeat split. Qed.

(** "vera" votes for the incumbent "sponsor" on the demo installation. *)
Lemma vote_for_incumbent_writes_no_baseline_witness :
  let s' := fst (demoVote (categoryRequest "vera" "sponsor") (demoStores 1 0 [])) in
  Db.categoryVotes (db s') = [CategoryVotes.mk "seg1" "sponsor" 500]
  /\ PrivateDb.categoryVotes (privateDB s')
     = [PrivateCategoryVotes.mk "seg1" "h:vera" "h:10.0.0.1salt" "sponsor" 6000]
  /\ tally "seg1" "sponsor" (db s') = Some (CategoryVotes.mk "seg1" "sponsor" 500)
  /\ count (tallyRow "seg1" "sponsor") (Db.categoryVotes (db s')) = 1.
Proof.
  apply (vote_for_incumbent_writes_no_baseline demoHash demoConfig demoActionType
           "seg1" "vera" "10.0.0.1" 6000 (demoStores 1 0 []) (demoSegment 1 0));
    reflexivity.
Defined.

(** "bob" votes "selfpromo" on the locked demo segment: 403, and counted. *)
Lemma locked_segment_category_vote_counts_witness :
  let s0 := demoStores 1 1 [] in
  let out := demoVote (categoryRequest "bob" "selfpromo") s0 in
  snd out = sendStatus 403
  /\ option_map CategoryVotes.votes (tally "seg1" "selfpromo" (db (fst out)))
     = Some 1
  /\ fst out <> s0.
Proof.
  apply (locked_segment_category_vote_counts demoHash demoConfig demoActionType
           "seg1" "bob" "selfpromo" "10.0.0.1" 6000 (demoStores 1 1 []));
    reflexivity.
Defined.

(** C10, as stated, fails: "wally", not VIP and with three active warnings,
    upvotes the segment they own; the answer is 403, not the expected 200. *)
Lemma warned_owner_upvote_is_rejected :
  let s0 := demoStores 1 0 [] in
  let out := demoVote (scoreRequestOn "seg3" "wally" 1) s0 in
  onVipList "h:wally" (db s0) = false
  /\ is_some (ownSubmission "h:wally" "seg3" (db s0)) = true
  /\ status (snd out) = 403
  /\ status (snd out) <> 200.
Proof. repeat split. discriminate. Qed.

(** The gate on the demo segment at -2, for "bob". *)
Lemma suppressed_segment_gate_witness :
  demoVote (scoreRequest "bob" 1) (demoStores (-2) 0 [])
  = (demoStores (-2) 0 [], mkResponse 403 (Text suppressedMessage))
  /\ demoVote (scoreRequest "bob" 0) (demoStores (-2) 0 [])
     = (demoStores (-2) 0 [], mkResponse 200 Empty).
Proof.
  apply (suppressed_segment_gate demoHash demoConfig demoActionType
           "seg1" "bob" None "10.0.0.1" 6000 (demoStores (-2) 0 [])
           (demoSegment (-2) 0));
    [reflexivity | now vm_compute | reflexivity | reflexivity].
Defined.

(** "bob" turns a stored downvote into an upvote: 1 becomes 3. *)
Lemma downvote_to_upvote_swing_witness :
  let out := demoVote (scoreRequest "bob" 1) (demoStores 1 0 bobsDownvote) in
  votesOf "seg1" (fst out) = Some (1 + 2)
  /\ option_map Votes.type (votesRowOf "h:bobseg1" "seg1" (privateDB (fst out)))
     = Some 1
  /\ snd out = mkResponse 200 Empty.
Proof.
  apply (downvote_to_upvote_swing demoHash demoConfig demoActionType
           "seg1" "bob" None "10.0.0.1" 6000 (demoStores 1 0 bobsDownvote)
           (demoSegment 1 0)
           (Votes.mk "seg1" "h:bobseg1" "h:10.0.0.1salt" 0));
    try reflexivity; now vm_compute.
Defined.

(** "bob" votes "selfpromo" on the "sponsor" demo segment (vote counter 1,
    so k = 1 and the threshold is 2).  Without earlier tallies the margin is
    1 - 1 = 0 and the category stays; with "selfpromo" at 2 and "sponsor"
    at 1 the margin is 3 - 1 = 2 and the category becomes "selfpromo". *)
Lemma category_reassignment_rule_witness :
  option_map SponsorTimes.category
    (segment "seg1"
       (db (fst (demoVote (categoryRequest "bob" "selfpromo")
                          (demoStores 1 0 [])))))
  = Some "sponsor"
  /\ option_map SponsorTimes.category
       (segment "seg1"
          (db (fst (demoVote (categoryRequest "bob" "selfpromo")
                             (talliedStores 1 0)))))
     = Some "selfpromo".
Proof.
  split.
  - destruct (category_reassignment_rule demoHash demoConfig demoActionType
                "seg1" "bob" "selfpromo" "10.0.0.1" 6000 (demoStores 1 0 [])
                (demoSegment 1 0) 1)
      as (tC & tI & seg' & HtC & HtI & Hseg' & Hcat & _);
      [reflexivity | reflexivity | reflexivity | reflexivity | cbn; lia |].
    vm_compute in HtC, HtI. injection HtC as <-. injection HtI as <-.
    transitivity (option_map SponsorTimes.category (Some seg'));
      [f_equal; exact Hseg'|].
    cbn [option_map]. rewrite Hcat. reflexivity.
  - destruct (category_reassignment_rule demoHash demoConfig demoActionType
                "seg1" "bob" "selfpromo" "10.0.0.1" 6000 (talliedStores 1 0)
                (demoSegment 1 0) 1)
      as (tC & tI & seg' & HtC & HtI & Hseg' & Hcat & _);
      [reflexivity | reflexivity | reflexivity | reflexivity | cbn; lia |].
    vm_compute in HtC, HtI. injection HtC as <-. injection HtI as <-.
    transitivity (option_map SponsorTimes.category (Some seg'));
      [f_equal; exact Hseg'|].
    cbn [option_map]. rewrite Hcat. reflexivity.
Defined.

(** The same vote on the demo installation without tallies seeds "sponsor"
    with weight 1 in "alice"'s name. *)
Lemma incumbent_baseline_seeded_witness :
  let s0 := demoStores 1 0 [] in
  let s' := fst (demoVote (categoryRequest "bob" "selfpromo") s0) in
  Db.categoryVotes (db s')
  = [CategoryVotes.mk "seg1" "selfpromo" 1] ++ [CategoryVotes.mk "seg1" "sponsor" 1]
  /\ PrivateDb.categoryVotes (privateDB s')
     = [PrivateCategoryVotes.mk "seg1" "h:bob" "h:10.0.0.1salt" "selfpromo" 6000]
       ++ [PrivateCategoryVotes.mk "seg1" "h:alice" "unknown" "sponsor" 1000]
  /\ count (tallyRow "seg1" "sponsor") (Db.categoryVotes (db s')) = 1
  /\ option_map SponsorTimes.category (segment "seg1" (db s')) = Some "sponsor".
Proof.
  destruct (incumbent_baseline_seeded demoHash demoConfig demoActionType
              "seg1" "bob" "selfpromo" "10.0.0.1" 6000 (demoStores 1 0 [])
              (demoSegment 1 0) 1)
    as (Hpub & Hpriv & Hcount & tC & seg' & HtC & Hseg' & Hcat & _);
    [reflexivity | reflexivity | reflexivity | reflexivity | reflexivity
    | discriminate | cbn; lia |].
  cbv zeta. split; [exact Hpub|]. split; [exact Hpriv|]. split; [exact Hcount|].
  vm_compute in HtC. injection HtC as <-.
  transitivity (option_map SponsorTimes.category (Some seg'));
    [f_equal; exact Hseg'|].
  cbn [option_map]. rewrite Hcat. reflexivity.
Defined.

(** "vera" downvotes the locked demo segment; "wally", a VIP with three
    warnings, tries the same. *)
Lemma vip_downvote_reaches_floor_witness :
  (let out := demoVote (scoreRequest "vera" 0) (demoStores 1 1 []) in
   votesOf "seg1" (fst out) = Some (-2)
   /\ lockedOf "seg1" (fst out) = Some 0
   /\ option_map Votes.type (votesRowOf "h:veraseg1" "seg1" (privateDB (fst out)))
      = Some (-3)
   /\ snd out = mkResponse 200 Empty)
  /\ demoVote (scoreRequest "wally" 0) (warnedVipStores 1 1)
     = (warnedVipStores 1 1, mkResponse 403 (Text warningMessage)).
Proof.
  split.
  - apply (vip_downvote_reaches_floor demoHash demoConfig demoActionType
             "seg1" "vera" None "10.0.0.1" 6000 (demoStores 1 1 [])
             (demoSegment 1 1)); reflexivity.
  - apply (vip_downvote_reaches_floor demoHash demoConfig demoActionType
             "seg1" "wally" None "10.0.0.1" 6000 (warnedVipStores 1 1)
             (demoSegment 1 1)); reflexivity.
Defined.

(** "bob" downvotes the locked demo segment. *)
Lemma locked_segment_score_vote_is_noop_witness :
  fst (demoVote (scoreRequest "bob" 0) (demoStores 1 1 [])) = demoStores 1 1 []
  /\ snd (demoVote (scoreRequest "bob" 0) (demoStores 1 1 []))
     = mkResponse 403 (Text lockedMessage).
Proof.
  destruct (locked_segment_score_vote_is_noop demoHash demoConfig demoActionType
              "seg1" "bob" (Int 0) None "10.0.0.1" 6000 (demoStores 1 1 []))
    as (Hsame & Hanswer & _);
    [reflexivity | discriminate | reflexivity |].
  split; [exact Hsame|].
  apply Hanswer; [reflexivity | now vm_compute |].
  exists 0, (-1). split; reflexivity.
Defined.

(** "wally", with three warnings, downvotes the demo segment. *)
Lemma warned_voter_score_vote_rejected_witness :
  demoVote (scoreRequest "wally" 0) (demoStores 1 0 [])
  = (demoStores 1 0 [], mkResponse 403 (Text warningMessage)).
Proof.
  apply (warned_voter_score_vote_rejected demoHash demoConfig demoActionType
           "seg1" "wally" (Int 0) None "10.0.0.1" 6000 (demoStores 1 0 [])).
  now vm_compute.
Defined.

(** "alice" upvotes the segment "alice" submitted. *)
Lemma owner_upvote_is_ineligible_witness :
  demoVote (scoreRequest "alice" 1) (demoStores 1 0 [])
  = (demoStores 1 0 [], mkResponse 200 Empty).
Proof.
  apply (owner_upvote_is_ineligible demoHash demoConfig demoActionType
           "seg1" "alice" None "10.0.0.1" 6000 (demoStores 1 0 []));
    reflexivity.
Defined.

(** "vera" casts type 10 twice on the demo segment: 0, then -500, then -999. *)
Lemma repeated_privileged_vote_accumulates_witness :
  let s1 := fst (demoVote (scoreRequest "vera" 10) (demoStores 1 0 [])) in
  let s2 := fst (demoVote (scoreRequest "vera" 10) s1) in
  exists n,
    incorrectVotesOf "seg1" s1 = Some n
    /\ option_map Votes.type (votesRowOf "h:veraseg1" "seg1" (privateDB s1))
       = Some 12
    /\ incorrectVotesOf "seg1" s2 = Some (n - 499).
Proof.
  apply (repeated_privileged_vote_accumulates demoHash demoConfig demoActionType
           "seg1" "vera" None "10.0.0.1" 6000 (demoStores 1 0 [])
           (demoSegment 1 0));
    try reflexivity; now vm_compute.
Defined.

(** The same run, with its numbers. *)
Lemma repeated_privileged_vote_on_demo :
  let s0 := demoStores 1 0 [] in
  let s1 := fst (demoVote (scoreRequest "vera" 10) s0) in
  let s2 := fst (demoVote (scoreRequest "vera" 10) s1) in
  incorrectVotesOf "seg1" s0 = Some 0
  /\ incorrectVotesOf "seg1" s1 = Some (-500)
  /\ oldIncrementAmountOf (votesRowOf "h:veraseg1" "seg1" (privateDB s1)) 10
     = -1
  /\ incorrectVotesOf "seg1" s2 = Some (-999).
Proof. repeat split. Qed.

(** * Further properties of the route *)

(** ** More facts about the statement shapes *)

Section MoreTableFacts.
Context {A : Type}.
Implicit Types (p q : A -> bool) (f : A -> A) (tbl : list A).

Lemma count_nonneg p tbl : 0 <= count p tbl.
Proof. unfold count. lia. Qed.

Lemma update_fixed q f tbl :
  (forall r, q r = true -> f r = r) -> update q f tbl = tbl.
Proof.
  intros Hf. unfold update.
  induction tbl as [|r tbl IH]; simpl; [reflexivity|].
  rewrite IH. destruct (q r) eqn:Hq; [now rewrite Hf | reflexivity].
Qed.

Lemma map_update {B} (g : A -> B) q f tbl :
  (forall r, g (f r) = g r) -> map g (update q f tbl) = map g tbl.
Proof.
  intros Hg. unfold update. rewrite map_map. apply map_ext.
  intros r. destruct (q r); [apply Hg | reflexivity].
Qed.

Lemma length_update q f tbl : List.length (update q f tbl) = List.length tbl.
Proof. unfold update. apply length_map. Qed.

Lemma get_update_other p q f tbl :
  (forall r, p (f r) = p r) ->
  (forall r, p r = true -> q r = false) ->
  get p (update q f tbl) = get p tbl.
Proof.
  intros Hp Hq. rewrite get_update by exact Hp.
  destruct (get p tbl) as [r|] eqn:Hg; [|reflexivity].
  apply find_some in Hg as [_ Hr]. simpl. now rewrite (Hq r Hr).
Qed.

Lemma found_is_counted p q tbl r :
  get p tbl = Some r -> q r = true -> (0 <? count q tbl) = true.
Proof.
  intros Hg Hq. rewrite count_positive.
  apply find_some in Hg as [Hin _].
  unfold get. destruct (find q tbl) eqn:Hf; [reflexivity|].
  pose proof (find_none _ _ Hf r Hin). congruence.
Qed.

Lemma get_insert_kept p r x tbl :
  get p tbl = Some x -> get p (insert r tbl) = Some x.
Proof. intros H. now rewrite get_insert, H. Qed.
End MoreTableFacts.

(** ** The writes a request can make *)

Section Frames.
Variable getHash : string -> string.
Variable config : Config.
Variable getCategoryActionType : Category -> CategoryActionType.

Local Abbreviation vote := (voteOnSponsorTime getHash config getCategoryActionType).

(** The lock gate lets a vote through with status 200 or stops it with 403. *)
Lemma lockGate_status UUID isVIP type d :
  finalStatus (lockGate UUID isVIP type d) = 200
  \/ (isVIP = false /\ finalStatus (lockGate UUID isVIP type d) = 403).
Proof.
  unfold lockGate. destruct isVIP; simpl; [now left|].
  destruct (negb (type_is type 1)); simpl; [|now left].
  destruct (isSegmentLocked UUID d || isVideoLocked UUID d); simpl; auto.
Qed.

Lemma ableToVote_status isVIP isOwn inc nonAnon userID UUID hashedIP type s :
  ableToVoteOf isVIP isOwn inc nonAnon userID UUID hashedIP
               (lockGate UUID isVIP type (db s)) s = true ->
  finalStatus (lockGate UUID isVIP type (db s)) = 200.
Proof.
  destruct (lockGate_status UUID isVIP type (db s)) as [H|[-> H]]; [auto|].
  intros Hable. rewrite ableToVote_needs_200 in Hable by lia. discriminate.
Qed.

(** The [try] block either writes nothing, or makes its three writes in a
    row and answers with the prepared status. *)
Lemma applyScoreVote_shape UUID nonAnon userID hashedIP isVIP isOwn type fr s :
  let out := applyScoreVote UUID nonAnon userID hashedIP isVIP isOwn type fr s in
  (fst out = s
   /\ (status (snd out) = 400 \/ status (snd out) = 500
       \/ status (snd out) = finalStatus fr))
  \/ (exists inc ty delta,
        ableToVoteOf isVIP isOwn inc nonAnon userID UUID hashedIP fr s = true
        /\ status (snd out) = finalStatus fr
        /\ fst out
           = adjustLock (voteTypeEnumOf type) isVIP inc UUID
               (addToCounter (voteTypeEnumOf type) UUID delta
                  (recordVote (votesRowOf userID UUID (privateDB s)) UUID
                              userID hashedIP ty s))).
Proof.
  unfold applyScoreVote.
  destruct type as [[|z]|]; cbn zeta; [left; split; auto ..| |left; split; auto].
  destruct (incrementAmountOf z); [|left; split; auto].
  destruct (privilegedWeight _ _ _ _ _ _ _) as [[inc ty]|]; [|left; split; auto].
  destruct (ableToVoteOf _ _ _ _ _ _ _ _ _) eqn:Hable.
  - right. exists inc, ty. eexists. repeat split. exact Hable.
  - left. split; auto.
Qed.

(** Every request is answered with 200, 400, 403 or 500, and the stores it
    leaves are the ones it found, or those after the three writes of a score
    vote (answered 200), or those after the writes of a category vote. *)
Lemma vote_shape (req : Request) (now : Z) (s : Stores) :
  let out := vote req now s in
  (fst out = s
   /\ (status (snd out) = 200 \/ status (snd out) = 400
       \/ status (snd out) = 403 \/ status (snd out) = 500))
  \/ (exists UUID paramUserID t inc ty delta,
        q_UUID req = Some UUID /\ q_userID req = Some paramUserID
        /\ q_type req = Some t
        /\ status (snd out) = 200
        /\ fst out
           = adjustLock (voteTypeEnumOf (Some t))
               (onVipList (getHash paramUserID) (db s)) inc UUID
               (addToCounter (voteTypeEnumOf (Some t)) UUID delta
                  (recordVote
                     (votesRowOf (getHash (String.append paramUserID UUID)) UUID
                                 (privateDB s))
                     UUID (getHash (String.append paramUserID UUID))
                     (getHash (String.append (ip req) (globalSalt config)))
                     ty s)))
  \/ (exists UUID paramUserID C seg,
        q_UUID req = Some UUID /\ q_userID req = Some paramUserID
        /\ q_type req = None /\ q_category req = Some C
        /\ segment UUID (db s) = Some seg
        /\ notDuplicate (usersLastVoteInfo UUID (getHash paramUserID) (privateDB s)) C
        /\ (status (snd out) = 200 \/ status (snd out) = 403)
        /\ let s2 :=
             seedIncumbent UUID (SponsorTimes.category seg)
               (addCategoryVote UUID (getHash paramUserID) C
                  (getHash (String.append (ip req) (globalSalt config)))
                  (if onVipList (getHash paramUserID) (db s) then 500 else 1)
                  now
                  (usersLastVoteInfo UUID (getHash paramUserID) (privateDB s))
                  s) in
           fst out = s2 \/ fst out = replaceCategory UUID C s2).
Proof.
  destruct req as [uuid user type category addr].
  unfold voteOnSponsorTime. cbn [q_UUID q_userID q_type q_category ip].
  destruct uuid as [UUID|]; [|left; split; auto].
  destruct user as [paramUserID|]; [|left; split; auto].
  set (isVIP := onVipList (getHash paramUserID) (db s)).
  set (isOwn := is_some (ownSubmission (getHash paramUserID) UUID (db s))).
  assert (Hscore : forall t (cat : option Category),
    let out :=
      if suppressedFor UUID isVIP isOwn (Some t) (db s) && type_is (Some t) 1
      then (s, mkResponse 403 (Text suppressedMessage))
      else if suppressedFor UUID isVIP isOwn (Some t) (db s) && type_is (Some t) 0
      then (s, mkResponse 200 Empty)
      else if maxNumberOfActiveWarnings config
              <=? warningsCount config (getHash paramUserID) now (db s)
      then (s, mkResponse 403 (Text warningMessage))
      else applyScoreVote UUID (getHash paramUserID)
             (getHash (String.append paramUserID UUID))
             (getHash (String.append addr (globalSalt config))) isVIP isOwn
             (Some t) (lockGate UUID isVIP (Some t) (db s)) s in
    (fst out = s
     /\ (status (snd out) = 200 \/ status (snd out) = 400
         \/ status (snd out) = 403 \/ status (snd out) = 500))
    \/ (exists inc ty delta,
          status (snd out) = 200
          /\ fst out
             = adjustLock (voteTypeEnumOf (Some t)) isVIP inc UUID
                 (addToCounter (voteTypeEnumOf (Some t)) UUID delta
                    (recordVote
                       (votesRowOf (getHash (String.append paramUserID UUID)) UUID
                                   (privateDB s))
                       UUID (getHash (String.append paramUserID UUID))
                       (getHash (String.append addr (globalSalt config)))
                       ty s)))).
  { intros t cat.
    destruct (suppressedFor UUID isVIP isOwn (Some t) (db s) && type_is (Some t) 1);
      [left; split; auto|].
    destruct (suppressedFor UUID isVIP isOwn (Some t) (db s) && type_is (Some t) 0);
      [left; split; auto|].
    destruct (maxNumberOfActiveWarnings config <=? _); [left; split; auto|].
    cbv zeta.
    destruct (applyScoreVote_shape UUID (getHash paramUserID)
                (getHash (String.append paramUserID UUID))
                (getHash (String.append addr (globalSalt config))) isVIP isOwn
                (Some t) (lockGate UUID isVIP (Some t) (db s)) s)
      as [[Hs Hst]|(inc & ty & delta & Hable & Hst & Hs)].
    - left. split; [exact Hs|].
      destruct Hst as [H|[H|H]]; auto.
      rewrite H.
      destruct (lockGate_status UUID isVIP (Some t) (db s)) as [H'|[_ H']];
        rewrite H'; auto.
    - right. exists inc, ty, delta. split; [|exact Hs].
      rewrite Hst. eapply ableToVote_status. exact Hable. }
  destruct type as [t|].
  - cbn [is_none is_some negb andb].
    destruct (Hscore t category) as [H|(inc & ty & delta & Hst & Hs)].
    + left. destruct category; exact H.
    + right. left. exists UUID, paramUserID, t, inc, ty, delta.
      destruct category; repeat split; assumption.
  - destruct category as [C|]; [|left; split; auto].
    cbn [is_none is_some negb andb].
    unfold categoryVote.
    destruct (match usersLastVoteInfo UUID (getHash paramUserID) (privateDB s) with
              | Some (_, c) => String.eqb c C
              | None => false
              end) eqn:Hdup.
    { left. split; [reflexivity|]. cbn [snd sendStatus status].
      destruct (lockGate_status UUID isVIP None (db s)) as [H'|[_ H']];
        rewrite H'; auto. }
    destruct (segment UUID (db s)) as [seg|] eqn:Hseg; [|left; split; auto].
    destruct (negb (existsb (String.eqb C) (categoryList config)));
      [left; split; auto|].
    destruct (negb (CategoryActionType_eqb (getCategoryActionType C) Skippable));
      [left; split; auto|].
    right. right. exists UUID, paramUserID, C, seg.
    rewrite orb_true_r. cbv zeta. cbn [fst snd sendStatus status].
    repeat split; try assumption.
    + destruct (lockGate_status UUID isVIP None (db s)) as [H'|[_ H']];
        rewrite H'; auto.
    + destruct (readyToChange _ _ _ _ _); auto.
Qed.

(** *** The segment table under the two kinds of write *)

Lemma recordVote_db row UUID userID hashedIP ty s :
  db (recordVote row UUID userID hashedIP ty s) = db s.
Proof. destruct row; reflexivity. Qed.

(** The three writes of a score vote change the segment table by two
    UPDATEs on the rows of the segment: the counter, then the lock. *)
Lemma score_writes_rows vte isVIP inc UUID delta row userID hashedIP ty s :
  exists lock : SponsorTimes.row -> SponsorTimes.row,
    Db.sponsorTimes
      (db (adjustLock vte isVIP inc UUID
             (addToCounter vte UUID delta
                (recordVote row UUID userID hashedIP ty s))))
    = update (segmentRow UUID) lock
        (update (segmentRow UUID)
           (if vte =? voteTypes.normal
            then SponsorTimes.set_votes (fun v => v + delta)
            else SponsorTimes.set_incorrectVotes (fun v => v + delta))
           (Db.sponsorTimes (db s)))
    /\ ((isVIP = true /\ exists l, lock = SponsorTimes.set_locked l)
        \/ lock = (fun r => r)).
Proof.
  unfold adjustLock.
  destruct (isVIP && (0 <? inc) && (vte =? voteTypes.normal)) eqn:Hup.
  - exists (SponsorTimes.set_locked 1). split.
    + cbn. rewrite recordVote_db. reflexivity.
    + left. split; [|eauto]. now destruct isVIP.
  - destruct (isVIP && (inc <? 0) && (vte =? voteTypes.normal)) eqn:Hdown.
    + exists (SponsorTimes.set_locked 0). split.
      * cbn. rewrite recordVote_db. reflexivity.
      * left. split; [|eauto]. now destruct isVIP.
    + exists (fun r => r). split; [|now right].
      cbn. rewrite recordVote_db.
      symmetry. apply update_fixed. reflexivity.
Qed.

Lemma score_writes_other_tables vte isVIP inc UUID delta row userID hashedIP ty s :
  let s' := adjustLock vte isVIP inc UUID
              (addToCounter vte UUID delta
                 (recordVote row UUID userID hashedIP ty s)) in
  registries s' = registries s
  /\ Db.categoryVotes (db s') = Db.categoryVotes (db s)
  /\ PrivateDb.categoryVotes (privateDB s') = PrivateDb.categoryVotes (privateDB s)
  /\ PrivateDb.votes (privateDB s')
     = PrivateDb.votes (privateDB (recordVote row UUID userID hashedIP ty s)).
Proof.
  unfold adjustLock.
  destruct (isVIP && (0 <? inc) && (vte =? voteTypes.normal)),
    (isVIP && (inc <? 0) && (vte =? voteTypes.normal)), row;
    repeat split.
Qed.

(** The writes of a category vote leave the segment table alone until the
    category is replaced. *)
Lemma category_writes_other_tables UUID u C h va ts last inc s :
  let s2 := seedIncumbent UUID inc (addCategoryVote UUID u C h va ts last s) in
  registries s2 = registries s
  /\ Db.sponsorTimes (db s2) = Db.sponsorTimes (db s)
  /\ PrivateDb.votes (privateDB s2) = PrivateDb.votes (privateDB s)
  /\ registries (replaceCategory UUID C s2) = registries s
  /\ PrivateDb.votes (privateDB (replaceCategory UUID C s2))
     = PrivateDb.votes (privateDB s)
  /\ Db.sponsorTimes (db (replaceCategory UUID C s2))
     = update (segmentRow UUID) (SponsorTimes.set_category C)
              (Db.sponsorTimes (db s)).
Proof.
  unfold seedIncumbent.
  destruct (tally UUID inc (db (addCategoryVote UUID u C h va ts last s))),
    (segment UUID (db (addCategoryVote UUID u C h va ts last s)));
    unfold addCategoryVote;
    destruct (0 <? count _ _), last as [[n d]|]; try destruct (0 <? n);
    repeat split.
Qed.

(** X1: no request changes the VIP list, the category locks, the warnings
    or the shadow bans. *)
Theorem vote_keeps_registries (req : Request) (now : Z) (s : Stores) :
  registries (fst (vote req now s)) = registries s.
Proof.
  destruct (vote_shape req now s)
    as [[Hs _]
       |[(UUID & u & t & inc & ty & delta & _ & _ & _ & _ & Hs)
        |(UUID & u & C & seg & _ & _ & _ & _ & _ & _ & _ & Hs)]].
  - now rewrite Hs.
  - rewrite Hs. apply score_writes_other_tables.
  - cbv zeta in Hs.
    destruct Hs as [Hs|Hs]; rewrite Hs; apply category_writes_other_tables.
Qed.

(** X2: the answer's status is 200, 400, 403 or 500, and an answer of 400
    or 500 comes with both stores exactly as they were. *)
Theorem error_answers_write_nothing (req : Request) (now : Z) (s : Stores) :
  let out := vote req now s in
  (status (snd out) = 200 \/ status (snd out) = 400
   \/ status (snd out) = 403 \/ status (snd out) = 500)
  /\ (status (snd out) = 400 \/ status (snd out) = 500 -> fst out = s).
Proof.
  destruct (vote_shape req now s)
    as [[Hs Hst]
       |[(UUID & u & t & inc & ty & delta & _ & _ & _ & Hst & _)
        |(UUID & u & C & seg & _ & _ & _ & _ & _ & _ & Hst & _)]];
    cbv zeta; split; auto.
  - intros [H|H]; rewrite Hst in H; discriminate.
  - destruct Hst as [Hst|Hst]; auto.
  - intros [H|H]; destruct Hst as [Hst|Hst]; rewrite Hst in H; discriminate.
Qed.

(** X3: a score vote (a request that carries a type) writes only when it
    is answered with 200; answered otherwise, it leaves both stores as they
    were. *)
Theorem score_vote_writes_only_with_200 (req : Request) (now : Z) (s : Stores) :
  q_type req <> None ->
  status (snd (vote req now s)) <> 200 ->
  fst (vote req now s) = s.
Proof.
  intros Hty Hst.
  destruct (vote_shape req now s)
    as [[Hs _]
       |[(UUID & u & t & inc & ty & delta & _ & _ & _ & Hst' & _)
        |(UUID & u & C & seg & _ & _ & Hnone & _)]];
    [exact Hs | contradiction | contradiction].
Qed.

(** X4: a score vote leaves the category tallies, the private category
    records and every segment's category as they were. *)
Theorem score_vote_leaves_categories
    (UUID : option SegmentUUID) (paramUserID : option string) (t : Num)
    (category : option Category) (addr : string) (now : Z) (s : Stores) :
  let s' := fst (vote (mkRequest UUID paramUserID (Some t) category addr) now s) in
  Db.categoryVotes (db s') = Db.categoryVotes (db s)
  /\ PrivateDb.categoryVotes (privateDB s') = PrivateDb.categoryVotes (privateDB s)
  /\ map SponsorTimes.category (Db.sponsorTimes (db s'))
     = map SponsorTimes.category (Db.sponsorTimes (db s)).
Proof.
  destruct (vote_shape (mkRequest UUID paramUserID (Some t) category addr) now s)
    as [[Hs _]
       |[(U & u & t' & inc & ty & delta & _ & _ & _ & _ & Hs)
        |(U & u & C & seg & _ & _ & Hnone & _)]];
    [cbv zeta; rewrite Hs; auto | | discriminate Hnone].
  cbv zeta. rewrite Hs.
  destruct (score_writes_other_tables (voteTypeEnumOf (Some t'))
              (onVipList (getHash u) (db s)) inc U delta
              (votesRowOf (getHash (String.append u U)) U (privateDB s))
              (getHash (String.append u U))
              (getHash (String.append
                          (ip (mkRequest UUID paramUserID (Some t) category addr))
                          (globalSalt config))) ty s)
    as (_ & Hpub & Hpriv & _).
  destruct (score_writes_rows (voteTypeEnumOf (Some t'))
              (onVipList (getHash u) (db s)) inc U delta
              (votesRowOf (getHash (String.append u U)) U (privateDB s))
              (getHash (String.append u U))
              (getHash (String.append
                          (ip (mkRequest UUID paramUserID (Some t) category addr))
                          (globalSalt config))) ty s)
    as (lock & Hrows & Hlock).
  repeat split; [exact Hpub | exact Hpriv |].
  rewrite Hrows, !map_update; [reflexivity | |].
  - intros r. destruct (voteTypeEnumOf (Some t') =? voteTypes.normal); reflexivity.
  - intros r. destruct Hlock as [[_ [l ->]]| ->]; reflexivity.
Qed.

(** X5: a category vote leaves the vote ledger as it was, and the segment
    table either as it was or with the category of the target segment's
    rows replaced by the category voted for, nothing else. *)
Theorem category_vote_leaves_scores
    (UUID : option SegmentUUID) (paramUserID : option string)
    (category : option Category) (addr : string) (now : Z) (s : Stores) :
  let s' := fst (vote (mkRequest UUID paramUserID None category addr) now s) in
  PrivateDb.votes (privateDB s') = PrivateDb.votes (privateDB s)
  /\ (Db.sponsorTimes (db s') = Db.sponsorTimes (db s)
      \/ exists U C,
           UUID = Some U /\ category = Some C
           /\ Db.sponsorTimes (db s')
              = update (segmentRow U) (SponsorTimes.set_category C)
                       (Db.sponsorTimes (db s))).
Proof.
  destruct (vote_shape (mkRequest UUID paramUserID None category addr) now s)
    as [[Hs _]
       |[(U & u & t & inc & ty & delta & _ & _ & Hty & _)
        |(U & u & C & seg & HU & _ & _ & HC & _ & _ & _ & Hs)]];
    [cbv zeta; rewrite Hs; auto | discriminate Hty |].
  cbn [q_UUID q_category] in HU, HC. cbv zeta in Hs |- *.
  destruct (category_writes_other_tables U (getHash u) C
              (getHash (String.append addr (globalSalt config)))
              (if onVipList (getHash u) (db s) then 500 else 1) now
              (usersLastVoteInfo U (getHash u) (privateDB s))
              (SponsorTimes.category seg) s)
    as (_ & Hrows & Hledger & _ & Hledger' & Hrows').
  cbn [ip] in Hs.
  destruct Hs as [Hs|Hs]; rewrite Hs.
  - split; [exact Hledger | left; exact Hrows].
  - split; [exact Hledger' | right; exists U, C; auto].
Qed.

Lemma segmentRow_other U U' r :
  U <> U' -> segmentRow U' r = true -> segmentRow U r = false.
Proof.
  unfold segmentRow. intros Hne H. apply String.eqb_eq in H.
  apply String.eqb_neq. congruence.
Qed.

(** X6: a vote on segment [UUID] leaves the rows of every other segment as
    they were, and never adds a row to or removes one from the segment
    table. *)
Theorem vote_touches_only_its_segment
    (req : Request) (now : Z) (s : Stores) (other : SegmentUUID) :
  q_UUID req <> Some other ->
  let s' := fst (vote req now s) in
  segment other (db s') = segment other (db s)
  /\ filter (segmentRow other) (Db.sponsorTimes (db s'))
     = filter (segmentRow other) (Db.sponsorTimes (db s))
  /\ List.length (Db.sponsorTimes (db s')) = List.length (Db.sponsorTimes (db s)).
Proof.
  intros Hother.
  assert (Hupd : forall U f tbl,
             U <> other ->
             (forall r, SponsorTimes.UUID (f r) = SponsorTimes.UUID r) ->
             get (segmentRow other) (update (segmentRow U) f tbl)
             = get (segmentRow other) tbl
             /\ filter (segmentRow other) (update (segmentRow U) f tbl)
                = filter (segmentRow other) tbl).
  { intros U f tbl Hne Hf. split.
    - apply get_update_other.
      + intros r. unfold segmentRow. now rewrite Hf.
      + intros r. now apply segmentRow_other.
    - unfold update. induction tbl as [|r tbl IH]; simpl; [reflexivity|].
      destruct (segmentRow U r) eqn:HU.
      + assert (Hr : segmentRow other r = false).
        { unfold segmentRow in *. apply String.eqb_eq in HU.
          apply String.eqb_neq. congruence. }
        assert (Hfr : segmentRow other (f r) = false)
          by (unfold segmentRow in *; now rewrite Hf).
        now rewrite Hr, Hfr.
      + destruct (segmentRow other r); [f_equal|]; exact IH. }
  destruct (vote_shape req now s)
    as [[Hs _]
       |[(UUID & u & t & inc & ty & delta & HU & _ & _ & _ & Hs)
        |(UUID & u & C & seg & HU & _ & _ & _ & _ & _ & _ & Hs)]].
  - cbv zeta. rewrite Hs. auto.
  - assert (Hne : UUID <> other) by congruence.
    destruct (score_writes_rows (voteTypeEnumOf (Some t))
                (onVipList (getHash u) (db s)) inc UUID delta
                (votesRowOf (getHash (String.append u UUID)) UUID (privateDB s))
                (getHash (String.append u UUID))
                (getHash (String.append (ip req) (globalSalt config))) ty s)
      as (lock & Hrows & Hlock).
    cbv zeta. unfold segment. rewrite Hs, Hrows.
    assert (HlockU : forall r, SponsorTimes.UUID (lock r) = SponsorTimes.UUID r)
      by (intros r; destruct Hlock as [[_ [l ->]]| ->]; reflexivity).
    assert (HbumpU : forall r,
               SponsorTimes.UUID
                 ((if voteTypeEnumOf (Some t) =? voteTypes.normal
                   then SponsorTimes.set_votes (fun v => v + delta)
                   else SponsorTimes.set_incorrectVotes (fun v => v + delta)) r)
               = SponsorTimes.UUID r)
      by (intros r; destruct (voteTypeEnumOf (Some t) =? voteTypes.normal);
          reflexivity).
    repeat split.
    + etransitivity; [apply (Hupd UUID lock _ Hne HlockU)|].
      apply (Hupd UUID _ _ Hne HbumpU).
    + etransitivity; [apply (Hupd UUID lock _ Hne HlockU)|].
      apply (Hupd UUID _ _ Hne HbumpU).
    + now rewrite !length_update.
  - assert (Hne : UUID <> other) by congruence.
    cbv zeta in Hs |- *.
    destruct (category_writes_other_tables UUID (getHash u) C
                (getHash (String.append (ip req) (globalSalt config)))
                (if onVipList (getHash u) (db s) then 500 else 1) now
                (usersLastVoteInfo UUID (getHash u) (privateDB s))
                (SponsorTimes.category seg) s)
      as (_ & Hrows & _ & _ & _ & Hrows').
    unfold segment.
    destruct Hs as [Hs|Hs]; rewrite Hs.
    + rewrite Hrows. auto.
    + rewrite Hrows'. repeat split.
      * now apply Hupd.
      * now apply Hupd.
      * now rewrite length_update.
Qed.

(** X12: a request from a voter who is not on the VIP list leaves the lock
    flag of every segment as it was. *)
Theorem non_vip_vote_keeps_locks (req : Request) (now : Z) (s : Stores) :
  (forall u, q_userID req = Some u -> onVipList (getHash u) (db s) = false) ->
  map SponsorTimes.locked (Db.sponsorTimes (db (fst (vote req now s))))
  = map SponsorTimes.locked (Db.sponsorTimes (db s)).
Proof.
  intros Hvip.
  destruct (vote_shape req now s)
    as [[Hs _]
       |[(UUID & u & t & inc & ty & delta & _ & Hu & _ & _ & Hs)
        |(UUID & u & C & seg & _ & _ & _ & _ & _ & _ & _ & Hs)]].
  - now rewrite Hs.
  - destruct (score_writes_rows (voteTypeEnumOf (Some t))
                (onVipList (getHash u) (db s)) inc UUID delta
                (votesRowOf (getHash (String.append u UUID)) UUID (privateDB s))
                (getHash (String.append u UUID))
                (getHash (String.append (ip req) (globalSalt config))) ty s)
      as (lock & Hrows & Hlock).
    rewrite Hs, Hrows.
    destruct Hlock as [[Hv _]| ->];
      [rewrite (Hvip u Hu) in Hv; discriminate|].
    rewrite !map_update; [reflexivity | | reflexivity].
    intros r. destruct (voteTypeEnumOf (Some t) =? voteTypes.normal); reflexivity.
  - cbv zeta in Hs.
    destruct (category_writes_other_tables UUID (getHash u) C
                (getHash (String.append (ip req) (globalSalt config)))
                (if onVipList (getHash u) (db s) then 500 else 1) now
                (usersLastVoteInfo UUID (getHash u) (privateDB s))
                (SponsorTimes.category seg) s)
      as (_ & Hrows & _ & _ & _ & Hrows').
    destruct Hs as [Hs|Hs]; rewrite Hs.
    + now rewrite Hrows.
    + rewrite Hrows'. now apply map_update.
Qed.

(** X16: a score vote moves one counter only.  A plain vote (type 0 or 1)
    leaves the incorrect-vote counter of every segment as it was; a vote of
    any other type, the undo (type 20) included, leaves the plain vote
    counter of every segment as it was. *)
Theorem score_vote_moves_one_counter
    (UUID : option SegmentUUID) (paramUserID : option string) (t : Num)
    (category : option Category) (addr : string) (now : Z) (s : Stores) :
  let s' := fst (vote (mkRequest UUID paramUserID (Some t) category addr) now s) in
  if type_is (Some t) 0 || type_is (Some t) 1
  then map SponsorTimes.incorrectVotes (Db.sponsorTimes (db s'))
       = map SponsorTimes.incorrectVotes (Db.sponsorTimes (db s))
  else map SponsorTimes.votes (Db.sponsorTimes (db s'))
       = map SponsorTimes.votes (Db.sponsorTimes (db s)).
Proof.
  destruct (vote_shape (mkRequest UUID paramUserID (Some t) category addr) now s)
    as [[Hs _]
       |[(U & u & t' & inc & ty & delta & _ & _ & Ht & _ & Hs)
        |(U & u & C & seg & _ & _ & Hnone & _)]];
    [cbv zeta; rewrite Hs; now destruct (_ || _) | | discriminate Hnone].
  cbn [q_type] in Ht. injection Ht as <-.
  destruct (score_writes_rows (voteTypeEnumOf (Some t))
              (onVipList (getHash u) (db s)) inc U delta
              (votesRowOf (getHash (String.append u U)) U (privateDB s))
              (getHash (String.append u U))
              (getHash (String.append addr (globalSalt config))) ty s)
    as (lock & Hrows & Hlock).
  cbv zeta. cbn [ip] in Hs. rewrite Hs, Hrows.
  unfold voteTypeEnumOf.
  destruct (type_is (Some t) 0 || type_is (Some t) 1);
    cbn [Z.eqb voteTypes.normal voteTypes.incorrect];
    (rewrite !map_update; [reflexivity | reflexivity |]);
    intros r; destruct Hlock as [[_ [l ->]]| ->]; reflexivity.
Qed.

(** *** One row per key *)

Lemma count_insert_fresh {A} (p : A -> bool) (r : A) (tbl : list A) :
  count p tbl <= 1 -> (p r = true -> count p tbl = 0) ->
  count p (insert r tbl) <= 1.
Proof.
  intros Hle Hfresh. rewrite count_insert.
  destruct (p r); [rewrite Hfresh by reflexivity|]; lia.
Qed.

Lemma ledgerRow_key u U v :
  ledgerRow u U v = true -> Votes.userID v = u /\ Votes.UUID v = U.
Proof.
  unfold ledgerRow. intros H. apply andb_prop in H as [Hu HU].
  now apply String.eqb_eq in Hu, HU.
Qed.

Lemma tallyRow_key U c r :
  tallyRow U c r = true -> CategoryVotes.UUID r = U /\ CategoryVotes.category r = c.
Proof.
  unfold tallyRow. intros H. apply andb_prop in H as [HU Hc].
  now apply String.eqb_eq in HU, Hc.
Qed.

Lemma recordVote_unique UUID userID hashedIP ty s :
  (forall u U, count (ledgerRow u U) (PrivateDb.votes (privateDB s)) <= 1) ->
  forall u U,
    count (ledgerRow u U)
          (PrivateDb.votes
             (privateDB (recordVote (votesRowOf userID UUID (privateDB s)) UUID
                                    userID hashedIP ty s))) <= 1.
Proof.
  intros Huniq u U. unfold recordVote, votesRowOf.
  destruct (get (ledgerRow userID UUID) (PrivateDb.votes (privateDB s)))
    eqn:Hrow; simpl.
  - rewrite count_update by reflexivity. apply Huniq.
  - apply count_insert_fresh; [apply Huniq|].
    intros Hkey. apply ledgerRow_key in Hkey as [<- <-]. simpl.
    now apply count_none.
Qed.

(** X7: if the vote ledger holds at most one row for each (voter, segment)
    pair, it still does after any request: a repeated vote replaces the
    voter's row and never adds a second one. *)
Theorem ledger_stays_unique (req : Request) (now : Z) (s : Stores) :
  (forall u U, count (ledgerRow u U) (PrivateDb.votes (privateDB s)) <= 1) ->
  forall u U,
    count (ledgerRow u U) (PrivateDb.votes (privateDB (fst (vote req now s))))
    <= 1.
Proof.
  intros Huniq u U.
  destruct (vote_shape req now s)
    as [[Hs _]
       |[(UUID & v & t & inc & ty & delta & _ & _ & _ & _ & Hs)
        |(UUID & v & C & seg & _ & _ & _ & _ & _ & _ & _ & Hs)]].
  - rewrite Hs. apply Huniq.
  - destruct (score_writes_other_tables (voteTypeEnumOf (Some t))
                (onVipList (getHash v) (db s)) inc UUID delta
                (votesRowOf (getHash (String.append v UUID)) UUID (privateDB s))
                (getHash (String.append v UUID))
                (getHash (String.append (ip req) (globalSalt config))) ty s)
      as (_ & _ & _ & Hledger).
    rewrite Hs, Hledger. now apply recordVote_unique.
  - cbv zeta in Hs.
    destruct (category_writes_other_tables UUID (getHash v) C
                (getHash (String.append (ip req) (globalSalt config)))
                (if onVipList (getHash v) (db s) then 500 else 1) now
                (usersLastVoteInfo UUID (getHash v) (privateDB s))
                (SponsorTimes.category seg) s)
      as (_ & _ & Hledger & _ & Hledger' & _).
    destruct Hs as [Hs|Hs]; rewrite Hs;
      [rewrite Hledger | rewrite Hledger']; apply Huniq.
Qed.

Lemma addCategoryVote_unique UUID u C h va ts last s :
  (forall U c, count (tallyRow U c) (Db.categoryVotes (db s)) <= 1) ->
  forall U c,
    count (tallyRow U c)
          (Db.categoryVotes (db (addCategoryVote UUID u C h va ts last s))) <= 1.
Proof.
  intros Huniq U c. unfold addCategoryVote.
  assert (Hfirst :
            count (tallyRow U c)
              (if 0 <? count (tallyRow UUID C) (Db.categoryVotes (db s))
               then update (tallyRow UUID C)
                           (CategoryVotes.set_votes (fun v => v + va))
                           (Db.categoryVotes (db s))
               else insert (CategoryVotes.mk UUID C va) (Db.categoryVotes (db s)))
            <= 1).
  { destruct (0 <? count (tallyRow UUID C) (Db.categoryVotes (db s))) eqn:Hc.
    - rewrite count_update by reflexivity. apply Huniq.
    - apply count_insert_fresh; [apply Huniq|].
      intros Hkey. apply tallyRow_key in Hkey as [<- <-]. simpl.
      apply Z.ltb_ge in Hc.
      pose proof (count_nonneg (tallyRow UUID C) (Db.categoryVotes (db s))).
      lia. }
  destruct (0 <? count (tallyRow UUID C) (Db.categoryVotes (db s)));
    destruct last as [[n d]|]; try destruct (0 <? n); simpl;
    first [exact Hfirst | rewrite count_update by reflexivity; exact Hfirst].
Qed.

Lemma seedIncumbent_unique UUID inc s :
  (forall U c, count (tallyRow U c) (Db.categoryVotes (db s)) <= 1) ->
  forall U c,
    count (tallyRow U c) (Db.categoryVotes (db (seedIncumbent UUID inc s))) <= 1.
Proof.
  intros Huniq U c. unfold seedIncumbent.
  destruct (tally UUID inc (db s)) eqn:Hcur; [apply Huniq|].
  destruct (segment UUID (db s)); [|apply Huniq]. simpl.
  apply count_insert_fresh; [apply Huniq|].
  intros Hkey. apply tallyRow_key in Hkey as [<- <-]. simpl.
  now apply count_none.
Qed.

(** X8: if the public tallies hold at most one row for each (segment,
    category) pair, they still do after any request: the vote's own tally
    and the baseline of the incumbent are inserted only where no row
    exists. *)
Theorem tallies_stay_unique (req : Request) (now : Z) (s : Stores) :
  (forall U c, count (tallyRow U c) (Db.categoryVotes (db s)) <= 1) ->
  forall U c,
    count (tallyRow U c) (Db.categoryVotes (db (fst (vote req now s)))) <= 1.
Proof.
  intros Huniq U c.
  destruct (vote_shape req now s)
    as [[Hs _]
       |[(UUID & v & t & inc & ty & delta & _ & _ & _ & _ & Hs)
        |(UUID & v & C & seg & _ & _ & _ & _ & _ & _ & _ & Hs)]].
  - rewrite Hs. apply Huniq.
  - destruct (score_writes_other_tables (voteTypeEnumOf (Some t))
                (onVipList (getHash v) (db s)) inc UUID delta
                (votesRowOf (getHash (String.append v UUID)) UUID (privateDB s))
                (getHash (String.append v UUID))
                (getHash (String.append (ip req) (globalSalt config))) ty s)
      as (_ & Hpub & _).
    rewrite Hs, Hpub. apply Huniq.
  - cbv zeta in Hs.
    assert (H2 : count (tallyRow U c)
                   (Db.categoryVotes
                      (db (seedIncumbent UUID (SponsorTimes.category seg)
                             (addCategoryVote UUID (getHash v) C
                                (getHash (String.append (ip req) (globalSalt config)))
                                (if onVipList (getHash v) (db s) then 500 else 1)
                                now
                                (usersLastVoteInfo UUID (getHash v) (privateDB s))
                                s)))) <= 1)
      by (apply seedIncumbent_unique, addCategoryVote_unique, Huniq).
    destruct Hs as [Hs|Hs]; rewrite Hs; exact H2.
Qed.

(** *** Repeating a category vote *)

Lemma firstGroup_uniform (C : Category) (l : list Category) :
  l <> [] -> (forall c, In c l -> c = C) -> firstGroup l = Some C.
Proof.
  induction l as [|c rest IH]; intros Hne Hall; [contradiction|].
  assert (Hc : c = C) by (apply Hall; now left). subst c.
  destruct rest as [|c' rest']; [reflexivity|].
  cbn [firstGroup] in *.
  rewrite IH; [now destruct (String.leb C C) | discriminate |].
  intros c Hin. apply Hall. now right.
Qed.

Lemma firstGroup_none (l : list Category) : firstGroup l = None -> l = [].
Proof.
  destruct l as [|c rest]; [reflexivity|]. simpl.
  destruct (firstGroup rest); discriminate.
Qed.

Lemma firstGroup_in (l : list Category) (c : Category) :
  firstGroup l = Some c -> In c l.
Proof.
  revert c. induction l as [|x rest IH]; intros c; [discriminate|]. simpl.
  destruct (firstGroup rest) as [m|] eqn:Hm.
  - intros [= <-]. destruct (String.leb x m); [now left | right; now apply IH].
  - intros [= <-]. now left.
Qed.

(** The group read on line 151 is never empty. *)
Lemma usersLastVoteInfo_counted UUID u p n D :
  usersLastVoteInfo UUID u p = Some (n, D) -> (0 <? n) = true.
Proof.
  unfold usersLastVoteInfo.
  destruct (firstGroup _) as [c|] eqn:Hfirst; [|discriminate].
  intros [= <- <-].
  apply firstGroup_in, in_map_iff in Hfirst as (r & Hcat & Hin).
  apply filter_In in Hin as [Hin Hrow].
  rewrite count_positive. unfold get.
  destruct (find _ (PrivateDb.categoryVotes p)) eqn:Hf; [reflexivity|].
  pose proof (find_none _ _ Hf r Hin) as Hn. cbn beta in Hn.
  rewrite Hrow, Hcat, String.eqb_refl in Hn. discriminate.
Qed.

Lemma usersLastVoteInfo_uniform UUID u p C :
  filter (voterRow UUID u) (PrivateDb.categoryVotes p) <> [] ->
  (forall r, In r (filter (voterRow UUID u) (PrivateDb.categoryVotes p)) ->
             PrivateCategoryVotes.category r = C) ->
  exists n, usersLastVoteInfo UUID u p = Some (n, C).
Proof.
  intros Hne Hall. unfold usersLastVoteInfo.
  rewrite (firstGroup_uniform C); [eauto | |].
  - intros Hnil. apply map_eq_nil in Hnil. contradiction.
  - intros c Hin. apply in_map_iff in Hin as (r & <- & Hin). now apply Hall.
Qed.

Lemma categoryVote_duplicate UUID u isVIP isOwn C h fr now s n :
  usersLastVoteInfo UUID u (privateDB s) = Some (n, C) ->
  categoryVote config getCategoryActionType UUID u isVIP isOwn C h fr now s
  = (s, sendStatus (finalStatus fr)).
Proof.
  intros Hlast. unfold categoryVote. rewrite Hlast, String.eqb_refl. reflexivity.
Qed.

Lemma filter_update_same {A} (p : A -> bool) (f : A -> A) (tbl : list A) :
  (forall r, p (f r) = p r) ->
  filter p (update p f tbl) = map f (filter p tbl).
Proof.
  intros Hp. unfold update.
  induction tbl as [|r tbl IH]; simpl; [reflexivity|].
  destruct (p r) eqn:Hr.
  - rewrite Hp, Hr. simpl. now rewrite IH.
  - rewrite Hr. exact IH.
Qed.

(** Once the vote is added, every private record of the voter for the
    segment names the category voted for, and there is one at least. *)
Lemma addCategoryVote_voter_rows UUID u C h va ts s :
  let rows :=
    filter (voterRow UUID u)
           (PrivateDb.categoryVotes
              (privateDB (addCategoryVote UUID u C h va ts
                            (usersLastVoteInfo UUID u (privateDB s)) s))) in
  rows <> [] /\ forall r, In r rows -> PrivateCategoryVotes.category r = C.
Proof.
  unfold addCategoryVote.
  destruct (usersLastVoteInfo UUID u (privateDB s)) as [[n D]|] eqn:Hlast.
  - rewrite (usersLastVoteInfo_counted _ _ _ _ _ Hlast).
    assert (Hsome : filter (voterRow UUID u)
                           (PrivateDb.categoryVotes (privateDB s)) <> []).
    { unfold usersLastVoteInfo in Hlast.
      destruct (firstGroup _) as [c|] eqn:Hfirst; [|discriminate].
      apply firstGroup_in in Hfirst. intros Hnil. now rewrite Hnil in Hfirst. }
    destruct (0 <? count (tallyRow UUID C) _); cbn zeta;
      cbn [privateDB on_db on_privateDB PrivateDb.categoryVotes
           PrivateDb.set_categoryVotes];
      rewrite filter_update_same by reflexivity;
      (split;
       [intros Hnil; apply map_eq_nil in Hnil; contradiction
       |intros r Hin; apply in_map_iff in Hin as (r0 & <- & _); reflexivity]).
  - assert (Hnone : filter (voterRow UUID u)
                           (PrivateDb.categoryVotes (privateDB s)) = []).
    { unfold usersLastVoteInfo in Hlast.
      destruct (firstGroup _) eqn:Hfirst; [discriminate|].
      apply firstGroup_none, map_eq_nil in Hfirst. exact Hfirst. }
    assert (Hnew : voterRow UUID u (PrivateCategoryVotes.mk UUID u h C ts) = true)
      by (unfold voterRow; simpl; now rewrite !String.eqb_refl).
    destruct (0 <? count (tallyRow UUID C) _); cbn zeta;
      cbn [privateDB on_db on_privateDB PrivateDb.categoryVotes
           PrivateDb.set_categoryVotes];
      unfold insert; rewrite filter_app, Hnone; cbn [filter app]; rewrite Hnew;
      (split; [discriminate | intros r [<-|[]]; reflexivity]).
Qed.

Lemma not_the_owner u UUID d sub :
  ownSubmission u UUID d = None ->
  segment UUID d = Some sub ->
  String.eqb (SponsorTimes.userID sub) u = false.
Proof.
  unfold ownSubmission, segment, get. intros Hown Hseg.
  apply find_some in Hseg as [Hin HU].
  pose proof (find_none _ _ Hown sub Hin) as Hn. cbn beta in Hn.
  rewrite HU, andb_true_r in Hn. exact Hn.
Qed.

(** The baseline record is in the owner's name: it is not among the
    records of a voter who does not own the segment. *)
Lemma seedIncumbent_voter_rows UUID inc u s :
  ownSubmission u UUID (db s) = None ->
  filter (voterRow UUID u)
         (PrivateDb.categoryVotes (privateDB (seedIncumbent UUID inc s)))
  = filter (voterRow UUID u) (PrivateDb.categoryVotes (privateDB s)).
Proof.
  intros Hown. unfold seedIncumbent.
  destruct (tally UUID inc (db s)); [reflexivity|].
  destruct (segment UUID (db s)) as [sub|] eqn:Hseg; [|reflexivity].
  cbn [privateDB on_db on_privateDB PrivateDb.categoryVotes
       PrivateDb.set_categoryVotes].
  unfold insert. rewrite filter_app. cbn [filter].
  unfold voterRow at 2. cbn [PrivateCategoryVotes.UUID PrivateCategoryVotes.userID].
  rewrite (not_the_owner _ _ _ _ Hown Hseg), andb_false_r.
  apply app_nil_r.
Qed.

(** X9: a category vote by a voter who does not own the segment, repeated
    on the stores the first one left, writes nothing, whatever the time and
    the address of the repetition, and whether or not the first one was
    tallied. *)
Theorem category_vote_repeated_is_noop
    (UUID : SegmentUUID) (paramUserID : string) (C : Category)
    (addr addr' : string) (now now' : Z) (s : Stores) :
  ownSubmission (getHash paramUserID) UUID (db s) = None ->
  let s1 :=
    fst (vote (mkRequest (Some UUID) (Some paramUserID) None (Some C) addr)
              now s) in
  fst (vote (mkRequest (Some UUID) (Some paramUserID) None (Some C) addr')
            now' s1) = s1.
Proof.
  intros Hown. cbv zeta. rewrite !vote_category_request.
  set (u := getHash paramUserID) in *.
  set (h := getHash (String.append addr (globalSalt config))).
  set (isVIP := onVipList u (db s)).
  set (isOwn := is_some (ownSubmission u UUID (db s))).
  set (fr := lockGate UUID isVIP None (db s)).
  destruct (match usersLastVoteInfo UUID u (privateDB s) with
            | Some (_, c) => String.eqb c C
            | None => false
            end) eqn:Hdup.
  { assert (Hfirst : forall b1 b2 x f t,
               categoryVote config getCategoryActionType UUID u b1 b2 C x f t s
               = (s, sendStatus (finalStatus f)))
      by (intros; unfold categoryVote; now rewrite Hdup).
    rewrite Hfirst. cbn [fst]. now rewrite Hfirst. }
  destruct (segment UUID (db s)) as [seg|] eqn:Hseg.
  2:{ assert (Hfirst : forall b1 b2 x f t,
                 fst (categoryVote config getCategoryActionType UUID u
                                   b1 b2 C x f t s) = s)
        by (intros; unfold categoryVote; now rewrite Hdup, Hseg).
      rewrite Hfirst. apply Hfirst. }
  destruct (existsb (String.eqb C) (categoryList config)) eqn:Hin.
  2:{ assert (Hfirst : forall b1 b2 x f t,
                 fst (categoryVote config getCategoryActionType UUID u
                                   b1 b2 C x f t s) = s)
        by (intros; unfold categoryVote; now rewrite Hdup, Hseg, Hin).
      rewrite Hfirst. apply Hfirst. }
  destruct (getCategoryActionType C) eqn:Hskip.
  2:{ assert (Hfirst : forall b1 b2 x f t,
                 fst (categoryVote config getCategoryActionType UUID u
                                   b1 b2 C x f t s) = s)
        by (intros; unfold categoryVote; now rewrite Hdup, Hseg, Hin, Hskip).
      rewrite Hfirst. apply Hfirst. }
  rewrite (categoryVote_tallied config getCategoryActionType UUID u isVIP
             isOwn C h fr now s seg Hdup Hseg Hin Hskip).
  cbv zeta.
  set (s0 := addCategoryVote UUID u C h (if isVIP then 500 else 1) now
               (usersLastVoteInfo UUID u (privateDB s)) s).
  destruct (addCategoryVote_voter_rows UUID u C h (if isVIP then 500 else 1)
              now s) as [Hsome Hall].
  fold s0 in Hsome, Hall.
  assert (Hown0 : ownSubmission u UUID (db s0) = None).
  { destruct (addCategoryVote_frame UUID u C h (if isVIP then 500 else 1) now
                (usersLastVoteInfo UUID u (privateDB s)) s) as [Hrows _].
    fold s0 in Hrows. unfold ownSubmission in *. now rewrite Hrows. }
  pose proof (seedIncumbent_voter_rows UUID (SponsorTimes.category seg) u s0
                Hown0) as Hkeep.
  set (s2 := seedIncumbent UUID (SponsorTimes.category seg) s0) in *.
  rewrite <- Hkeep in Hsome, Hall.
  destruct (usersLastVoteInfo_uniform UUID u (privateDB s2) C Hsome Hall)
    as [n Hlast].
  destruct (readyToChange _ _ _ _ _); cbn [fst].
  - erewrite categoryVote_duplicate; [reflexivity | exact Hlast].
  - erewrite categoryVote_duplicate; [reflexivity | exact Hlast].
Qed.

(** *** Score votes that reach the ledger *)

Lemma score_vote_reaches_try (UUID : SegmentUUID) (paramUserID : string) t category addr now s :
  let isVIP := onVipList (getHash paramUserID) (db s) in
  let isOwn := is_some (ownSubmission (getHash paramUserID) UUID (db s)) in
  suppressedFor UUID isVIP isOwn (Some t) (db s)
  && (type_is (Some t) 1 || type_is (Some t) 0) = false ->
  warningsCount config (getHash paramUserID) now (db s)
  < maxNumberOfActiveWarnings config ->
  vote (mkRequest (Some UUID) (Some paramUserID) (Some t) category addr) now s
  = applyScoreVote UUID (getHash paramUserID)
      (getHash (String.append paramUserID UUID))
      (getHash (String.append addr (globalSalt config)))
      isVIP isOwn (Some t) (lockGate UUID isVIP (Some t) (db s)) s.
Proof.
  intros isVIP isOwn Hsup Hwarn. apply Z.leb_gt in Hwarn.
  unfold voteOnSponsorTime.
  cbn [q_UUID q_userID q_type q_category ip is_none is_some negb andb].
  fold isVIP isOwn. rewrite Hwarn.
  destruct (suppressedFor UUID isVIP isOwn (Some t) (db s));
    cbn [andb] in Hsup |- *.
  - apply orb_false_elim in Hsup as [H1 H0]. rewrite H1, H0.
    destruct category; reflexivity.
  - destruct category; reflexivity.
Qed.

Lemma vip_not_suppressed UUID isOwn type d :
  suppressedFor UUID true isOwn type d = false.
Proof. unfold suppressedFor. now destruct (is_some type). Qed.

Lemma lockGate_vip UUID type d : lockGate UUID true type d = mkFinal 200 None.
Proof. reflexivity. Qed.

(** The segment's row after the three writes of a score vote. *)
Lemma segment_score_writes vte isVIP inc UUID delta row userID hashedIP ty s seg :
  segment UUID (db s) = Some seg ->
  segment UUID
    (db (adjustLock vte isVIP inc UUID
           (addToCounter vte UUID delta
              (recordVote row UUID userID hashedIP ty s))))
  = Some
      ((if isVIP && (0 <? inc) && (vte =? voteTypes.normal)
        then SponsorTimes.set_locked 1
        else if isVIP && (inc <? 0) && (vte =? voteTypes.normal)
             then SponsorTimes.set_locked 0
             else fun r => r)
         ((if vte =? voteTypes.normal
           then SponsorTimes.set_votes (fun v => v + delta)
           else SponsorTimes.set_incorrectVotes (fun v => v + delta)) seg)).
Proof.
  intros Hseg. unfold adjustLock.
  destruct (isVIP && (0 <? inc) && (vte =? voteTypes.normal));
    [|destruct (isVIP && (inc <? 0) && (vte =? voteTypes.normal))];
    rewrite ?segment_setLocked, segment_addToCounter, recordVote_db, Hseg;
    reflexivity.
Qed.

Lemma ledger_score_writes vte isVIP inc UUID delta userID hashedIP ty s :
  option_map Votes.type
    (votesRowOf userID UUID
       (privateDB
          (adjustLock vte isVIP inc UUID
             (addToCounter vte UUID delta
                (recordVote (votesRowOf userID UUID (privateDB s)) UUID userID
                            hashedIP ty s)))))
  = Some ty.
Proof.
  unfold adjustLock.
  destruct (isVIP && (0 <? inc) && (vte =? voteTypes.normal));
    [|destruct (isVIP && (inc <? 0) && (vte =? voteTypes.normal))];
    cbn [privateDB on_db addToCounter];
    now apply ledger_recordVote.
Qed.

(** What a VIP's plain downvote writes. *)
Lemma vip_downvote_result (UUID : SegmentUUID) (paramUserID : string) category addr now s seg :
  let userID := getHash (String.append paramUserID UUID) in
  let hashedIP := getHash (String.append addr (globalSalt config)) in
  let row := votesRowOf userID UUID (privateDB s) in
  let weight := - (SponsorTimes.votes seg + 2 - oldIncrementAmountOf row 0) in
  onVipList (getHash paramUserID) (db s) = true ->
  segment UUID (db s) = Some seg ->
  warningsCount config (getHash paramUserID) now (db s)
  < maxNumberOfActiveWarnings config ->
  vote (mkRequest (Some UUID) (Some paramUserID) (Some (Int 0)) category addr)
       now s
  = (adjustLock voteTypes.normal true weight UUID
       (addToCounter voteTypes.normal UUID
          (weight - oldIncrementAmountOf row 0)
          (recordVote row UUID userID hashedIP weight s)),
     mkResponse 200 Empty).
Proof.
  intros userID hashedIP row weight Hvip Hseg Hwarn.
  rewrite score_vote_reaches_try;
    [|rewrite Hvip; now rewrite vip_not_suppressed | exact Hwarn].
  rewrite Hvip, lockGate_vip. fold userID hashedIP.
  unfold applyScoreVote. fold row.
  cbn -[recordVote addToCounter adjustLock oldIncrementAmountOf].
  rewrite Hseg. reflexivity.
Qed.

(** The case of a VIP below the warning limit. *)
Lemma vip_downvote_lands_on_floor_unwarned
    (UUID : SegmentUUID) (paramUserID : string)
    (category : option Category) (addr : string) (now : Z) (s : Stores)
    (seg : SponsorTimes.row) :
  let userID := getHash (String.append paramUserID UUID) in
  let weight :=
    - (SponsorTimes.votes seg + 2
       - oldIncrementAmountOf (votesRowOf userID UUID (privateDB s)) 0) in
  onVipList (getHash paramUserID) (db s) = true ->
  segment UUID (db s) = Some seg ->
  warningsCount config (getHash paramUserID) now (db s)
  < maxNumberOfActiveWarnings config ->
  let out :=
    vote (mkRequest (Some UUID) (Some paramUserID) (Some (Int 0)) category addr)
         now s in
  votesOf UUID (fst out) = Some (-2)
  /\ option_map Votes.type (votesRowOf userID UUID (privateDB (fst out)))
     = Some weight
  /\ lockedOf UUID (fst out)
     = Some (if 0 <? weight then 1
             else if weight <? 0 then 0
                  else SponsorTimes.locked seg)
  /\ snd out = mkResponse 200 Empty.
Proof.
  intros userID weight Hvip Hseg Hwarn out.
  unfold out.
  rewrite (vip_downvote_result UUID paramUserID category addr now s seg
             Hvip Hseg Hwarn).
  fold userID weight. cbn [fst snd].
  repeat split.
  - unfold votesOf. rewrite (segment_score_writes _ _ _ _ _ _ _ _ _ _ seg Hseg).
    cbn [andb Z.eqb voteTypes.normal].
    rewrite !andb_true_r.
    destruct (0 <? weight); [|destruct (weight <? 0)]; simpl; f_equal;
      unfold weight; lia.
  - apply ledger_score_writes.
  - unfold lockedOf. rewrite (segment_score_writes _ _ _ _ _ _ _ _ _ _ seg Hseg).
    cbn [andb Z.eqb voteTypes.normal].
    rewrite !andb_true_r.
    destruct (0 <? weight); [|destruct (weight <? 0)]; reflexivity.
Qed.

(** The case of a VIP below the warning limit. *)
Lemma vip_upvote_locks_unwarned
    (UUID : SegmentUUID) (paramUserID : string)
    (category : option Category) (addr : string) (now : Z) (s : Stores)
    (seg : SponsorTimes.row) :
  let userID := getHash (String.append paramUserID UUID) in
  let old := oldIncrementAmountOf (votesRowOf userID UUID (privateDB s)) 1 in
  onVipList (getHash paramUserID) (db s) = true ->
  segment UUID (db s) = Some seg ->
  warningsCount config (getHash paramUserID) now (db s)
  < maxNumberOfActiveWarnings config ->
  let out :=
    vote (mkRequest (Some UUID) (Some paramUserID) (Some (Int 1)) category addr)
         now s in
  votesOf UUID (fst out) = Some (SponsorTimes.votes seg + (1 - old))
  /\ lockedOf UUID (fst out) = Some 1
  /\ option_map Votes.type (votesRowOf userID UUID (privateDB (fst out))) = Some 1
  /\ snd out = mkResponse 200 Empty.
Proof.
  intros userID old Hvip Hseg Hwarn out.
  set (hashedIP := getHash (String.append addr (globalSalt config))).
  set (row := votesRowOf userID UUID (privateDB s)) in *.
  assert (Hout : out
                 = (adjustLock voteTypes.normal true 1 UUID
                      (addToCounter voteTypes.normal UUID (1 - old)
                         (recordVote row UUID userID hashedIP 1 s)),
                    mkResponse 200 Empty)).
  { unfold out. rewrite score_vote_reaches_try;
      [|rewrite Hvip; now rewrite vip_not_suppressed | exact Hwarn].
    rewrite Hvip, lockGate_vip. fold userID hashedIP.
    unfold applyScoreVote. fold row. reflexivity. }
  rewrite Hout. cbn [fst snd]. repeat split.
  - unfold votesOf. rewrite (segment_score_writes _ _ _ _ _ _ _ _ _ _ seg Hseg).
    reflexivity.
  - unfold lockedOf. rewrite (segment_score_writes _ _ _ _ _ _ _ _ _ _ seg Hseg).
    reflexivity.
  - apply ledger_score_writes.
Qed.

(** The case of a VIP below the warning limit. *)
Lemma vip_downvote_on_missing_segment_unwarned
    (UUID : SegmentUUID) (paramUserID : string)
    (category : option Category) (addr : string) (now : Z) (s : Stores) :
  onVipList (getHash paramUserID) (db s) = true ->
  segment UUID (db s) = None ->
  warningsCount config (getHash paramUserID) now (db s)
  < maxNumberOfActiveWarnings config ->
  vote (mkRequest (Some UUID) (Some paramUserID) (Some (Int 0)) category addr)
       now s
  = (s, mkResponse 500 (Json "Internal error creating segment vote")).
Proof.
  intros Hvip Hseg Hwarn.
  rewrite score_vote_reaches_try;
    [|rewrite Hvip; now rewrite vip_not_suppressed | exact Hwarn].
  rewrite Hvip. unfold applyScoreVote.
  cbn -[oldIncrementAmountOf]. rewrite Hseg. reflexivity.
Qed.

(** A VIP at the warning limit is turned away like anyone else. *)
Lemma warned_vip_vote (UUID : SegmentUUID) (paramUserID : string) t
    category addr now s :
  onVipList (getHash paramUserID) (db s) = true ->
  (maxNumberOfActiveWarnings config
   <=? warningsCount config (getHash paramUserID) now (db s)) = true ->
  vote (mkRequest (Some UUID) (Some paramUserID) (Some t) category addr) now s
  = (s, mkResponse 403 (Text warningMessage)).
Proof.
  intros Hvip Hwarn. unfold voteOnSponsorTime.
  cbn [q_UUID q_userID q_type q_category ip is_none is_some negb andb].
  rewrite Hvip, vip_not_suppressed. cbn [andb]. rewrite Hwarn.
  now destruct category.
Qed.

(** X10: a VIP's plain downvote (type 0) on an existing segment.  If the
    VIP has reached the warning limit, the answer is 403 with the warning
    message and nothing is written.  Otherwise the answer is 200 and the
    segment's vote counter is left at -2, for every counter and every
    previous weight of magnitude up to 2^51 (where the source's arithmetic
    on numbers is exact); the weight -(votes + 2 - old) is written to the
    ledger as the type code, and the lock flag is cleared when that weight
    is negative, set when it is positive, and kept when it is zero. *)
Theorem vip_downvote_lands_on_floor
    (UUID : SegmentUUID) (paramUserID : string)
    (category : option Category) (addr : string) (now : Z) (s : Stores)
    (seg : SponsorTimes.row) :
  let userID := getHash (String.append paramUserID UUID) in
  let old := oldIncrementAmountOf (votesRowOf userID UUID (privateDB s)) 0 in
  let weight := - (SponsorTimes.votes seg + 2 - old) in
  onVipList (getHash paramUserID) (db s) = true ->
  segment UUID (db s) = Some seg ->
  Z.abs (SponsorTimes.votes seg) <= 2 ^ 51 ->
  Z.abs old <= 2 ^ 51 ->
  let out :=
    vote (mkRequest (Some UUID) (Some paramUserID) (Some (Int 0)) category addr)
         now s in
  if maxNumberOfActiveWarnings config
     <=? warningsCount config (getHash paramUserID) now (db s)
  then out = (s, mkResponse 403 (Text warningMessage))
  else votesOf UUID (fst out) = Some (-2)
       /\ option_map Votes.type (votesRowOf userID UUID (privateDB (fst out)))
          = Some weight
       /\ lockedOf UUID (fst out)
          = Some (if 0 <? weight then 1
                  else if weight <? 0 then 0
                       else SponsorTimes.locked seg)
       /\ snd out = mkResponse 200 Empty.
Proof.
  intros userID old weight Hvip Hseg _ _ out.
  destruct (maxNumberOfActiveWarnings config <=? _) eqn:Hwarn.
  - now apply warned_vip_vote.
  - apply Z.leb_gt in Hwarn.
    now apply (vip_downvote_lands_on_floor_unwarned UUID paramUserID category
                 addr now s seg).
Qed.

(** X11: a VIP's plain upvote (type 1) on an existing segment.  If the VIP
    has reached the warning limit, the answer is 403 with the warning
    message and nothing is written.  Otherwise the vote is applied whether
    or not the segment was locked and without the checks on earlier
    submissions, shadow bans and shared addresses: the counter moves by 1
    less the weight of the voter's earlier vote, the segment is locked, the
    ledger holds code 1 and the answer is 200. *)
Theorem vip_upvote_locks
    (UUID : SegmentUUID) (paramUserID : string)
    (category : option Category) (addr : string) (now : Z) (s : Stores)
    (seg : SponsorTimes.row) :
  let userID := getHash (String.append paramUserID UUID) in
  let old := oldIncrementAmountOf (votesRowOf userID UUID (privateDB s)) 1 in
  onVipList (getHash paramUserID) (db s) = true ->
  segment UUID (db s) = Some seg ->
  let out :=
    vote (mkRequest (Some UUID) (Some paramUserID) (Some (Int 1)) category addr)
         now s in
  if maxNumberOfActiveWarnings config
     <=? warningsCount config (getHash paramUserID) now (db s)
  then out = (s, mkResponse 403 (Text warningMessage))
  else votesOf UUID (fst out) = Some (SponsorTimes.votes seg + (1 - old))
       /\ lockedOf UUID (fst out) = Some 1
       /\ option_map Votes.type (votesRowOf userID UUID (privateDB (fst out)))
          = Some 1
       /\ snd out = mkResponse 200 Empty.
Proof.
  intros userID old Hvip Hseg out.
  destruct (maxNumberOfActiveWarnings config <=? _) eqn:Hwarn.
  - now apply warned_vip_vote.
  - apply Z.leb_gt in Hwarn.
    now apply (vip_upvote_locks_unwarned UUID paramUserID category addr now s
                 seg).
Qed.

(** X19: a VIP's plain downvote on a segment that does not exist writes
    nothing; it is answered with status 500, or, if the VIP has reached the
    warning limit, with the warning's 403. *)
Theorem vip_downvote_on_missing_segment
    (UUID : SegmentUUID) (paramUserID : string)
    (category : option Category) (addr : string) (now : Z) (s : Stores) :
  onVipList (getHash paramUserID) (db s) = true ->
  segment UUID (db s) = None ->
  vote (mkRequest (Some UUID) (Some paramUserID) (Some (Int 0)) category addr)
       now s
  = (s, if maxNumberOfActiveWarnings config
           <=? warningsCount config (getHash paramUserID) now (db s)
        then mkResponse 403 (Text warningMessage)
        else mkResponse 500 (Json "Internal error creating segment vote")).
Proof.
  intros Hvip Hseg.
  destruct (maxNumberOfActiveWarnings config <=? _) eqn:Hwarn.
  - now apply warned_vip_vote.
  - apply Z.leb_gt in Hwarn.
    now apply vip_downvote_on_missing_segment_unwarned.
Qed.

(** *** Votes without privilege *)

Lemma privilegedWeight_plain vte inc old t v :
  privilegedWeight vte false false inc old t v = Some (inc, t).
Proof.
  unfold privilegedWeight.
  destruct (vte =? voteTypes.normal), (vte =? voteTypes.incorrect); reflexivity.
Qed.

Lemma lockGate_open UUID isVIP type d :
  finalStatus (lockGate UUID isVIP type d) = 200 ->
  lockGate UUID isVIP type d = mkFinal 200 None.
Proof.
  unfold lockGate.
  destruct (negb isVIP && negb (type_is type 1)); [|reflexivity].
  destruct (isSegmentLocked UUID d || isVideoLocked UUID d);
    [discriminate | reflexivity].
Qed.

Lemma own_has_submitted u UUID d :
  is_some (ownSubmission u UUID d) = true -> hasSubmitted u d = true.
Proof.
  unfold ownSubmission, hasSubmitted, get.
  destruct (find _ (Db.sponsorTimes d)) as [r|] eqn:Hown; [|discriminate].
  intros _. apply find_some in Hown as [Hin Hp].
  apply andb_prop in Hp as [Hp _].
  destruct (find (fun r0 => String.eqb (SponsorTimes.userID r0) u)
                 (Db.sponsorTimes d)) eqn:Hf; [reflexivity|].
  pose proof (find_none _ _ Hf r Hin) as Hn. simpl in Hn. congruence.
Qed.

(** A score vote is answered at one of the gates, the stores untouched, or
    is handed to the [try] block. *)
Lemma score_vote_gates (UUID : SegmentUUID) (paramUserID : string) t
    category addr now s :
  fst (vote (mkRequest (Some UUID) (Some paramUserID) (Some t) category addr)
            now s) = s
  \/ vote (mkRequest (Some UUID) (Some paramUserID) (Some t) category addr) now s
     = applyScoreVote UUID (getHash paramUserID)
         (getHash (String.append paramUserID UUID))
         (getHash (String.append addr (globalSalt config)))
         (onVipList (getHash paramUserID) (db s))
         (is_some (ownSubmission (getHash paramUserID) UUID (db s)))
         (Some t)
         (lockGate UUID (onVipList (getHash paramUserID) (db s)) (Some t) (db s))
         s.
Proof.
  unfold voteOnSponsorTime.
  cbn [q_UUID q_userID q_type q_category ip is_none is_some negb andb].
  destruct (suppressedFor _ _ _ _ _ && type_is (Some t) 1);
    [left; now destruct category|].
  destruct (suppressedFor _ _ _ _ _ && type_is (Some t) 0);
    [left; now destruct category|].
  destruct (maxNumberOfActiveWarnings config <=? _);
    [left; now destruct category|].
  right. now destruct category.
Qed.

(** X13: a voter who is not VIP and who has never submitted a segment, or
    is shadow-banned, or shares the address of another voter's vote on the
    segment, writes nothing with a score vote; when the vote has a
    recognised type, is let through by the lock gate and is stopped
    neither by the suppressed-segment gate nor by the warning check, the
    answer is nevertheless 200 with an empty body. *)
Theorem ineligible_vote_is_silent
    (UUID : SegmentUUID) (paramUserID : string) (t : Num)
    (category : option Category) (addr : string) (now : Z) (s : Stores) :
  let nonAnonUserID := getHash paramUserID in
  let userID := getHash (String.append paramUserID UUID) in
  let hashedIP := getHash (String.append addr (globalSalt config)) in
  let isOwn := is_some (ownSubmission nonAnonUserID UUID (db s)) in
  let req := mkRequest (Some UUID) (Some paramUserID) (Some t) category addr in
  onVipList nonAnonUserID (db s) = false ->
  hasSubmitted nonAnonUserID (db s)
  && negb (shadowBanned nonAnonUserID (privateDB s))
  && negb (sameIPVote UUID hashedIP userID (privateDB s)) = false ->
  fst (vote req now s) = s
  /\ (finalStatus (lockGate UUID false (Some t) (db s)) = 200 ->
      suppressedFor UUID false isOwn (Some t) (db s)
      && (type_is (Some t) 1 || type_is (Some t) 0) = false ->
      warningsCount config nonAnonUserID now (db s)
      < maxNumberOfActiveWarnings config ->
      (exists z inc, t = Int z /\ incrementAmountOf z = Some inc) ->
      snd (vote req now s) = mkResponse 200 Empty).
Proof.
  intros nonAnonUserID userID hashedIP isOwn req Hvip Hinel.
  assert (Hable : forall inc fr,
             ableToVoteOf false isOwn inc nonAnonUserID userID UUID hashedIP fr s
             = false).
  { intros inc fr. unfold ableToVoteOf. cbn [orb].
    destruct (hasSubmitted nonAnonUserID (db s)),
      (shadowBanned nonAnonUserID (privateDB s)),
      (sameIPVote UUID hashedIP userID (privateDB s));
      try discriminate Hinel; cbn [negb];
      repeat (rewrite ?andb_false_r; cbn [andb]); reflexivity. }
  split.
  - destruct (score_vote_gates UUID paramUserID t category addr now s)
      as [H|H]; [exact H|].
    unfold req. rewrite H. fold nonAnonUserID userID hashedIP isOwn.
    rewrite Hvip. unfold applyScoreVote.
    destruct t as [|z]; [reflexivity|].
    destruct (incrementAmountOf z); [|reflexivity]. cbn zeta.
    destruct (privilegedWeight _ _ _ _ _ _ _) as [[inc ty]|]; [|reflexivity].
    now rewrite Hable.
  - intros Hopen Hsup Hwarn (z & plain & -> & Hinc).
    unfold req. rewrite score_vote_reaches_try;
      fold nonAnonUserID; rewrite ?Hvip; [|exact Hsup|exact Hwarn].
    fold userID hashedIP isOwn.
    rewrite (lockGate_open _ _ _ _ Hopen).
    unfold applyScoreVote. rewrite Hinc. cbn zeta.
    assert (Hpw : exists p,
               privilegedWeight (voteTypeEnumOf (Some (Int z))) false isOwn plain
                 (oldIncrementAmountOf (votesRowOf userID UUID (privateDB s)) z)
                 z (segment UUID (db s)) = Some p).
    { destruct isOwn eqn:Hown.
      - destruct (own_segment_exists _ _ _ Hown) as [seg ->].
        apply privilegedWeight_defined.
      - rewrite privilegedWeight_plain. eauto. }
    destruct Hpw as [[inc ty] ->]. now rewrite Hable.
Qed.

(** X14: a score vote whose type is not a number, or a number other than
    0, 1, 10, 11 and 20, writes nothing and is answered with status 400,
    unless the voter has reached the warning limit, in which case the
    answer is the warning's 403. *)
Theorem unrecognised_type_is_rejected
    (UUID : SegmentUUID) (paramUserID : string) (t : Num)
    (category : option Category) (addr : string) (now : Z) (s : Stores) :
  (forall z, t = Int z -> incrementAmountOf z = None) ->
  vote (mkRequest (Some UUID) (Some paramUserID) (Some t) category addr) now s
  = (s, if maxNumberOfActiveWarnings config
           <=? warningsCount config (getHash paramUserID) now (db s)
        then mkResponse 403 (Text warningMessage)
        else sendStatus 400).
Proof.
  intros Hbad.
  assert (H1 : type_is (Some t) 1 = false).
  { destruct t as [|z]; [reflexivity|]. simpl.
    destruct (z =? 1) eqn:E; [|reflexivity].
    apply Z.eqb_eq in E. subst. specialize (Hbad 1 eq_refl). discriminate. }
  assert (H0 : type_is (Some t) 0 = false).
  { destruct t as [|z]; [reflexivity|]. simpl.
    destruct (z =? 0) eqn:E; [|reflexivity].
    apply Z.eqb_eq in E. subst. specialize (Hbad 0 eq_refl). discriminate. }
  unfold voteOnSponsorTime.
  cbn [q_UUID q_userID q_type q_category ip is_none is_some negb andb].
  rewrite H1, H0, !andb_false_r.
  destruct (maxNumberOfActiveWarnings config <=? _);
    [now destruct category|].
  unfold applyScoreVote.
  destruct t as [|z]; [now destruct category|].
  rewrite (Hbad z eq_refl). now destruct category.
Qed.

(** X15: a voter who is neither VIP nor the owner and whose ledger row
    already holds the type they request changes no segment: whether or not
    the vote is eligible, the public store is left as it was. *)
Theorem unprivileged_revote_changes_nothing
    (UUID : SegmentUUID) (paramUserID : string) (z : Z)
    (category : option Category) (addr : string) (now : Z) (s : Stores)
    (prior : Votes.row) :
  onVipList (getHash paramUserID) (db s) = false ->
  ownSubmission (getHash paramUserID) UUID (db s) = None ->
  votesRowOf (getHash (String.append paramUserID UUID)) UUID (privateDB s)
  = Some prior ->
  Votes.type prior = z ->
  db (fst (vote (mkRequest (Some UUID) (Some paramUserID) (Some (Int z))
                           category addr) now s))
  = db s.
Proof.
  intros Hvip Hown Hrow Hty.
  destruct (score_vote_gates UUID paramUserID (Int z) category addr now s)
    as [H|H]; [now rewrite H|].
  rewrite H, Hvip, Hown. cbn [is_some].
  unfold applyScoreVote.
  destruct (incrementAmountOf z) as [plain|] eqn:Hinc; [|reflexivity].
  cbn zeta. rewrite Hrow.
  rewrite (unprivileged_revote_same_weight prior z plain Hinc Hty).
  rewrite privilegedWeight_plain.
  destruct (ableToVoteOf _ _ _ _ _ _ _ _ _); [|reflexivity].
  cbn [fst]. unfold adjustLock. cbn [andb].
  unfold addToCounter, recordVote. cbn [db on_db on_privateDB].
  rewrite Z.sub_diag.
  destruct (db s) as [rows vips locks tallies warns]. unfold Db.set_sponsorTimes.
  cbn [Db.sponsorTimes Db.vipUsers Db.lockCategories Db.categoryVotes Db.warnings].
  f_equal. apply update_fixed. intros r _.
  destruct (voteTypeEnumOf (Some (Int z)) =? voteTypes.normal), r;
    unfold SponsorTimes.set_votes, SponsorTimes.set_incorrectVotes;
    cbn [SponsorTimes.UUID SponsorTimes.videoID SponsorTimes.hashedVideoID
         SponsorTimes.service SponsorTimes.userID SponsorTimes.category
         SponsorTimes.votes SponsorTimes.incorrectVotes SponsorTimes.views
         SponsorTimes.locked SponsorTimes.timeSubmitted];
    now rewrite Z.add_0_r.
Qed.


(** X20: the owner's own plain downvote.  An owner who is not VIP, is not
    stopped by a lock, a warning, a shadow ban or a shared address, and
    downvotes their segment is answered 200; the vote carries the weight
    -(votes + 2 - old).  When that weight is not positive the segment's vote
    counter ends at -2, the ledger holds the weight and the lock flag is
    left alone; when it is positive nothing is written. *)
Theorem owner_downvote_lands_on_floor
    (UUID : SegmentUUID) (paramUserID : string)
    (category : option Category) (addr : string) (now : Z) (s : Stores)
    (seg : SponsorTimes.row) :
  let nonAnonUserID := getHash paramUserID in
  let userID := getHash (String.append paramUserID UUID) in
  let hashedIP := getHash (String.append addr (globalSalt config)) in
  let weight :=
    - (SponsorTimes.votes seg + 2
       - oldIncrementAmountOf (votesRowOf userID UUID (privateDB s)) 0) in
  onVipList nonAnonUserID (db s) = false ->
  is_some (ownSubmission nonAnonUserID UUID (db s)) = true ->
  segment UUID (db s) = Some seg ->
  finalStatus (lockGate UUID false (Some (Int 0)) (db s)) = 200 ->
  warningsCount config nonAnonUserID now (db s) < maxNumberOfActiveWarnings config ->
  shadowBanned nonAnonUserID (privateDB s) = false ->
  sameIPVote UUID hashedIP userID (privateDB s) = false ->
  let out :=
    vote (mkRequest (Some UUID) (Some paramUserID) (Some (Int 0)) category addr)
         now s in
  snd out = mkResponse 200 Empty
  /\ (0 < weight -> fst out = s)
  /\ (weight <= 0 ->
      votesOf UUID (fst out) = Some (-2)
      /\ lockedOf UUID (fst out) = Some (SponsorTimes.locked seg)
      /\ option_map Votes.type (votesRowOf userID UUID (privateDB (fst out)))
         = Some weight).
Proof.
  intros nonAnonUserID userID hashedIP weight Hvip Hown Hseg Hopen Hwarn
         Hban Hip out.
  set (row := votesRowOf userID UUID (privateDB s)) in *.
  set (old := oldIncrementAmountOf row 0) in *.
  assert (Hout : out
                 = (if 0 <? weight then s
                    else adjustLock voteTypes.normal false weight UUID
                           (addToCounter voteTypes.normal UUID (weight - old)
                              (recordVote row UUID userID hashedIP weight s)),
                    mkResponse 200 Empty)).
  { unfold out. rewrite score_vote_reaches_try;
      fold nonAnonUserID; rewrite ?Hvip, ?Hown; [| |exact Hwarn].
    - fold userID hashedIP. rewrite (lockGate_open _ _ _ _ Hopen).
      unfold applyScoreVote. fold row.
      cbn -[recordVote addToCounter adjustLock oldIncrementAmountOf
            ableToVoteOf].
      rewrite Hseg. fold old weight.
      unfold ableToVoteOf.
      rewrite (own_has_submitted _ _ _ Hown), Hban, Hip.
      cbn [orb andb negb finalStatus Z.eqb Pos.eqb].
      destruct (0 <? weight); reflexivity.
    - reflexivity. }
  rewrite Hout. cbn [fst snd]. split; [reflexivity|]. split.
  - intros Hpos. apply Z.ltb_lt in Hpos. now rewrite Hpos.
  - intros Hneg. apply Z.ltb_ge in Hneg. rewrite Hneg. repeat split.
    + unfold votesOf.
      rewrite (segment_score_writes _ _ _ _ _ _ _ _ _ _ seg Hseg).
      cbn [andb Z.eqb voteTypes.normal]. simpl. f_equal. unfold weight, old. lia.
    + unfold lockedOf.
      rewrite (segment_score_writes _ _ _ _ _ _ _ _ _ _ seg Hseg).
      reflexivity.
    + apply ledger_score_writes.
Qed.

(** *** The weight of a category vote *)

(** X17: a tallied category vote adds the voter's weight, 500 for a VIP
    and 1 otherwise, to the tally of the category voted for (starting
    from 0 when it had none), and, when the voter had an earlier vote for
    another category, takes the same weight off that category's tally. *)
Theorem category_vote_moves_weight
    (UUID : SegmentUUID) (paramUserID : string) (C : Category)
    (addr : string) (now : Z) (s : Stores) (seg : SponsorTimes.row) :
  let nonAnonUserID := getHash paramUserID in
  let weight := if onVipList nonAnonUserID (db s) then 500 else 1 in
  notDuplicate (usersLastVoteInfo UUID nonAnonUserID (privateDB s)) C ->
  segment UUID (db s) = Some seg ->
  existsb (String.eqb C) (categoryList config) = true ->
  getCategoryActionType C = Skippable ->
  let s' :=
    fst (vote (mkRequest (Some UUID) (Some paramUserID) None (Some C) addr)
              now s) in
  option_map CategoryVotes.votes (tally UUID C (db s'))
  = Some (match tally UUID C (db s) with
          | Some before => CategoryVotes.votes before + weight
          | None => weight
          end)
  /\ forall n D before,
       usersLastVoteInfo UUID nonAnonUserID (privateDB s) = Some (n, D) ->
       tally UUID D (db s) = Some before ->
       option_map CategoryVotes.votes (tally UUID D (db s'))
       = Some (CategoryVotes.votes before - weight).
Proof.
  intros nonAnonUserID weight Hdup Hseg Hin Hskip s'.
  unfold s'. rewrite vote_category_request.
  rewrite (categoryVote_tallied _ _ _ _ _ _ _ _ _ _ _ seg Hdup Hseg Hin Hskip).
  cbv zeta. fold nonAnonUserID weight.
  set (h := getHash (String.append addr (globalSalt config))).
  set (last := usersLastVoteInfo UUID nonAnonUserID (privateDB s)) in *.
  set (s1 := addCategoryVote UUID nonAnonUserID C h weight now last s).
  set (s2 := seedIncumbent UUID (SponsorTimes.category seg) s1).
  assert (Hfinal : forall c,
             tally UUID c
               (db (fst (if readyToChange
                              (nextCategoryCountOf (tally UUID C (db s)) weight)
                              (currentCategoryCountOf
                                 (tally UUID (SponsorTimes.category seg) (db s1))
                                 (segment UUID (db s1)) (db s1))
                              (segment UUID (db s1))
                              (onVipList nonAnonUserID (db s))
                              (is_some (ownSubmission nonAnonUserID UUID (db s)))
                         then replaceCategory UUID C s2 else s2,
                         sendStatus
                           (finalStatus
                              (lockGate UUID (onVipList nonAnonUserID (db s))
                                        None (db s))))))
             = tally UUID c (db s2))
    by (intros c; destruct (readyToChange _ _ _ _ _); reflexivity).
  rewrite !Hfinal. split.
  - destruct (addCategoryVote_tally UUID nonAnonUserID C h weight now last s Hdup)
      as (row & Hrow & Hvotes).
    fold s1 in Hrow.
    unfold s2. rewrite (seedIncumbent_keeps _ _ _ _ _ Hrow). simpl.
    rewrite Hvotes. unfold nextCategoryCountOf.
    destruct (tally UUID C (db s)); reflexivity.
  - intros n D before Hlast Hbefore. rewrite Hfinal.
    unfold s2.
    rewrite (seedIncumbent_keeps UUID (SponsorTimes.category seg) D
               (CategoryVotes.set_votes (fun v => v - weight) before) s1);
      [reflexivity|].
    assert (HDC : D <> C).
    { intros ->. unfold notDuplicate in Hdup. subst last.
      rewrite Hlast in Hdup. rewrite String.eqb_refl in Hdup. discriminate. }
    subst s1 last. unfold addCategoryVote. rewrite Hlast.
    rewrite (usersLastVoteInfo_counted _ _ _ _ _ Hlast).
    unfold tally in *.
    destruct (0 <? count (tallyRow UUID C) (Db.categoryVotes (db s))); simpl.
    + rewrite get_update_same by reflexivity.
      rewrite tally_update_other by exact HDC. now rewrite Hbefore.
    + rewrite get_update_same by reflexivity.
      rewrite (get_insert_kept _ _ _ _ Hbefore). reflexivity.
Qed.

(** *** A privileged downvote followed by ordinary votes *)

(** The answers of the suppressed-segment gate (lines 291-305). *)
Lemma suppressed_gate_answers (UUID : SegmentUUID) (paramUserID : string)
    category addr now s seg :
  segment UUID (db s) = Some seg ->
  SponsorTimes.votes seg <= -2 ->
  onVipList (getHash paramUserID) (db s) = false ->
  ownSubmission (getHash paramUserID) UUID (db s) = None ->
  vote (mkRequest (Some UUID) (Some paramUserID) (Some (Int 1)) category addr)
       now s
  = (s, mkResponse 403 (Text suppressedMessage))
  /\ vote (mkRequest (Some UUID) (Some paramUserID) (Some (Int 0)) category addr)
          now s
     = (s, mkResponse 200 Empty).
Proof.
  intros Hseg Hlow Hvip Hown.
  assert (Hsup : forall t, suppressedFor UUID false false (Some t) (db s) = true).
  { intros t. unfold suppressedFor. rewrite Hseg. simpl.
    apply Z.leb_le. exact Hlow. }
  split; unfold voteOnSponsorTime;
    cbn [q_UUID q_userID q_type q_category ip is_none is_some negb andb];
    rewrite Hvip, Hown; cbn [is_some]; rewrite Hsup;
    destruct category; reflexivity.
Qed.

Lemma ownSubmission_score_writes u vte isVIP inc UUID delta row userID hashedIP
    ty s :
  ownSubmission u UUID (db s) = None ->
  ownSubmission u UUID
    (db (adjustLock vte isVIP inc UUID
           (addToCounter vte UUID delta
              (recordVote row UUID userID hashedIP ty s)))) = None.
Proof.
  intros Hnone.
  destruct (score_writes_rows vte isVIP inc UUID delta row userID hashedIP ty s)
    as (lock & Hrows & Hlock).
  unfold ownSubmission in *. rewrite Hrows.
  rewrite get_update, get_update, Hnone; [reflexivity | |].
  - intros r. destruct (vte =? voteTypes.normal); reflexivity.
  - intros r. destruct Hlock as [[_ [l ->]]| ->]; reflexivity.
Qed.

(** X21: once a VIP has downvoted a segment, a voter who is neither VIP
    nor the owner cannot move it: their plain upvote is answered 403 and
    their plain downvote 200, and neither writes anything. *)
Theorem vip_downvote_suppresses_segment
    (UUID : SegmentUUID) (vip voter : string)
    (category category' : option Category) (addr addr' : string)
    (now now' : Z) (s : Stores) (seg : SponsorTimes.row) :
  onVipList (getHash vip) (db s) = true ->
  segment UUID (db s) = Some seg ->
  warningsCount config (getHash vip) now (db s) < maxNumberOfActiveWarnings config ->
  onVipList (getHash voter) (db s) = false ->
  ownSubmission (getHash voter) UUID (db s) = None ->
  let s1 :=
    fst (vote (mkRequest (Some UUID) (Some vip) (Some (Int 0)) category addr)
              now s) in
  vote (mkRequest (Some UUID) (Some voter) (Some (Int 1)) category' addr') now' s1
  = (s1, mkResponse 403 (Text suppressedMessage))
  /\ vote (mkRequest (Some UUID) (Some voter) (Some (Int 0)) category' addr')
          now' s1
     = (s1, mkResponse 200 Empty).
Proof.
  intros Hvip Hseg Hwarn Hvoter Hown s1.
  unfold s1.
  rewrite (vip_downvote_result UUID vip category addr now s seg Hvip Hseg Hwarn).
  cbn [fst].
  set (userID := getHash (String.append vip UUID)).
  set (row := votesRowOf userID UUID (privateDB s)).
  set (weight := - (SponsorTimes.votes seg + 2 - oldIncrementAmountOf row 0)).
  set (delta := weight - oldIncrementAmountOf row 0).
  set (h := getHash (String.append addr (globalSalt config))).
  pose proof (segment_score_writes voteTypes.normal true weight UUID delta row
                userID h weight s seg Hseg) as Hseg1.
  eapply suppressed_gate_answers.
  - exact Hseg1.
  - cbn [andb Z.eqb voteTypes.normal]. rewrite !andb_true_r.
    destruct (0 <? weight); [|destruct (weight <? 0)]; simpl;
      unfold delta, weight; lia.
  - destruct (score_writes_other_tables voteTypes.normal true weight UUID delta
                row userID h weight s) as (Hreg & _).
    unfold registries in Hreg. injection Hreg as Hvips _ _ _.
    unfold onVipList, vipCount in *. rewrite Hvips. exact Hvoter.
  - now apply ownSubmission_score_writes.
Qed.

(** *** Reports by a VIP, malformed requests, the ledger's addresses *)



(** X23: a request without a segment id, without a voter id, or with
    neither a type nor a category is answered with status 400 and writes
    nothing. *)
Theorem malformed_request_is_rejected (req : Request) (now : Z) (s : Stores) :
  q_UUID req = None \/ q_userID req = None
  \/ (q_type req = None /\ q_category req = None) ->
  vote req now s = (s, sendStatus 400).
Proof.
  destruct req as [uuid user type category addr]. cbn.
  intros [->|[->|[-> ->]]]; unfold voteOnSponsorTime; cbn.
  - reflexivity.
  - now destruct uuid.
  - now destruct uuid, user.
Qed.

(** X24: no request changes the segment, the voter or the address stored
    in an existing ledger row, and a request adds at most one row: a
    repeated vote, even from another address, keeps the address of the
    voter's first vote. *)
Theorem ledger_keeps_addresses (req : Request) (now : Z) (s : Stores) :
  let key v := (Votes.UUID v, Votes.userID v, Votes.hashedIP v) in
  exists added,
    map key (PrivateDb.votes (privateDB (fst (vote req now s))))
    = map key (PrivateDb.votes (privateDB s)) ++ added
    /\ (List.length added <= 1)%nat.
Proof.
  intros key.
  destruct (vote_shape req now s)
    as [[Hs _]
       |[(UUID & v & t & inc & ty & delta & _ & _ & _ & _ & Hs)
        |(UUID & v & C & seg & _ & _ & _ & _ & _ & _ & _ & Hs)]].
  - exists []. rewrite Hs, app_nil_r. auto.
  - destruct (score_writes_other_tables (voteTypeEnumOf (Some t))
                (onVipList (getHash v) (db s)) inc UUID delta
                (votesRowOf (getHash (String.append v UUID)) UUID (privateDB s))
                (getHash (String.append v UUID))
                (getHash (String.append (ip req) (globalSalt config))) ty s)
      as (_ & _ & _ & Hledger).
    rewrite Hs, Hledger. unfold recordVote.
    destruct (votesRowOf _ _ _); simpl.
    + exists []. rewrite app_nil_r. split; [|auto].
      now apply map_update.
    + eexists [_]. split; [|auto]. unfold insert. now rewrite map_app.
  - cbv zeta in Hs.
    destruct (category_writes_other_tables UUID (getHash v) C
                (getHash (String.append (ip req) (globalSalt config)))
                (if onVipList (getHash v) (db s) then 500 else 1) now
                (usersLastVoteInfo UUID (getHash v) (privateDB s))
                (SponsorTimes.category seg) s)
      as (_ & _ & Hledger & _ & Hledger' & _).
    exists []. rewrite app_nil_r. split; [|auto].
    destruct Hs as [Hs|Hs]; rewrite Hs; [now rewrite Hledger | now rewrite Hledger'].
Qed.

End Frames.

(** ** The further properties on the demo installation *)

(** "bob" downvotes the locked demo segment: 403, nothing written. *)
Lemma score_vote_writes_only_with_200_witness :
  fst (demoVote (scoreRequest "bob" 0) (demoStores 1 1 [])) = demoStores 1 1 [].
Proof.
  apply (score_vote_writes_only_with_200 demoHash demoConfig demoActionType);
    [discriminate | now vm_compute].
Defined.

(** "vera" downvotes "seg1": the rows of "seg2" stay. *)
Lemma vote_touches_only_its_segment_witness :
  let s := demoStores 1 1 [] in
  let s' := fst (demoVote (scoreRequest "vera" 0) s) in
  segment "seg2" (db s') = segment "seg2" (db s)
  /\ filter (segmentRow "seg2") (Db.sponsorTimes (db s'))
     = filter (segmentRow "seg2") (Db.sponsorTimes (db s))
  /\ List.length (Db.sponsorTimes (db s')) = List.length (Db.sponsorTimes (db s)).
Proof.
  apply (vote_touches_only_its_segment demoHash demoConfig demoActionType
           (scoreRequest "vera" 0) 6000 (demoStores 1 1 []) "seg2").
  discriminate.
Defined.

(** "bob" upvotes the locked demo segment: the lock flags stay. *)
Lemma non_vip_vote_keeps_locks_witness :
  map SponsorTimes.locked
      (Db.sponsorTimes (db (fst (demoVote (scoreRequest "bob" 1)
                                          (demoStores 1 1 [])))))
  = map SponsorTimes.locked (Db.sponsorTimes (db (demoStores 1 1 []))).
Proof.
  apply (non_vip_vote_keeps_locks demoHash demoConfig demoActionType
           (scoreRequest "bob" 1) 6000 (demoStores 1 1 [])).
  intros u [= <-]. reflexivity.
Defined.

(** "bob" votes twice: still one row for "bob" in the ledger. *)
Lemma ledger_stays_unique_witness :
  count (ledgerRow "h:bobseg1" "seg1")
        (PrivateDb.votes
           (privateDB (fst (demoVote (scoreRequest "bob" 1)
                                     (demoStores 1 0 bobsDownvote))))) <= 1.
Proof.
  apply (ledger_stays_unique demoHash demoConfig demoActionType
           (scoreRequest "bob" 1) 6000 (demoStores 1 0 bobsDownvote)).
  intros u U. unfold count. cbn [demoStores privateDB PrivateDb.votes bobsDownvote
                                  filter].
  destruct (ledgerRow u U _); cbn; lia.
Defined.

(** "bob" votes "selfpromo": one tally row for "sponsor" afterwards. *)
Lemma tallies_stay_unique_witness :
  count (tallyRow "seg1" "sponsor")
        (Db.categoryVotes
           (db (fst (demoVote (categoryRequest "bob" "selfpromo")
                              (demoStores 1 0 []))))) <= 1.
Proof.
  apply (tallies_stay_unique demoHash demoConfig demoActionType
           (categoryRequest "bob" "selfpromo") 6000 (demoStores 1 0 [])).
  intros U c. now vm_compute.
Defined.

(** "vera" downvotes the locked demo segment standing at 5; "wally", a VIP
    with three warnings, is turned away. *)
Lemma vip_downvote_lands_on_floor_witness :
  (let out := demoVote (scoreRequest "vera" 0) (demoStores 5 1 []) in
   votesOf "seg1" (fst out) = Some (-2)
   /\ option_map Votes.type (votesRowOf "h:veraseg1" "seg1" (privateDB (fst out)))
      = Some (-7)
   /\ lockedOf "seg1" (fst out) = Some 0
   /\ snd out = mkResponse 200 Empty)
  /\ demoVote (scoreRequest "wally" 0) (warnedVipStores 5 1)
     = (warnedVipStores 5 1, mkResponse 403 (Text warningMessage)).
Proof.
  split.
  - apply (vip_downvote_lands_on_floor demoHash demoConfig demoActionType
             "seg1" "vera" None "10.0.0.1" 6000 (demoStores 5 1 [])
             (demoSegment 5 1));
      first [reflexivity | now vm_compute].
  - apply (vip_downvote_lands_on_floor demoHash demoConfig demoActionType
             "seg1" "wally" None "10.0.0.1" 6000 (warnedVipStores 5 1)
             (demoSegment 5 1));
      first [reflexivity | now vm_compute].
Defined.

(** "vera" upvotes the unlocked demo segment; "wally", a VIP with three
    warnings, is turned away. *)
Lemma vip_upvote_locks_witness :
  (let out := demoVote (scoreRequest "vera" 1) (demoStores 1 0 []) in
   votesOf "seg1" (fst out) = Some 2
   /\ lockedOf "seg1" (fst out) = Some 1
   /\ option_map Votes.type (votesRowOf "h:veraseg1" "seg1" (privateDB (fst out)))
      = Some 1
   /\ snd out = mkResponse 200 Empty)
  /\ demoVote (scoreRequest "wally" 1) (warnedVipStores 1 0)
     = (warnedVipStores 1 0, mkResponse 403 (Text warningMessage)).
Proof.
  split.
  - apply (vip_upvote_locks demoHash demoConfig demoActionType
             "seg1" "vera" None "10.0.0.1" 6000 (demoStores 1 0 [])
             (demoSegment 1 0)); reflexivity.
  - apply (vip_upvote_locks demoHash demoConfig demoActionType
             "seg1" "wally" None "10.0.0.1" 6000 (warnedVipStores 1 0)
             (demoSegment 1 0)); reflexivity.
Defined.

(** "vera" downvotes a segment that is not there; so does "wally", a VIP
    with three warnings. *)
Lemma vip_downvote_on_missing_segment_witness :
  demoVote (scoreRequestOn "seg9" "vera" 0) (demoStores 1 0 [])
  = (demoStores 1 0 [],
     mkResponse 500 (Json "Internal error creating segment vote"))
  /\ demoVote (scoreRequestOn "seg9" "wally" 0) (warnedVipStores 1 0)
     = (warnedVipStores 1 0, mkResponse 403 (Text warningMessage)).
Proof.
  split.
  - apply (vip_downvote_on_missing_segment demoHash demoConfig demoActionType
             "seg9" "vera" None "10.0.0.1" 6000 (demoStores 1 0 []));
      reflexivity.
  - apply (vip_downvote_on_missing_segment demoHash demoConfig demoActionType
             "seg9" "wally" None "10.0.0.1" 6000 (warnedVipStores 1 0));
      reflexivity.
Defined.

(** "carol" has submitted nothing: the upvote is answered 200 and ignored. *)
Lemma ineligible_vote_is_silent_witness :
  fst (demoVote (scoreRequest "carol" 1) (demoStores 1 0 [])) = demoStores 1 0 []
  /\ snd (demoVote (scoreRequest "carol" 1) (demoStores 1 0 []))
     = mkResponse 200 Empty.
Proof.
  destruct (ineligible_vote_is_silent demoHash demoConfig demoActionType
              "seg1" "carol" (Int 1) None "10.0.0.1" 6000 (demoStores 1 0 []))
    as (Hsame & Hanswer); [reflexivity | reflexivity |].
  split; [exact Hsame|].
  apply Hanswer; [reflexivity | reflexivity | now vm_compute |].
  exists 1, 1. split; reflexivity.
Defined.

(** Type 5 is no vote. *)
Lemma unrecognised_type_is_rejected_witness :
  demoVote (scoreRequest "bob" 5) (demoStores 1 0 [])
  = (demoStores 1 0 [], sendStatus 400).
Proof.
  apply (unrecognised_type_is_rejected demoHash demoConfig demoActionType
           "seg1" "bob" (Int 5) None "10.0.0.1" 6000 (demoStores 1 0 [])).
  intros z [= <-]. reflexivity.
Defined.

(** "bob" repeats the stored downvote. *)
Lemma unprivileged_revote_changes_nothing_witness :
  db (fst (demoVote (scoreRequest "bob" 0) (demoStores 1 0 bobsDownvote)))
  = db (demoStores 1 0 bobsDownvote).
Proof.
  apply (unprivileged_revote_changes_nothing demoHash demoConfig demoActionType
           "seg1" "bob" 0 None "10.0.0.1" 6000 (demoStores 1 0 bobsDownvote)
           (Votes.mk "seg1" "h:bobseg1" "h:10.0.0.1salt" 0));
    reflexivity.
Defined.


(** "alice", the owner, downvotes the demo segment standing at 1. *)
Lemma owner_downvote_lands_on_floor_witness :
  let out := demoVote (scoreRequest "alice" 0) (demoStores 1 0 []) in
  snd out = mkResponse 200 Empty
  /\ votesOf "seg1" (fst out) = Some (-2)
  /\ lockedOf "seg1" (fst out) = Some 0
  /\ option_map Votes.type (votesRowOf "h:aliceseg1" "seg1" (privateDB (fst out)))
     = Some (-3).
Proof.
  destruct (owner_downvote_lands_on_floor demoHash demoConfig demoActionType
              "seg1" "alice" None "10.0.0.1" 6000 (demoStores 1 0 [])
              (demoSegment 1 0))
    as (Hanswer & _ & Hfloor).
  1-7: first [reflexivity | now vm_compute].
  split; [exact Hanswer|]. apply Hfloor. now vm_compute.
Defined.

(** "bob" has voted "selfpromo" and now votes "intro": "intro" gets its
    first vote and "selfpromo" gives one back. *)
Lemma category_vote_moves_weight_witness :
  let s1 := fst (demoVote (categoryRequest "bob" "selfpromo") (demoStores 1 0 [])) in
  let s2 := fst (demoVote (categoryRequest "bob" "intro") s1) in
  option_map CategoryVotes.votes (tally "seg1" "intro" (db s2)) = Some 1
  /\ option_map CategoryVotes.votes (tally "seg1" "selfpromo" (db s2)) = Some (1 - 1).
Proof.
  destruct (category_vote_moves_weight demoHash demoConfig demoActionType
              "seg1" "bob" "intro" "10.0.0.1" 6000
              (fst (demoVote (categoryRequest "bob" "selfpromo")
                             (demoStores 1 0 [])))
              (demoSegment 1 0))
    as [Hnew Hold]; [reflexivity | reflexivity | reflexivity | reflexivity |].
  split; [exact Hnew|].
  apply (Hold 1 "selfpromo" (CategoryVotes.mk "seg1" "selfpromo" 1));
    reflexivity.
Defined.

(** After "vera"'s downvote "bob" can neither raise nor lower the segment. *)
Lemma vip_downvote_suppresses_segment_witness :
  let s1 := fst (demoVote (scoreRequest "vera" 0) (demoStores 1 1 [])) in
  demoVote (scoreRequest "bob" 1) s1 = (s1, mkResponse 403 (Text suppressedMessage))
  /\ demoVote (scoreRequest "bob" 0) s1 = (s1, mkResponse 200 Empty).
Proof.
  apply (vip_downvote_suppresses_segment demoHash demoConfig demoActionType
           "seg1" "vera" "bob" None None "10.0.0.1" "10.0.0.1" 6000 6000
           (demoStores 1 1 []) (demoSegment 1 1));
    try reflexivity; now vm_compute.
Defined.


(** A request without a segment id. *)
Lemma malformed_request_is_rejected_witness :
  demoVote (mkRequest None (Some "bob") (Some (Int 1)) None "10.0.0.1")
           (demoStores 1 0 [])
  = (demoStores 1 0 [], sendStatus 400).
Proof.
  apply (malformed_request_is_rejected demoHash demoConfig demoActionType).
  left. reflexivity.
Defined.

(** "bob", who does not own the demo segment, votes "selfpromo" twice. *)
Lemma category_vote_repeated_is_noop_witness :
  let s1 := fst (demoVote (categoryRequest "bob" "selfpromo") (demoStores 1 0 [])) in
  fst (demoVote (categoryRequest "bob" "selfpromo") s1) = s1.
Proof.
  apply (category_vote_repeated_is_noop demoHash demoConfig demoActionType
           "seg1" "bob" "selfpromo" "10.0.0.1" "10.0.0.1" 6000 6000
           (demoStores 1 0 [])).
  reflexivity.
Defined.

(** For the owner the repeat can count again: "wally" owns "seg3", in
    category "intro", and votes "sponsor" twice.  After the first vote the
    records in their name are the vote and the baseline for "intro", whose
    group comes first; the second vote moves both to "sponsor". *)
Lemma owner_category_vote_counts_twice :
  let s1 := fst (demoVote (categoryRequestOn "seg3" "wally" "sponsor")
                          (demoStores 1 0 [])) in
  let s2 := fst (demoVote (categoryRequestOn "seg3" "wally" "sponsor") s1) in
  usersLastVoteInfo "seg3" "h:wally" (privateDB s1) = Some (1, "intro")
  /\ option_map CategoryVotes.votes (tally "seg3" "sponsor" (db s1)) = Some 1
  /\ option_map CategoryVotes.votes (tally "seg3" "sponsor" (db s2)) = Some 2
  /\ option_map CategoryVotes.votes (tally "seg3" "intro" (db s2)) = Some 0.
Proof. repeat split. Qed.
